(** * Offline attendance queue, service worker and attendance routes

    A shallow embedding of the offline-first synchronisation code of the
    attendance tracker:

    - [OfflineStorage]: the client library (IndexedDB store of attendance
      records, read of the pending view, per-record submission loop);
    - [ServiceWorker]: the service worker's own copy of the submission loop
      and its network-first handler for API reads;
    - [Server]: the in-memory storage and the routes the client talks
      to, among them [GET /api/students] and [POST /api/attendance/mark];
    - [WorkerCaches], [RfidScanner], [Report]: the worker's cache cleanup,
      the scanner component and the summary of the attendance report.

    Asynchronous code is modelled sequentially with explicit state passing.
    Every reading of the environment (clock, random source, UUID source,
    outcome of a [fetch]) is an explicit argument. *)

From Stdlib Require Import ZArith Ascii String List Bool Sorted OrderedTypeEx.
From stdpp Require Import base option list strings gmap pretty.

Local Open Scope string_scope.
Local Open Scope list_scope.

(** ** JSON values and JavaScript objects *)

Inductive JValue : Type :=
| JNull
| JBool (b : bool)
| JNum (z : Z)
| JStr (s : string).

#[global] Instance JValue_eq_dec : EqDecision JValue.
Proof. solve_decision. Defined.

(** A JavaScript object used as a string-keyed dictionary.  A property
    whose value is [undefined] is an absent key: that is what
    [JSON.stringify] sends and what [JSON.parse] delivers. *)
Abbreviation JObject := (gmap string JValue).

Definition set_prop (k : string) (v : option JValue) (o : JObject) : JObject :=
  match v with
  | Some x => <[k := x]> o
  | None => o
  end.

(** ** Promises *)

Inductive Error : Type :=
| DatabaseNotInitialized   (* new Error('Database not initialized') *)
| RecordNotFound           (* new Error('Record not found') *)
| RequestError             (* request.error of a failed IndexedDB request *)
| DataError.               (* DOMException thrown for a value that is no key *)

Inductive Promise (A : Type) : Type :=
| Resolved (a : A)
| Rejected (e : Error).
Arguments Resolved {A} a.
Arguments Rejected {A} e.

(** ** HTTP *)

Record Response : Type := mkResponse {
  http_status : Z;
  http_body : string
}.

(** [response.ok] *)
Definition ok (r : Response) : bool :=
  ((200 <=? http_status r) && (http_status r <=? 299))%Z.

(** Outcome of one [fetch]: the promise rejects (no response at all) or
    resolves with a response, whatever its status. *)
Inductive FetchResult : Type :=
| FetchThrows
| FetchReturns (r : Response).

(** A [fetch] call as the loops below issue it: the URL, the method and the
    array that was passed through [JSON.stringify]. *)
Record FetchCall : Type := mkFetchCall {
  call_url : string;
  call_method : string;
  call_body : list JObject
}.

(** ** IndexedDB object stores

    An object store holds its records in ascending order of their primary
    key; keys here are strings, compared lexicographically. *)

Module IDB.
Section object_store.
Context {A : Type} (key : A -> string).

Fixpoint get (k : string) (s : list A) : option A :=
  match s with
  | [] => None
  | x :: s' => if String.eqb (key x) k then Some x else get k s'
  end.

(** [store.put]: replaces the record stored under the same key, otherwise
    inserts at the key's position. *)
Fixpoint put (r : A) (s : list A) : list A :=
  match s with
  | [] => [r]
  | x :: s' =>
      match String.compare (key r) (key x) with
      | Lt => r :: x :: s'
      | Eq => r :: s'
      | Gt => x :: put r s'
      end
  end.

(** [store.add]: like [put], but the request fails when the key is taken. *)
Definition add (r : A) (s : list A) : option (list A) :=
  match get (key r) s with
  | Some _ => None
  | None => Some (put r s)
  end.

Definition key_lt (x y : A) : Prop := String.compare (key x) (key y) = Lt.

(** The order an object store keeps: strictly ascending keys. *)
Definition key_ordered (s : list A) : Prop := StronglySorted key_lt s.

End object_store.
End IDB.

(** ** Offline records *)

Inductive Status : Type := present | absent.
Inductive Method : Type := manual | facial | rfid.

Definition status_string (s : Status) : string :=
  match s with present => "present" | absent => "absent" end.

Definition method_string (m : Method) : string :=
  match m with manual => "manual" | facial => "facial" | rfid => "rfid" end.

(** The argument of [storeAttendanceRecord],
    [Omit<OfflineAttendanceRecord, 'id' | 'timestamp' | 'synced'>].
    The interface declares every field but [subject] and [period]
    required; the declaration is erased at run time, so the object the
    function receives may lack any of them.  [None] is an absent
    property. *)
Record AttendanceFields : Type := mkFields {
  studentId : option string;
  teacherId : option string;
  class : option string;
  subject : option string;
  period : option string;
  status : option Status;
  method : option Method;
  date : option string
}.

(** [{ ...record, id, timestamp, synced }] *)
Record OfflineAttendanceRecord : Type := mkRecord {
  fields : AttendanceFields;
  id : string;
  timestamp : Z;
  synced : bool
}.

Definition with_synced (b : bool) (r : OfflineAttendanceRecord) : OfflineAttendanceRecord :=
  {| fields := fields r; id := id r; timestamp := timestamp r; synced := b |}.

Record OfflineStudent : Type := mkStudent {
  student_id : string;
  rollNumber : string;
  fullName : string;
  student_class : string;
  photoUrl : option string;
  rfidCardId : option string;
  lastUpdated : Z
}.

(** The database [AttendanceSystemDB]. *)
Record IDBDatabase : Type := mkDatabase {
  attendanceRecords : list OfflineAttendanceRecord;   (* keyPath: 'id' *)
  studentsCache : list OfflineStudent                 (* keyPath: 'id' *)
}.

(** What the client code reads and writes: whether the library's handle
    [this.db] is set, the database, and the local-storage item
    [attendance_last_sync]. *)
Record Device : Type := mkDevice {
  db_open : bool;
  idb : IDBDatabase;
  last_sync : option Z
}.

Definition with_attendance (s : list OfflineAttendanceRecord) (d : Device) : Device :=
  {| db_open := db_open d;
     idb := {| attendanceRecords := s; studentsCache := studentsCache (idb d) |};
     last_sync := last_sync d |}.

Definition with_last_sync (t : Z) (d : Device) : Device :=
  {| db_open := db_open d; idb := idb d; last_sync := Some t |}.

Definition with_students (s : list OfflineStudent) (d : Device) : Device :=
  {| db_open := db_open d;
     idb := {| attendanceRecords := attendanceRecords (idb d); studentsCache := s |};
     last_sync := last_sync d |}.

(** The stored records whose [synced] property is [k], in key order.
    This is a measure over the store, used in the statements to say which
    records are marked and which are not; it is not the result of a read
    of the [synced] index (see [synced_index_getAll]). *)
Definition select_synced (k : bool) (s : list OfflineAttendanceRecord) : list OfflineAttendanceRecord :=
  filter (fun r => synced r = k) s.

(** A key of IndexedDB is a number, a string, a date, a binary or an array
    of keys.  A boolean is none, and neither is [null]. *)
Definition valid_key (v : JValue) : bool :=
  match v with
  | JNum _ | JStr _ => true
  | JNull | JBool _ => false
  end.

(** [store.index('synced').getAll(IDBKeyRange.only(query))], and
    [getAll(query)] for a [query] other than [null]: the query is converted
    to a key first, which throws a [DataError] when it is not a valid key;
    thrown inside the executor of the promise, the error rejects the
    promise.  For a valid key the request delivers, in key order, the
    records whose [synced] property is that key; a record whose [synced]
    property is no valid key has no entry in the index. *)
Definition synced_index_getAll (query : JValue) (s : list OfflineAttendanceRecord)
  : Promise (list OfflineAttendanceRecord) :=
  if valid_key query
  then Resolved (filter (fun r => valid_key (JBool (synced r)) = true /\ JBool (synced r) = query) s)
  else Rejected DataError.

(** The JSON object of a stored record, as [JSON.stringify] prints it. *)
Definition fields_json (f : AttendanceFields) : JObject :=
  set_prop "studentId" (JStr <$> studentId f)
    (set_prop "teacherId" (JStr <$> teacherId f)
      (set_prop "class" (JStr <$> class f)
        (set_prop "subject" (JStr <$> subject f)
          (set_prop "period" (JStr <$> period f)
            (set_prop "status" (JStr ∘ status_string <$> status f)
              (set_prop "method" (JStr ∘ method_string <$> method f)
                (set_prop "date" (JStr <$> date f) ∅))))))).

Definition record_json (r : OfflineAttendanceRecord) : JObject :=
  <["id" := JStr (id r)]>
    (<["timestamp" := JNum (timestamp r)]>
      (<["synced" := JBool (synced r)]> (fields_json (fields r)))).

(** ** The client library: class [OfflineStorage] *)

Module OfflineStorage.

(** ['offline_' + Date.now() + '_' + Math.random().toString(36).substr(2, 9)];
    [now] is the clock reading and [rnd] the nine characters taken from the
    random number. *)
Definition generateId (now : Z) (rnd : string) : string :=
  "offline_" +:+ pretty now +:+ "_" +:+ rnd.

(** The environment readings of one [storeAttendanceRecord] call, in the
    order the object literal takes them. *)
Record EnqueueEnv : Type := mkEnv {
  id_clock : Z;         (* Date.now() inside generateId *)
  id_random : string;   (* the random suffix *)
  stamp_clock : Z       (* Date.now() for timestamp *)
}.

Definition storeAttendanceRecord (record : AttendanceFields) (e : EnqueueEnv) (d : Device)
  : Promise string * Device :=
  if negb (db_open d) then (Rejected DatabaseNotInitialized, d)
  else
    let offlineRecord :=
      {| fields := record;
         id := generateId (id_clock e) (id_random e);
         timestamp := stamp_clock e;
         synced := false |} in
    match IDB.add id offlineRecord (attendanceRecords (idb d)) with
    | Some s' => (Resolved (id offlineRecord), with_attendance s' d)
    | None => (Rejected RequestError, d)
    end.

(** [getPendingAttendanceRecords]: the query of the index is the boolean
    [false]. *)
Definition getPendingAttendanceRecords (d : Device) : Promise (list OfflineAttendanceRecord) :=
  if negb (db_open d) then Rejected DatabaseNotInitialized
  else synced_index_getAll (JBool false) (attendanceRecords (idb d)).

Definition markRecordSynced (recordId : string) (d : Device) : Promise unit * Device :=
  if negb (db_open d) then (Rejected DatabaseNotInitialized, d)
  else
    match IDB.get id recordId (attendanceRecords (idb d)) with
    | Some record =>
        (Resolved tt, with_attendance (IDB.put id (with_synced true record) (attendanceRecords (idb d))) d)
    | None => (Rejected RecordNotFound, d)
    end.

(** [apiRecord]: the seven properties copied out of the stored record. *)
Definition apiRecord (record : OfflineAttendanceRecord) : JObject :=
  let f := fields record in
  set_prop "studentId" (JStr <$> studentId f)
    (set_prop "class" (JStr <$> class f)
      (set_prop "subject" (JStr <$> subject f)
        (set_prop "period" (JStr <$> period f)
          (set_prop "status" (JStr ∘ status_string <$> status f)
            (set_prop "method" (JStr ∘ method_string <$> method f)
              (set_prop "date" (JStr <$> date f) ∅)))))).

Definition request_of (record : OfflineAttendanceRecord) : FetchCall :=
  {| call_url := "/api/attendance/mark"; call_method := "POST"; call_body := [apiRecord record] |}.

(** The running state of the [for] loop of [syncWithServer]; [sent] logs
    the [fetch] calls issued so far, oldest first. *)
Record SyncRun : Type := mkRun {
  device : Device;
  success : nat;
  failed : nat;
  sent : list FetchCall
}.

(** One iteration for [record]; [r] is the outcome of its [fetch]. *)
Definition sync_step (record : OfflineAttendanceRecord) (r : FetchResult) (s : SyncRun) : SyncRun :=
  let sent' := sent s ++ [request_of record] in
  match r with
  | FetchReturns response =>
      if ok response then
        match markRecordSynced (id record) (device s) with
        | (Resolved _, d') =>
            {| device := d'; success := S (success s); failed := failed s; sent := sent' |}
        | (Rejected _, d') =>
            {| device := d'; success := success s; failed := S (failed s); sent := sent' |}
        end
      else {| device := device s; success := success s; failed := S (failed s); sent := sent' |}
  | FetchThrows =>
      {| device := device s; success := success s; failed := S (failed s); sent := sent' |}
  end.

(** The loop over the snapshot [pendingRecords]; the [i]-th [fetch] of the
    pass has outcome [net i]. *)
Fixpoint sync_loop (net : nat -> FetchResult) (i : nat)
  (pendingRecords : list OfflineAttendanceRecord) (s : SyncRun) : SyncRun :=
  match pendingRecords with
  | [] => s
  | record :: rest => sync_loop net (S i) rest (sync_step record (net i) s)
  end.

(** [syncWithServer]; [now] is the clock reading taken if the pass had a
    success.  The result carries the final state of the loop, from which
    the returned [{ success, failed }] is read. *)
Definition syncWithServer (net : nat -> FetchResult) (now : Z) (d : Device) : Promise SyncRun :=
  match getPendingAttendanceRecords d with
  | Rejected e => Rejected e
  | Resolved pendingRecords =>
      let s := sync_loop net 0 pendingRecords
                 {| device := d; success := 0; failed := 0; sent := [] |} in
      Resolved
        (if (0 <? success s)%nat
         then {| device := with_last_sync now (device s); success := success s;
                 failed := failed s; sent := sent s |}
         else s)
  end.

(** [store.add] on [studentsCache]: the request fails on a taken key and
    on a taken roll number (the [rollNumber] index is unique). *)
Definition add_student (x : OfflineStudent) (s : list OfflineStudent) : option (list OfflineStudent) :=
  if existsb (fun y => String.eqb (rollNumber y) (rollNumber x)) s then None
  else IDB.add student_id x s.

Definition stamp (t : Z) (x : OfflineStudent) : OfflineStudent :=
  {| student_id := student_id x; rollNumber := rollNumber x; fullName := fullName x;
     student_class := student_class x; photoUrl := photoUrl x; rfidCardId := rfidCardId x;
     lastUpdated := t |}.

(** The [forEach] of [cacheStudents]; [clock i] is the [Date.now()] of the
    [i]-th student. *)
Fixpoint add_students (clock : nat -> Z) (i : nat) (students : list OfflineStudent)
  (s : list OfflineStudent) : option (list OfflineStudent) :=
  match students with
  | [] => Some s
  | student :: rest =>
      match add_student (stamp (clock i) student) s with
      | Some s' => add_students clock (S i) rest s'
      | None => None
      end
  end.

(** [cacheStudents]: clear, then add every student, in one transaction; a
    failed request aborts the transaction, which restores the store. *)
Definition cacheStudents (students : list OfflineStudent) (clock : nat -> Z) (d : Device)
  : Promise unit * Device :=
  if negb (db_open d) then (Rejected DatabaseNotInitialized, d)
  else
    match add_students clock 0 students [] with
    | Some s' => (Resolved tt, with_students s' d)
    | None => (Rejected RequestError, d)
    end.

Definition getAllCachedStudents (d : Device) : Promise (list OfflineStudent) :=
  if negb (db_open d) then Rejected DatabaseNotInitialized
  else Resolved (studentsCache (idb d)).

(** [index('class').getAll(className)]: the cached students of the class,
    in key order. *)
Definition getCachedStudentsByClass (className : string) (d : Device)
  : Promise (list OfflineStudent) :=
  if negb (db_open d) then Rejected DatabaseNotInitialized
  else Resolved (filter (fun x => student_class x = className) (studentsCache (idb d))).

(** [getLastSyncTime]: the stored reading, [0] when the item is absent. *)
Definition getLastSyncTime (d : Device) : Z :=
  match last_sync d with
  | Some t => t
  | None => 0%Z
  end.

Definition setLastSyncTime (timestamp : Z) (d : Device) : Device := with_last_sync timestamp d.

Record SyncStatus : Type := mkStatus {
  lastSync : Z;
  pendingRecords : nat;
  isOnline : bool
}.

(** [getSyncStatus]; [online] is the value of [navigator.onLine]. *)
Definition getSyncStatus (online : bool) (d : Device) : Promise SyncStatus :=
  match getPendingAttendanceRecords d with
  | Rejected e => Rejected e
  | Resolved pendingRecords =>
      Resolved {| lastSync := getLastSyncTime d;
                  pendingRecords := length pendingRecords;
                  isOnline := online |}
  end.

(** [clearOfflineData]: both stores are cleared and the local-storage
    item is removed. *)
Definition clearOfflineData (d : Device) : Promise unit * Device :=
  if negb (db_open d) then (Rejected DatabaseNotInitialized, d)
  else
    (Resolved tt,
     {| db_open := db_open d;
        idb := {| attendanceRecords := []; studentsCache := [] |};
        last_sync := None |}).

End OfflineStorage.

(** ** The service worker *)

Module ServiceWorker.

(** [getPendingAttendanceRecords].  The worker opens the database by name
    on each call, independently of the library's handle; the database is
    taken to exist with its stores.  The promise of the index read is
    returned without [await], so its rejection passes the [try] of the
    function and reaches the caller. *)
Definition getPendingAttendanceRecords (d : Device) : Promise (list OfflineAttendanceRecord) :=
  synced_index_getAll (JBool false) (attendanceRecords (idb d)).

(** [markRecordSynced]: an absent record resolves
    ("Record not found, consider it synced"). *)
Definition markRecordSynced (recordId : string) (d : Device) : Device :=
  match IDB.get id recordId (attendanceRecords (idb d)) with
  | Some record => with_attendance (IDB.put id (with_synced true record) (attendanceRecords (idb d))) d
  | None => d
  end.

(** [body: JSON.stringify([record])]: the stored record itself. *)
Definition request_of (record : OfflineAttendanceRecord) : FetchCall :=
  {| call_url := "/api/attendance/mark"; call_method := "POST"; call_body := [record_json record] |}.

Record SyncRun : Type := mkRun {
  device : Device;
  sent : list FetchCall
}.

Definition sync_step (record : OfflineAttendanceRecord) (r : FetchResult) (s : SyncRun) : SyncRun :=
  let sent' := sent s ++ [request_of record] in
  match r with
  | FetchReturns response =>
      if ok response
      then {| device := markRecordSynced (id record) (device s); sent := sent' |}
      else {| device := device s; sent := sent' |}
  | FetchThrows => {| device := device s; sent := sent' |}
  end.

Fixpoint sync_loop (net : nat -> FetchResult) (i : nat)
  (pendingRecords : list OfflineAttendanceRecord) (s : SyncRun) : SyncRun :=
  match pendingRecords with
  | [] => s
  | record :: rest => sync_loop net (S i) rest (sync_step record (net i) s)
  end.

(** [syncAttendanceData]; the second component is the [synced] count of the
    [SYNC_COMPLETE] message posted to the clients,
    [pendingRecords.length], and [None] when no message is posted: an
    error of the pending read is caught by the outer [try], which logs it
    and does nothing else. *)
Definition syncAttendanceData (net : nat -> FetchResult) (d : Device) : SyncRun * option nat :=
  match getPendingAttendanceRecords d with
  | Resolved pendingRecords =>
      (sync_loop net 0 pendingRecords {| device := d; sent := [] |}, Some (length pendingRecords))
  | Rejected _ => ({| device := d; sent := [] |}, None)
  end.

(** *** Network-first handling of API reads *)

Definition OFFLINE_APIS : list string :=
  ["/api/user"; "/api/students"; "/api/classes"; "/api/attendance/stats"].

Definition STATIC_ASSETS : list string :=
  ["/"; "/auth"; "/offline.html"; "/manifest.json"; "/icon-192x192.png"; "/icon-512x512.png"].

(** A response body: a JSON object or a JSON array of objects. *)
Inductive Body : Type :=
| JsonObject (o : JObject)
| JsonArray (l : list JObject).

Record SWResponse : Type := mkSWResponse {
  sw_status : Z;
  sw_body : Body
}.

Definition sw_ok (r : SWResponse) : bool :=
  ((200 <=? sw_status r) && (sw_status r <=? 299))%Z.

Inductive SWFetchResult : Type :=
| NetworkFails
| NetworkReturns (r : SWResponse).

(** A GET request; the cache key of a request is its URL. *)
Record Request : Type := mkRequest {
  pathname : string;
  search : string
}.

Definition url (request : Request) : string := pathname request +:+ search request.

(** The two caches of the worker, in the order they are created:
    [STATIC_CACHE] at install, [DYNAMIC_CACHE] on first use. *)
Record CacheStorage : Type := mkCaches {
  static_cache : gmap string SWResponse;
  dynamic_cache : gmap string SWResponse
}.

(** [caches.match(request)]: the first cache that has the URL answers. *)
Definition caches_match (request : Request) (c : CacheStorage) : option SWResponse :=
  match static_cache c !! url request with
  | Some r => Some r
  | None => dynamic_cache c !! url request
  end.

(** [caches.open(DYNAMIC_CACHE)] then [cache.put(request, response)] *)
Definition dynamic_put (request : Request) (r : SWResponse) (c : CacheStorage) : CacheStorage :=
  {| static_cache := static_cache c; dynamic_cache := <[url request := r]> (dynamic_cache c) |}.

Definition offline_response : SWResponse :=
  {| sw_status := 503;
     sw_body := JsonObject
       (<["error" := JStr "Offline"]>
         (<["message" := JStr "This feature is not available offline"]> ∅)) |}.

Definition handleApiRequest (request : Request) (net : SWFetchResult) (c : CacheStorage)
  : SWResponse * CacheStorage :=
  match net with
  | NetworkReturns networkResponse =>
      if sw_ok networkResponse
         && existsb (fun api => String.prefix api (pathname request)) OFFLINE_APIS
      then (networkResponse, dynamic_put request networkResponse c)
      else (networkResponse, c)
  | NetworkFails =>
      match caches_match request c with
      | Some cachedResponse => (cachedResponse, c)
      | None => (offline_response, c)
      end
  end.

(** *** Cache-first handling of pages and assets *)

(** [caches.match(OFFLINE_PAGE)] looks the page up by its URL. *)
Definition OFFLINE_PAGE : Request := {| pathname := "/offline.html"; search := "" |}.

(** What [handleStaticRequest] does with a request: it resolves with a
    response it holds, resolves with the page built from
    [getOfflinePageHtml], or rethrows the error of [fetch]. *)
Inductive StaticOutcome : Type :=
| Responds (r : SWResponse)
| BuiltOfflinePage
| Rethrows.

(** [handleStaticRequest]; [navigate] is [request.mode === 'navigate'] and
    [net] the outcome of [fetch(request)] should it be called. *)
Definition handleStaticRequest (request : Request) (navigate : bool) (net : SWFetchResult)
  (c : CacheStorage) : StaticOutcome * CacheStorage :=
  match caches_match request c with
  | Some cachedResponse => (Responds cachedResponse, c)
  | None =>
      match net with
      | NetworkReturns networkResponse =>
          if sw_ok networkResponse
          then (Responds networkResponse, dynamic_put request networkResponse c)
          else (Responds networkResponse, c)
      | NetworkFails =>
          if navigate
          then match caches_match OFFLINE_PAGE c with
               | Some offlineResponse => (Responds offlineResponse, c)
               | None => (BuiltOfflinePage, c)
               end
          else (Rethrows, c)
      end
  end.

(** The [fetch] listener; [None] when the worker does not call
    [event.respondWith] and the browser handles the request itself. *)
Definition onfetch (method : string) (request : Request) (navigate : bool) (net : SWFetchResult)
  (c : CacheStorage) : option (StaticOutcome * CacheStorage) :=
  if negb (String.eqb method "GET") then None
  else if String.prefix "/api/" (pathname request)
  then let '(r, c') := handleApiRequest request net c in Some (Responds r, c')
  else Some (handleStaticRequest request navigate net c).

End ServiceWorker.

(** ** The server: [MemStorage] and the two routes *)

Module Server.

Record Student : Type := mkStudent {
  id : string;
  rollNumber : string;
  fullName : string;
  class : string;
  dateOfBirth : option string;
  gender : option string;
  parentName : option string;
  parentPhone : option string;
  rfidCardId : option string;
  photoUrl : option string;
  faceEncoding : option string;
  userId : option string;
  isActive : bool;
  createdAt : Z
}.

Record InsertAttendance : Type := mkInsert {
  ins_studentId : string;
  ins_teacherId : string;
  ins_class : string;
  ins_subject : option string;
  ins_date : string;
  ins_period : option string;
  ins_status : string;
  ins_method : string
}.

Record Attendance : Type := mkAttendance {
  att_id : string;
  studentId : string;
  teacherId : string;
  att_class : string;
  subject : option string;
  date : string;
  period : option string;
  status : string;
  method : string;
  markedAt : Z
}.

(** A JavaScript [Map] with string keys: entries in insertion order,
    [set] on a present key replaces the value in place. *)
Fixpoint map_set {V : Type} (k : string) (v : V) (m : list (string * V)) : list (string * V) :=
  match m with
  | [] => [(k, v)]
  | (k', v') :: m' => if String.eqb k' k then (k, v) :: m' else (k', v') :: map_set k v m'
  end.

Definition map_values {V : Type} (m : list (string * V)) : list V := map snd m.

(** The two maps of [MemStorage] the routes below use. *)
Record MemStorage : Type := mkStorage {
  students : list (string * Student);
  attendance : list (string * Attendance)
}.

Definition getAllStudents (st : MemStorage) : list Student :=
  filter (fun s => isActive s = true) (map_values (students st)).

(** [createAttendance]; [uuid] is the value of [randomUUID()] and [now]
    the value of [new Date()]. *)
Definition createAttendance (insertAttendance : InsertAttendance) (uuid : string) (now : Z)
  (st : MemStorage) : Attendance * MemStorage :=
  let a :=
    {| att_id := uuid;
       studentId := ins_studentId insertAttendance;
       teacherId := ins_teacherId insertAttendance;
       att_class := ins_class insertAttendance;
       subject := ins_subject insertAttendance;
       date := ins_date insertAttendance;
       period := ins_period insertAttendance;
       status := ins_status insertAttendance;
       method := ins_method insertAttendance;
       markedAt := now |} in
  (a, {| students := students st; attendance := map_set uuid a (attendance st) |}).

(** *** [insertAttendanceSchema.parse]

    The schema picked from the table: six required text columns, two
    nullable ones; unknown properties are dropped.  [None] is a thrown
    [ZodError]. *)
Definition required_text (o : JObject) (k : string) : option string :=
  match o !! k with
  | Some (JStr s) => Some s
  | _ => None
  end.

Definition nullable_text (o : JObject) (k : string) : option (option string) :=
  match o !! k with
  | None | Some JNull => Some None
  | Some (JStr s) => Some (Some s)
  | Some _ => None
  end.

Definition insertAttendanceSchema_parse (o : JObject) : option InsertAttendance :=
  sid ← required_text o "studentId";
  tid ← required_text o "teacherId";
  cls ← required_text o "class";
  sub ← nullable_text o "subject";
  dat ← required_text o "date";
  per ← nullable_text o "period";
  sta ← required_text o "status";
  met ← required_text o "method";
  Some {| ins_studentId := sid; ins_teacherId := tid; ins_class := cls; ins_subject := sub;
          ins_date := dat; ins_period := per; ins_status := sta; ins_method := met |}.

(** JavaScript truthiness of a property value. *)
Definition truthy (v : option JValue) : bool :=
  match v with
  | None | Some JNull | Some (JBool false) => false
  | Some (JNum z) => negb (z =? 0)%Z
  | Some (JStr s) => negb (String.eqb s "")
  | Some (JBool true) => true
  end.

(** A request as the routes see it: the user of the session when
    [req.isAuthenticated()] holds, the query parameters the student route
    reads, and the parsed body. *)
Inductive ReqBody : Type :=
| BodyArray (l : list JObject)
| BodyObject (o : JObject).

Record Req : Type := mkReq {
  user : option string;            (* req.user.id of an authenticated session *)
  query_class : option string;
  query_search : option string;
  body : ReqBody
}.

Definition isAuthenticated (req : Req) : bool := bool_decide (is_Some (user req)).

(** [res.status(code).json(payload)] or [res.status(code).json({ message })] *)
Inductive Reply (A : Type) : Type :=
| ReplyJson (code : Z) (payload : A)
| ReplyMessage (code : Z) (message : string).
Arguments ReplyJson {A} code payload.
Arguments ReplyMessage {A} code message.

Definition reply_status {A : Type} (r : Reply A) : Z :=
  match r with ReplyJson c _ | ReplyMessage c _ => c end.

(** *** [GET /api/students] *)

(** [s.includes(sub)] *)
Fixpoint includes (s sub : string) : bool :=
  String.prefix sub s ||
  match s with
  | EmptyString => false
  | String _ s' => includes s' sub
  end.

Section students_route.

(** [String.prototype.toLowerCase], which lowers every cased letter of
    Unicode: the route is stated for the function, whatever its table. *)
Variable toLowerCase : string -> string.

(** The handler never looks at the session of the request. *)
Definition get_students (req : Req) (st : MemStorage) : Reply (list Student) :=
  let students := getAllStudents st in
  let students :=
    match query_class req with
    | Some className =>
        if truthy (Some (JStr className))
        then filter (fun s => class s = className) students
        else students
    | None => students
    end in
  let students :=
    match query_search req with
    | Some search =>
        if truthy (Some (JStr search))
        then
          let searchTerm := toLowerCase search in
          filter (fun s => includes (toLowerCase (fullName s)) searchTerm
                           || includes (toLowerCase (rollNumber s)) searchTerm = true) students
        else students
    | None => students
    end in
  ReplyJson 200 students.

End students_route.

(** *** [POST /api/attendance/mark] *)

(** The environment readings taken while one element is processed. *)
Record MarkEnv : Type := mkMarkEnv {
  today : string;   (* new Date().toISOString().split('T')[0] *)
  uuid : string;    (* randomUUID() *)
  now : Z           (* new Date() *)
}.

(** [{ ...data, teacherId: req.user!.id, date: data.date || today }] *)
Definition mark_object (uid : string) (e : MarkEnv) (data : JObject) : JObject :=
  let d :=
    match data !! "date" with
    | Some v => if truthy (Some v) then v else JStr (today e)
    | None => JStr (today e)
    end in
  <["date" := d]> (<["teacherId" := JStr uid]> data).

(** The [for] loop; [None] in the first component is a thrown exception,
    the rows created before it stay. *)
Fixpoint mark_loop (uid : string) (env : nat -> MarkEnv) (i : nat) (attendanceData : list JObject)
  (results : list Attendance) (st : MemStorage) : option (list Attendance) * MemStorage :=
  match attendanceData with
  | [] => (Some results, st)
  | data :: rest =>
      match insertAttendanceSchema_parse (mark_object uid (env i) data) with
      | None => (None, st)
      | Some validatedData =>
          let '(a, st') := createAttendance validatedData (uuid (env i)) (now (env i)) st in
          mark_loop uid env (S i) rest (results ++ [a]) st'
      end
  end.

Definition post_attendance_mark (req : Req) (env : nat -> MarkEnv) (st : MemStorage)
  : Reply (list Attendance) * MemStorage :=
  if negb (isAuthenticated req) then (ReplyMessage 401 "Authentication required", st)
  else
    match user req with
    | Some uid =>
        let attendanceData :=
          match body req with
          | BodyArray l => l
          | BodyObject o => [o]
          end in
        match mark_loop uid env 0 attendanceData [] st with
        | (Some results, st') => (ReplyJson 201 results, st')
        | (None, st') => (ReplyMessage 400 "Failed to mark attendance", st')
        end
    | None => (ReplyMessage 400 "Failed to mark attendance", st)
    end.

(** *** Other methods of [MemStorage] *)

(** [Map.get] *)
Fixpoint map_get {V : Type} (k : string) (m : list (string * V)) : option V :=
  match m with
  | [] => None
  | (k', v) :: m' => if String.eqb k' k then Some v else map_get k m'
  end.

(** [Map.delete]: whether the key was present, and the map without it. *)
Fixpoint map_delete {V : Type} (k : string) (m : list (string * V)) : bool * list (string * V) :=
  match m with
  | [] => (false, [])
  | (k', v) :: m' =>
      if String.eqb k' k then (true, m')
      else let '(b, m'') := map_delete k m' in (b, (k', v) :: m'')
  end.

Definition getStudent (sid : string) (st : MemStorage) : option Student :=
  map_get sid (students st).

Definition getStudentByRollNumber (rn : string) (st : MemStorage) : option Student :=
  List.find (fun s => String.eqb (rollNumber s) rn) (map_values (students st)).

(** The fields picked by [insertStudentSchema]. *)
Record InsertStudent : Type := mkInsertStudent {
  new_rollNumber : string;
  new_fullName : string;
  new_class : string;
  new_dateOfBirth : option string;
  new_gender : option string;
  new_parentName : option string;
  new_parentPhone : option string;
  new_rfidCardId : option string;
  new_photoUrl : option string;
  new_faceEncoding : option string
}.

(** [createStudent]; [uuid] is the value of [randomUUID()] and [now] the
    value of [new Date()]. *)
Definition createStudent (insertStudent : InsertStudent) (uuid : string) (now : Z)
  (st : MemStorage) : Student * MemStorage :=
  let student :=
    {| id := uuid;
       rollNumber := new_rollNumber insertStudent;
       fullName := new_fullName insertStudent;
       class := new_class insertStudent;
       dateOfBirth := new_dateOfBirth insertStudent;
       gender := new_gender insertStudent;
       parentName := new_parentName insertStudent;
       parentPhone := new_parentPhone insertStudent;
       rfidCardId := new_rfidCardId insertStudent;
       photoUrl := new_photoUrl insertStudent;
       faceEncoding := new_faceEncoding insertStudent;
       userId := None;
       isActive := true;
       createdAt := now |} in
  (student, {| students := map_set uuid student (students st); attendance := attendance st |}).

Definition deleteStudent (sid : string) (st : MemStorage) : bool * MemStorage :=
  let '(b, m) := map_delete sid (students st) in
  (b, {| students := m; attendance := attendance st |}).

Definition getAttendance (aid : string) (st : MemStorage) : option Attendance :=
  map_get aid (attendance st).

Definition getAttendanceByDate (d : string) (st : MemStorage) : list Attendance :=
  filter (fun att => date att = d) (map_values (attendance st)).

(** [startDate] and [endDate] bound the rows only when given and not
    empty; dates are compared as strings. *)
Definition getAttendanceByStudent (sid : string) (startDate endDate : option string)
  (st : MemStorage) : list Attendance :=
  filter
    (fun att =>
       (if negb (String.eqb (studentId att) sid) then false
        else if match startDate with
                | Some s => truthy (Some (JStr s)) && String.ltb (date att) s
                | None => false
                end then false
        else if match endDate with
                | Some e => truthy (Some (JStr e)) && String.ltb e (date att)
                | None => false
                end then false
        else true) = true)
    (map_values (attendance st)).

Definition getAttendanceByClass (className d : string) (st : MemStorage) : list Attendance :=
  filter (fun att => att_class att = className /\ date att = d) (map_values (attendance st)).

Definition deleteAttendance (aid : string) (st : MemStorage) : bool * MemStorage :=
  let '(b, m) := map_delete aid (attendance st) in
  (b, {| students := students st; attendance := m |}).

Record AttendanceStats : Type := mkStats {
  totalStudents : nat;
  presentToday : nat;
  absentToday : nat;
  attendanceRate : Z
}.

(** [getAttendanceStats]; [today] is the date of the day and
    [round_rate p t] the value of [Math.round((p / t) * 100)], which is
    computed in floating point. *)
Definition getAttendanceStats (d : option string) (today : string) (round_rate : nat -> nat -> Z)
  (st : MemStorage) : AttendanceStats :=
  let targetDate :=
    match d with
    | Some x => if truthy (Some (JStr x)) then x else today
    | None => today
    end in
  let todayAttendance := getAttendanceByDate targetDate st in
  let total := length (filter (fun s => isActive s = true) (map_values (students st))) in
  let present := length (filter (fun att => status att = "present") todayAttendance) in
  let absent := length (filter (fun att => status att = "absent") todayAttendance) in
  {| totalStudents := total;
     presentToday := present;
     absentToday := absent;
     attendanceRate := if (0 <? total)%nat then round_rate present total else 0%Z |}.

(** *** [insertStudentSchema.parse] *)

Definition insertStudentSchema_parse (o : JObject) : option InsertStudent :=
  rn ← required_text o "rollNumber";
  fn ← required_text o "fullName";
  cls ← required_text o "class";
  dob ← nullable_text o "dateOfBirth";
  gen ← nullable_text o "gender";
  pn ← nullable_text o "parentName";
  pp ← nullable_text o "parentPhone";
  rf ← nullable_text o "rfidCardId";
  ph ← nullable_text o "photoUrl";
  fe ← nullable_text o "faceEncoding";
  Some {| new_rollNumber := rn; new_fullName := fn; new_class := cls; new_dateOfBirth := dob;
          new_gender := gen; new_parentName := pn; new_parentPhone := pp; new_rfidCardId := rf;
          new_photoUrl := ph; new_faceEncoding := fe |}.

(** *** [POST /api/students]

    [data] is the parsed body and [file] the stored name of the uploaded
    photo, if one came with the request.  The handler does not look at the
    session. *)
Definition post_students (data : JObject) (file : option string) (uuid : string) (now : Z)
  (st : MemStorage) : Reply Student * MemStorage :=
  match insertStudentSchema_parse data with
  | None => (ReplyMessage 400 "Failed to create student", st)
  | Some validatedData =>
      match getStudentByRollNumber (new_rollNumber validatedData) st with
      | Some _ => (ReplyMessage 400 "Student with this roll number already exists", st)
      | None =>
          let validatedData :=
            match file with
            | Some filename =>
                {| new_rollNumber := new_rollNumber validatedData;
                   new_fullName := new_fullName validatedData;
                   new_class := new_class validatedData;
                   new_dateOfBirth := new_dateOfBirth validatedData;
                   new_gender := new_gender validatedData;
                   new_parentName := new_parentName validatedData;
                   new_parentPhone := new_parentPhone validatedData;
                   new_rfidCardId := new_rfidCardId validatedData;
                   new_photoUrl := Some ("/uploads/" +:+ filename);
                   new_faceEncoding := new_faceEncoding validatedData |}
            | None => validatedData
            end in
          let '(student, st') := createStudent validatedData uuid now st in
          (ReplyJson 201 student, st')
      end
  end.

(** *** [GET /api/students/:id] and [DELETE /api/students/:id] *)

Definition get_student (sid : string) (st : MemStorage) : Reply Student :=
  match getStudent sid st with
  | Some student => ReplyJson 200 student
  | None => ReplyMessage 404 "Student not found"
  end.

Definition delete_student (sid : string) (st : MemStorage) : Reply unit * MemStorage :=
  let '(success, st') := deleteStudent sid st in
  if success then (ReplyMessage 200 "Student deleted successfully", st')
  else (ReplyMessage 404 "Student not found", st').

(** *** [GET /api/attendance]

    The three query parameters; each branch is taken when its parameters
    are given and not empty. *)
Definition get_attendance (d className sid : option string) (st : MemStorage)
  : Reply (list Attendance) :=
  let given (q : option string) := match q with Some x => truthy (Some (JStr x)) | None => false end in
  if given d then ReplyJson 200 (getAttendanceByDate (default "" d) st)
  else if given className && given d
       then ReplyJson 200 (getAttendanceByClass (default "" className) (default "" d) st)
  else if given sid then ReplyJson 200 (getAttendanceByStudent (default "" sid) None None st)
  else ReplyMessage 400 "Please provide date, class and date, or studentId parameter".

(** *** [GET /api/attendance/stats] *)
Definition get_attendance_stats (d : option string) (today : string) (round_rate : nat -> nat -> Z)
  (st : MemStorage) : Reply AttendanceStats :=
  ReplyJson 200 (getAttendanceStats d today round_rate st).

End Server.

(** ** The service worker's cache cleanup *)

Module WorkerCaches.

Definition CACHE_NAME : string := "attendance-system-v1.0.0".
Definition STATIC_CACHE : string := CACHE_NAME +:+ "-static".
Definition DYNAMIC_CACHE : string := CACHE_NAME +:+ "-dynamic".

(** The caches of the origin under their names, as [caches.keys()] lists
    them. *)
Definition Caches : Type := list (string * gmap string ServiceWorker.SWResponse).

(** [caches.delete(cacheName)] for each name the predicate selects *)
Definition delete_where (old : string -> bool) (cs : Caches) : Caches :=
  filter (fun entry => old (fst entry) = false) cs.

(** The [activate] listener *)
Definition activate (cs : Caches) : Caches :=
  delete_where
    (fun cacheName =>
       String.prefix "attendance-system-" cacheName
       && negb (String.eqb cacheName STATIC_CACHE)
       && negb (String.eqb cacheName DYNAMIC_CACHE))
    cs.

(** The callback of the daily [setInterval] *)
Definition daily_cleanup (cs : Caches) : Caches :=
  delete_where
    (fun cacheName =>
       String.prefix "attendance-system-" cacheName
       && negb (Server.includes cacheName "v1.0.0"))
    cs.

(** [clearAllCaches] *)
Definition clearAllCaches (cs : Caches) : Caches := delete_where (fun _ => true) cs.

End WorkerCaches.

(** ** The RFID scanner component *)

Module RfidScanner.

Record ScannedStudent : Type := mkScanned {
  student : Server.Student;
  timestamp : Z;
  rfidId : string
}.

Record RfidScannerProps : Type := mkProps {
  className : string;
  subject : string;
  period : string
}.

Inductive Toast : Type :=
| StudentNotFound
| AlreadyScanned
| StudentScanned
| StudentRemoved.

Section handlers.

(** [String.prototype.trim] *)
Variable trim : string -> string.

(** [handleRfidScan]; [students] is the roster the query delivered, if it
    has, [now] the value of [new Date()], and the result the toast shown
    and the next [scannedStudents]. *)
Definition handleRfidScan (students : option (list Server.Student)) (rfid : string) (now : Z)
  (scannedStudents : list ScannedStudent) : option Toast * list ScannedStudent :=
  if String.eqb (trim rfid) "" then (None, scannedStudents)
  else
    match List.find (fun s => bool_decide (Server.rfidCardId s = Some (trim rfid)))
            (default [] students) with
    | None => (Some StudentNotFound, scannedStudents)
    | Some found =>
        match List.find (fun s => String.eqb (Server.id (student s)) (Server.id found))
                scannedStudents with
        | Some _ => (Some AlreadyScanned, scannedStudents)
        | None =>
            (Some StudentScanned,
             scannedStudents ++ [{| student := found; timestamp := now; rfidId := trim rfid |}])
        end
    end.

End handlers.

(** [removeScannedStudent] *)
Definition removeScannedStudent (studentId : string) (scannedStudents : list ScannedStudent)
  : option Toast * list ScannedStudent :=
  (Some StudentRemoved, filter (fun s => Server.id (student s) <> studentId) scannedStudents).

(** [handleSubmitAttendance] with the [mutationFn] it triggers: the call
    issued for the scanned students; [today] is the value of
    [new Date().toISOString().split('T')[0]]. *)
Definition handleSubmitAttendance (props : RfidScannerProps) (today : string)
  (scannedStudents : list ScannedStudent) : FetchCall :=
  let attendanceData := map (fun scanned => Server.id (student scanned)) scannedStudents in
  {| call_url := "/api/attendance/mark";
     call_method := "POST";
     call_body :=
       map (fun studentId =>
              <["date" := JStr today]>
                (<["method" := JStr "rfid"]>
                  (<["period" := JStr (period props)]>
                    (<["subject" := JStr (subject props)]>
                      (<["class" := JStr (className props)]>
                        (<["status" := JStr "present"]>
                          (<["studentId" := JStr studentId]> ∅)))))))
           attendanceData |}.

End RfidScanner.

(** ** The report summary *)

Module Report.

(** The properties of an attendance record and of a student that
    [formatAttendanceDataForReport] reads. *)
Record Mark : Type := mkMark {
  mark_studentId : string;
  mark_status : option string
}.

Record ReportStudent : Type := mkReportStudent {
  rs_id : string;
  rs_name : string;
  rs_rollNumber : string;
  rs_status : string
}.

Record Summary : Type := mkSummary {
  total : nat;
  present : nat;
  absent : nat;
  percentage : Z
}.

(** [attendanceRecord?.status || 'absent'] *)
Definition status_or_absent (attendanceRecord : option Mark) : string :=
  match attendanceRecord with
  | Some r =>
      match mark_status r with
      | Some s => if String.eqb s "" then "absent" else s
      | None => "absent"
      end
  | None => "absent"
  end.

Definition reportStudents (attendanceRecords : list Mark) (students : list Server.Student)
  : list ReportStudent :=
  map (fun student =>
         let attendanceRecord :=
           List.find (fun r => String.eqb (mark_studentId r) (Server.id student))
             attendanceRecords in
         {| rs_id := Server.id student;
            rs_name := Server.fullName student;
            rs_rollNumber := Server.rollNumber student;
            rs_status := status_or_absent attendanceRecord |})
      students.

(** The [summary] of [formatAttendanceDataForReport]; [round_rate p t] is
    the value of [Math.round((p / t) * 100)], computed in floating
    point. *)
Definition summary (round_rate : nat -> nat -> Z) (attendanceRecords : list Mark)
  (students : list Server.Student) : Summary :=
  let rows := reportStudents attendanceRecords students in
  let presentCount := length (filter (fun s => rs_status s = "present") rows) in
  let totalCount := length rows in
  let absentCount := (totalCount - presentCount)%nat in
  {| total := totalCount;
     present := presentCount;
     absent := absentCount;
     percentage := if (0 <? totalCount)%nat then round_rate presentCount totalCount else 0%Z |}.

End Report.

(** ** [preloadStudentsForOffline] *)

(** Outcome of the [fetch] of the roster: the promise rejects, or it
    resolves with a status and the students the body lists. *)
Inductive RosterFetch : Type :=
| RosterThrows
| RosterReturns (status : Z) (students : list Server.Student).

(** The object made of one student of the response; [now] is the value
    of [Date.now()]. *)
Definition offline_student (now : Z) (student : Server.Student) : OfflineStudent :=
  {| student_id := Server.id student;
     rollNumber := Server.rollNumber student;
     fullName := Server.fullName student;
     student_class := Server.class student;
     photoUrl := Server.photoUrl student;
     rfidCardId := Server.rfidCardId student;
     lastUpdated := now |}.

(** [preloadStudentsForOffline]: every failure is caught and logged, the
    promise resolves in all cases; [now j] is the clock reading taken when
    the [j]-th student is mapped and [clock j] the one taken when it is
    added to the cache. *)
Definition preloadStudentsForOffline (net : RosterFetch) (now clock : nat -> Z) (d : Device)
  : Device :=
  match net with
  | RosterThrows => d
  | RosterReturns status students =>
      if ((200 <=? status) && (status <=? 299))%Z
      then
        let offlineStudents := imap (fun j student => offline_student (now j) student) students in
        snd (OfflineStorage.cacheStudents offlineStudents clock d)
      else d
  end.

(** ** Callers and measures used in the statements *)

(** A caller that enqueues one event after the other. *)
Fixpoint enqueue_all (ops : list (AttendanceFields * OfflineStorage.EnqueueEnv)) (d : Device)
  : list (Promise string) * Device :=
  match ops with
  | [] => ([], d)
  | (record, e) :: rest =>
      let '(p, d1) := OfflineStorage.storeAttendanceRecord record e d in
      let '(ps, d2) := enqueue_all rest d1 in
      (p :: ps, d2)
  end.

(** [n] reconciliation passes in a row; pass [k] sees the outcomes
    [net k] and the clock reading [now k].  A rejected pass leaves the
    device as it was. *)
Fixpoint sync_passes (n : nat) (net : nat -> nat -> FetchResult) (now : nat -> Z) (k : nat)
  (d : Device) : Device :=
  match n with
  | O => d
  | S n' =>
      match OfflineStorage.syncWithServer (net k) (now k) d with
      | Resolved s => sync_passes n' net now (S k) (OfflineStorage.device s)
      | Rejected _ => sync_passes n' net now (S k) d
      end
  end.




Definition is_resolved {A : Type} (p : Promise A) : bool :=
  match p with Resolved _ => true | Rejected _ => false end.

(** The stored records that are not marked synced, and their number: a
    measure over the store, not what [getPendingAttendanceRecords]
    delivers. *)
Definition pending (d : Device) : list OfflineAttendanceRecord :=
  select_synced false (attendanceRecords (idb d)).

Definition pending_count (d : Device) : nat := length (pending d).

(** The (studentId, date, period) combination of an event, and the number
    of distinct combinations in a sequence of enqueues. *)
Definition event_key (f : AttendanceFields) : option string * option string * option string :=
  (studentId f, date f, period f).

Definition distinct_event_keys (ops : list (AttendanceFields * OfflineStorage.EnqueueEnv)) : nat :=
  length (remove_dups (map (fun op => event_key (fst op)) ops)).

(** The fields an event is required to carry: student, class, date,
    status and method. *)
Definition required_present (f : AttendanceFields) : bool :=
  bool_decide (is_Some (studentId f)) && bool_decide (is_Some (class f))
  && bool_decide (is_Some (date f)) && bool_decide (is_Some (status f))
  && bool_decide (is_Some (method f)).

(** Creation-time order and key order of a list of records. *)
Definition capturedAt_ascending (l : list OfflineAttendanceRecord) : Prop :=
  StronglySorted (fun a b => (timestamp a <= timestamp b)%Z) l.

Definition id_ascending (l : list OfflineAttendanceRecord) : Prop := IDB.key_ordered id l.


(** The rows of the attendance table for one (student, date, period). *)
Definition rows_of_event (sid dat : string) (per : option string) (st : Server.MemStorage)
  : list Server.Attendance :=
  filter (fun a => Server.studentId a = sid /\ Server.date a = dat /\ Server.period a = per)
    (Server.map_values (Server.attendance st)).

(** Two submissions of the same request, one after the other. *)
Definition submit_twice (req : Server.Req) (env1 env2 : nat -> Server.MarkEnv)
  (st : Server.MemStorage) : Server.MemStorage :=
  snd (Server.post_attendance_mark req env2 (snd (Server.post_attendance_mark req env1 st))).

(** A sequence of reads of the same request through the worker, one
    network outcome per read. *)
Fixpoint serve_all (request : ServiceWorker.Request) (nets : list ServiceWorker.SWFetchResult)
  (c : ServiceWorker.CacheStorage) : list ServiceWorker.SWResponse * ServiceWorker.CacheStorage :=
  match nets with
  | [] => ([], c)
  | net :: rest =>
      let '(r, c1) := ServiceWorker.handleApiRequest request net c in
      let '(rs, c2) := serve_all request rest c1 in
      (r :: rs, c2)
  end.

(** Whether a character occurs in a string. *)
Fixpoint occurs (c : ascii) (s : string) : bool :=
  match s with
  | EmptyString => false
  | String x s' => Ascii.eqb x c || occurs c s'
  end.




(** The calls a pass of the library issued, none if the pass rejected. *)
Definition sent_of (p : Promise OfflineStorage.SyncRun) : list FetchCall :=
  match p with
  | Resolved s => OfflineStorage.sent s
  | Rejected _ => []
  end.

(** A sequence of reads of the same page or asset through the [fetch]
    listener, each with its navigation flag and network outcome. *)
Fixpoint serve_pages (request : ServiceWorker.Request)
  (events : list (bool * ServiceWorker.SWFetchResult)) (c : ServiceWorker.CacheStorage)
  : list (option ServiceWorker.StaticOutcome) * ServiceWorker.CacheStorage :=
  match events with
  | [] => ([], c)
  | (navigate, net) :: rest =>
      match ServiceWorker.onfetch "GET" request navigate net c with
      | Some (r, c1) =>
          let '(rs, c2) := serve_pages request rest c1 in (Some r :: rs, c2)
      | None =>
          let '(rs, c2) := serve_pages request rest c in (None :: rs, c2)
      end
  end.

(** What the teacher does at the scanner: a card is read or typed, or a
    student is taken off the list.  Each event is handled by the handlers
    of the render that follows the previous event. *)
Inductive ScannerEvent : Type :=
| Scan (students : option (list Server.Student)) (card : string) (now : Z)
| Remove (studentId : string).

Definition scanner_step (trim : string -> string) (scanned : list RfidScanner.ScannedStudent)
  (e : ScannerEvent) : list RfidScanner.ScannedStudent :=
  match e with
  | Scan students card now => snd (RfidScanner.handleRfidScan trim students card now scanned)
  | Remove studentId => snd (RfidScanner.removeScannedStudent studentId scanned)
  end.

Definition scanner_session (trim : string -> string) (events : list ScannerEvent)
  : list RfidScanner.ScannedStudent :=
  fold_left (scanner_step trim) events [].

(** The ids of the students on the scanner's list. *)
Definition scanned_ids (scanned : list RfidScanner.ScannedStudent) : list string :=
  map (fun s => Server.id (RfidScanner.student s)) scanned.

(** ** Concrete inputs *)

(** A device with the handle set and an empty database. *)
Definition empty_device : Device :=
  {| db_open := true; idb := {| attendanceRecords := []; studentsCache := [] |}; last_sync := None |}.

(** Student [s1], period [1] of 15 January 2024, marked present by hand. *)
Definition mark_s1 : AttendanceFields :=
  {| studentId := Some "s1"; teacherId := Some "t1"; class := Some "5-A"; subject := None;
     period := Some "1"; status := Some present; method := Some manual;
     date := Some "2024-01-15" |}.

(** The same mark without its [studentId]. *)
Definition mark_no_student : AttendanceFields :=
  {| studentId := None; teacherId := Some "t1"; class := Some "5-A"; subject := None;
     period := Some "1"; status := Some present; method := Some manual;
     date := Some "2024-01-15" |}.

(** Two calls within the same millisecond of the id clock; the second
    call's timestamp is read one millisecond later, and its random suffix
    sorts before the first call's. *)
Definition env_first : OfflineStorage.EnqueueEnv :=
  {| OfflineStorage.id_clock := 1700000000000; OfflineStorage.id_random := "k3x9q2m1z";
     OfflineStorage.stamp_clock := 1700000000000 |}.

Definition env_second : OfflineStorage.EnqueueEnv :=
  {| OfflineStorage.id_clock := 1700000000000; OfflineStorage.id_random := "a7c2e9f0b";
     OfflineStorage.stamp_clock := 1700000000001 |}.

(** The same mark enqueued twice. *)
Definition duplicate_marks : list (AttendanceFields * OfflineStorage.EnqueueEnv) :=
  [(mark_s1, env_first); (mark_s1, env_second)].

Definition record_first : OfflineAttendanceRecord :=
  {| fields := mark_s1; id := "offline_1700000000000_k3x9q2m1z";
     timestamp := 1700000000000; synced := false |}.

Definition record_second : OfflineAttendanceRecord :=
  {| fields := mark_s1; id := "offline_1700000000000_a7c2e9f0b";
     timestamp := 1700000000001; synced := false |}.

Definition one_record_device : Device :=
  {| db_open := true;
     idb := {| attendanceRecords := [record_first]; studentsCache := [] |};
     last_sync := None |}.

Definition two_record_device : Device :=
  {| db_open := true;
     idb := {| attendanceRecords := [record_second; record_first]; studentsCache := [] |};
     last_sync := None |}.

(** The object a client submits for [mark_s1], with a [localId] property
    holding the id of the local record. *)
Definition submitted_mark : JObject :=
  <["localId" := JStr "offline_1700000000000_k3x9q2m1z"]> (OfflineStorage.apiRecord record_first).

(** A request of teacher [t1] carrying that object, and one without a
    session. *)
Definition mark_request : Server.Req :=
  {| Server.user := Some "t1"; Server.query_class := None; Server.query_search := None;
     Server.body := Server.BodyArray [submitted_mark] |}.

Definition anonymous_roster_request : Server.Req :=
  {| Server.user := None; Server.query_class := None; Server.query_search := None;
     Server.body := Server.BodyArray [] |}.

(** The readings of the first and of the second submission. *)
Definition env_submit_1 : nat -> Server.MarkEnv :=
  fun _ => {| Server.today := "2024-01-15"; Server.uuid := "3f2b8c1e-5d4a-4e6f-9a7b-000000000001";
              Server.now := 1705312800000 |}.

Definition env_submit_2 : nat -> Server.MarkEnv :=
  fun _ => {| Server.today := "2024-01-15"; Server.uuid := "3f2b8c1e-5d4a-4e6f-9a7b-000000000002";
              Server.now := 1705312860000 |}.

Definition raj_patel : Server.Student :=
  {| Server.id := "9d0e6a52-1b7c-4c1d-8e2f-000000000001"; Server.rollNumber := "001";
     Server.fullName := "Raj Patel"; Server.class := "Class 1-A";
     Server.dateOfBirth := Some "2010-05-15"; Server.gender := Some "Male";
     Server.parentName := Some "Rajesh Patel"; Server.parentPhone := Some "+91 98765 11111";
     Server.rfidCardId := Some "RF001234"; Server.photoUrl := None; Server.faceEncoding := None;
     Server.userId := None; Server.isActive := true; Server.createdAt := 1705300000000 |}.

Definition one_student_storage : Server.MemStorage :=
  {| Server.students := [("9d0e6a52-1b7c-4c1d-8e2f-000000000001", raj_patel)];
     Server.attendance := [] |}.

(** A roster read for one class, a roster response, and caches that hold
    nothing but the application shell. *)
Definition roster_request : ServiceWorker.Request :=
  {| ServiceWorker.pathname := "/api/students"; ServiceWorker.search := "?class=Class%201-A" |}.

Definition roster_response : ServiceWorker.SWResponse :=
  {| ServiceWorker.sw_status := 200;
     ServiceWorker.sw_body := ServiceWorker.JsonArray
       [<["id" := JStr "9d0e6a52-1b7c-4c1d-8e2f-000000000001"]>
          (<["rollNumber" := JStr "001"]> (<["fullName" := JStr "Raj Patel"]> ∅))] |}.

Definition shell_page : ServiceWorker.SWResponse :=
  {| ServiceWorker.sw_status := 200; ServiceWorker.sw_body := ServiceWorker.JsonArray [] |}.

Definition shell_caches : ServiceWorker.CacheStorage :=
  {| ServiceWorker.static_cache := <["/" := shell_page]> ∅;
     ServiceWorker.dynamic_cache := ∅ |}.

(** A network that acknowledges every submission, and one that is down. *)
Definition net_created : nat -> FetchResult :=
  fun _ => FetchReturns {| http_status := 201; http_body := "" |}.


(** ** Further concrete inputs *)

(** Marks for students [s1] and [s2] as a client sends them, a mark
    without its [studentId], and one that names another teacher. *)
Definition mark_json (sid : string) : JObject :=
  <["studentId" := JStr sid]>
    (<["class" := JStr "5-A"]>
      (<["period" := JStr "1"]>
        (<["status" := JStr "present"]>
          (<["method" := JStr "manual"]>
            (<["date" := JStr "2024-01-15"]> ∅))))).

Definition mark_json_no_student : JObject := delete "studentId" (mark_json "s1").

Definition mark_json_other_teacher : JObject := <["teacherId" := JStr "t9"]> (mark_json "s1").

(** Readings for a batch: the [j]-th record gets its own UUID. *)
Definition env_batch : nat -> Server.MarkEnv :=
  fun j => {| Server.today := "2024-01-16";
              Server.uuid := "3f2b8c1e-5d4a-4e6f-9a7b-0000000001" +:+ pretty j;
              Server.now := 1705312800000 |}.

Definition batch_request (datas : list JObject) : Server.Req :=
  {| Server.user := Some "t1"; Server.query_class := None; Server.query_search := None;
     Server.body := Server.BodyArray datas |}.

(** The fields without which the server's schema refuses a stored record:
    its date is not among them, the route fills it in. *)
Definition accepted_by_server (f : AttendanceFields) : bool :=
  bool_decide (is_Some (studentId f)) && bool_decide (is_Some (class f))
  && bool_decide (is_Some (status f)) && bool_decide (is_Some (method f)).

(** The record [storeAttendanceRecord] makes of [mark_no_student]. *)
Definition record_no_student : OfflineAttendanceRecord :=
  {| fields := mark_no_student; id := "offline_1700000000000_k3x9q2m1z";
     timestamp := 1700000000000; synced := false |}.

(** The form a client posts to enrol Priya Singh. *)
Definition new_student_form : JObject :=
  <["rollNumber" := JStr "002"]>
    (<["fullName" := JStr "Priya Singh"]>
      (<["class" := JStr "Class 1-A"]> (<["gender" := JStr "Female"]> ∅))).

(** What the schema delivers for [mark_s1] submitted by teacher [t1]. *)
Definition insert_s1 : Server.InsertAttendance :=
  {| Server.ins_studentId := "s1"; Server.ins_teacherId := "t1"; Server.ins_class := "5-A";
     Server.ins_subject := None; Server.ins_date := "2024-01-15"; Server.ins_period := Some "1";
     Server.ins_status := "present"; Server.ins_method := "manual" |}.

(** The reply of a server that fails, and caches that hold the roster
    of an earlier read. *)
Definition server_error : ServiceWorker.SWResponse :=
  {| ServiceWorker.sw_status := 500;
     ServiceWorker.sw_body :=
       ServiceWorker.JsonObject (<["message" := JStr "Failed to fetch students"]> ∅) |}.

Definition roster_caches : ServiceWorker.CacheStorage :=
  ServiceWorker.dynamic_put roster_request roster_response shell_caches.


(** Two students of different classes, as [preloadStudentsForOffline]
    hands them to the cache. *)
Definition student_raj : OfflineStudent :=
  {| student_id := "9d0e6a52-1b7c-4c1d-8e2f-000000000001"; rollNumber := "001";
     fullName := "Raj Patel"; student_class := "Class 1-A"; photoUrl := None;
     rfidCardId := Some "RF001234"; lastUpdated := 1700000000800 |}.

Definition student_arjun : OfflineStudent :=
  {| student_id := "9d0e6a52-1b7c-4c1d-8e2f-000000000003"; rollNumber := "003";
     fullName := "Arjun Kumar"; student_class := "Class 1-B"; photoUrl := None;
     rfidCardId := Some "RF001236"; lastUpdated := 1700000000800 |}.

Definition two_students : list OfflineStudent := [student_arjun; student_raj].

(** A JSON asset in two versions, and a read of the attendance of a day. *)
Definition locale_request : ServiceWorker.Request :=
  {| ServiceWorker.pathname := "/locales/en.json"; ServiceWorker.search := "" |}.

Definition locale_v1 : ServiceWorker.SWResponse :=
  {| ServiceWorker.sw_status := 200;
     ServiceWorker.sw_body := ServiceWorker.JsonObject (<["title" := JStr "Attendance"]> ∅) |}.

Definition locale_v2 : ServiceWorker.SWResponse :=
  {| ServiceWorker.sw_status := 200;
     ServiceWorker.sw_body := ServiceWorker.JsonObject (<["title" := JStr "Daily attendance"]> ∅) |}.


(** The caches of an origin that ran an earlier version of the worker. *)
Definition old_caches : WorkerCaches.Caches :=
  [("attendance-system-v0.9.0-static", ∅);
   (WorkerCaches.STATIC_CACHE, ServiceWorker.static_cache shell_caches);
   ("attendance-system-v1.0.0-old", ∅);
   (WorkerCaches.DYNAMIC_CACHE, ∅);
   ("fonts", ∅)].

Definition priya_singh : Server.Student :=
  {| Server.id := "9d0e6a52-1b7c-4c1d-8e2f-000000000002"; Server.rollNumber := "002";
     Server.fullName := "Priya Singh"; Server.class := "Class 1-A";
     Server.dateOfBirth := None; Server.gender := Some "Female"; Server.parentName := None;
     Server.parentPhone := None; Server.rfidCardId := Some "RF001235";
     Server.photoUrl := None; Server.faceEncoding := None; Server.userId := None;
     Server.isActive := true; Server.createdAt := 1700000000000 |}.

(** A scanning session: two cards, the first one read a second time, and
    the readings of the submission that follows. *)
Definition morning_scans : list ScannerEvent :=
  [Scan (Some [raj_patel; priya_singh]) "RF001234" 1705312800000;
   Scan (Some [raj_patel; priya_singh]) "RF001235" 1705312801000;
   Scan (Some [raj_patel; priya_singh]) "RF001234" 1705312802000].

Definition morning_props : RfidScanner.RfidScannerProps :=
  {| RfidScanner.className := "Class 1-A"; RfidScanner.subject := "Mathematics";
     RfidScanner.period := "1" |}.

Definition morning_request : Server.Req :=
  batch_request
    (call_body (RfidScanner.handleSubmitAttendance morning_props "2024-01-15"
                  (scanner_session (fun s => s) morning_scans))).

(** * Properties *)

(** ** Object stores *)

Lemma compare_Eq_iff (a b : string) : String.compare a b = Eq <-> a = b.
Proof. apply String_as_OT.cmp_eq. Qed.

Lemma compare_Lt_trans (a b c : string) :
  String.compare a b = Lt -> String.compare b c = Lt -> String.compare a c = Lt.
Proof.
  intros Hab Hbc. apply String_as_OT.cmp_lt.
  apply String_as_OT.cmp_lt in Hab, Hbc.
  exact (String_as_OT.lt_trans _ _ _ Hab Hbc).
Qed.

Lemma compare_Lt_ne (a b : string) : String.compare a b = Lt -> a <> b.
Proof.
  intros H E. apply compare_Eq_iff in E. congruence.
Qed.

Lemma compare_Gt_ne (a b : string) : String.compare a b = Gt -> a <> b.
Proof.
  intros H E. apply compare_Eq_iff in E. congruence.
Qed.

Lemma compare_Gt_Lt (a b : string) : String.compare a b = Gt -> String.compare b a = Lt.
Proof.
  intros H. rewrite String.compare_antisym, H. reflexivity.
Qed.

Section object_store_facts.
Context {A : Type} (key : A -> string).

Lemma get_Some (k : string) (s : list A) (x : A) :
  IDB.get key k s = Some x -> key x = k /\ In x s.
Proof.
  induction s as [|y s IH]; simpl; [discriminate|].
  destruct (String.eqb (key y) k) eqn:E.
  - intros [= ->]. apply String.eqb_eq in E. auto.
  - intros H. destruct (IH H). auto.
Qed.

Lemma get_None (k : string) (s : list A) :
  IDB.get key k s = None <-> (forall x, In x s -> key x <> k).
Proof.
  induction s as [|y s IH]; simpl.
  - split; [intros _ x []|reflexivity].
  - destruct (String.eqb (key y) k) eqn:E.
    + apply String.eqb_eq in E. split; [discriminate|].
      intros H. destruct (H y); auto.
    + apply String.eqb_neq in E. rewrite IH. split.
      * intros H x [<-|Hx]; auto.
      * intros H x Hx. apply H. auto.
Qed.

Lemma get_put_eq (r : A) (s : list A) : IDB.get key (key r) (IDB.put key r s) = Some r.
Proof.
  induction s as [|y s IH]; simpl.
  - rewrite String.eqb_refl. reflexivity.
  - destruct (String.compare (key r) (key y)) eqn:C; simpl.
    + rewrite String.eqb_refl. reflexivity.
    + rewrite String.eqb_refl. reflexivity.
    + apply compare_Gt_ne in C. apply not_eq_sym, String.eqb_neq in C.
      rewrite C. exact IH.
Qed.

Lemma get_put_ne (k : string) (r : A) (s : list A) :
  key r <> k -> IDB.get key k (IDB.put key r s) = IDB.get key k s.
Proof.
  intros Hk. pose proof (proj2 (String.eqb_neq _ _) Hk) as Hrk.
  induction s as [|y s IH]; simpl.
  - rewrite Hrk. reflexivity.
  - destruct (String.compare (key r) (key y)) eqn:C; simpl.
    + apply compare_Eq_iff in C. rewrite <- C, Hrk. reflexivity.
    + rewrite Hrk. reflexivity.
    + rewrite IH. reflexivity.
Qed.

Lemma put_In (r x : A) (s : list A) : In x (IDB.put key r s) -> x = r \/ In x s.
Proof.
  induction s as [|y s IH]; simpl.
  - intros [<-|[]]. auto.
  - destruct (String.compare (key r) (key y)); simpl.
    + intros [<-|H]; auto.
    + intros [<-|[<-|H]]; auto.
    + intros [<-|H]; auto. destruct (IH H); auto.
Qed.

Lemma put_In_new (r : A) (s : list A) : In r (IDB.put key r s).
Proof.
  induction s as [|y s IH]; simpl; [auto|].
  destruct (String.compare (key r) (key y)); simpl; auto.
Qed.

Lemma put_In_old (r x : A) (s : list A) :
  key x <> key r -> In x s -> In x (IDB.put key r s).
Proof.
  intros Hne. induction s as [|y s IH]; simpl; [tauto|].
  destruct (String.compare (key r) (key y)) eqn:C; simpl.
  - apply compare_Eq_iff in C. intros [<-|H]; [congruence|auto].
  - intros [<-|H]; auto.
  - intros [<-|H]; auto.
Qed.

Lemma put_ordered (r : A) (s : list A) :
  IDB.key_ordered key s -> IDB.key_ordered key (IDB.put key r s).
Proof.
  unfold IDB.key_ordered. induction 1 as [|y s Hs IH Hy]; simpl.
  - repeat constructor.
  - destruct (String.compare (key r) (key y)) eqn:C.
    + apply compare_Eq_iff in C. constructor; [exact Hs|].
      eapply Forall_impl; [exact Hy|].
      intros z Hz. unfold IDB.key_lt in *. rewrite C. exact Hz.
    + constructor; [constructor; assumption|].
      constructor; [exact C|].
      eapply Forall_impl; [exact Hy|].
      intros z Hz. exact (compare_Lt_trans _ _ _ C Hz).
    + constructor; [exact IH|].
      apply Forall_forall. intros z Hz. apply list_elem_of_In, put_In in Hz.
      destruct Hz as [->|Hz].
      * exact (compare_Gt_Lt _ _ C).
      * rewrite Forall_forall in Hy. apply Hy, list_elem_of_In, Hz.
Qed.


Lemma ordered_lookup_inj (s : list A) (i j : nat) (x y : A) :
  IDB.key_ordered key s -> s !! i = Some x -> s !! j = Some y -> key x = key y -> i = j.
Proof.
  unfold IDB.key_ordered. intros Hs. revert i j.
  induction Hs as [|z s Hs IH Hz]; intros i j; [discriminate|].
  rewrite Forall_forall in Hz.
  destruct i as [|i], j as [|j]; simpl; intros Hi Hj Hk.
  - reflexivity.
  - injection Hi as ->. apply list_elem_of_lookup_2, Hz, compare_Lt_ne in Hj. congruence.
  - injection Hj as ->. apply list_elem_of_lookup_2, Hz, compare_Lt_ne in Hi. congruence.
  - f_equal. exact (IH i j Hi Hj Hk).
Qed.

Lemma ordered_filter (P : A -> Prop) `{!forall x, Decision (P x)} (s : list A) :
  IDB.key_ordered key s -> IDB.key_ordered key (filter P s).
Proof.
  unfold IDB.key_ordered. induction 1 as [|y s Hs IH Hy]; [constructor|].
  rewrite filter_cons. destruct (decide (P y)); [|exact IH].
  constructor; [exact IH|]. apply Forall_forall. intros z Hz.
  apply list_elem_of_filter in Hz as [_ Hz].
  rewrite Forall_forall in Hy. auto.
Qed.

Lemma put_fresh_filter_length (P : A -> Prop) `{!forall x, Decision (P x)} (r : A) (s : list A) :
  IDB.get key (key r) s = None ->
  length (filter P (IDB.put key r s)) = (length (filter P [r]) + length (filter P s))%nat.
Proof.
  induction s as [|y s IH]; simpl; [intros _; lia|].
  destruct (String.eqb (key y) (key r)) eqn:E; [discriminate|]. intros Hs.
  apply String.eqb_neq in E.
  destruct (String.compare (key r) (key y)) eqn:C.
  - apply compare_Eq_iff in C. congruence.
  - rewrite (filter_cons P r (y :: s)), (filter_cons P r []), filter_nil.
    destruct (decide (P r)); simpl; lia.
  - rewrite (filter_cons P y (IDB.put key r s)), (filter_cons P y s).
    specialize (IH Hs). destruct (decide (P y)); simpl; lia.
Qed.

End object_store_facts.

(** ** Enqueueing *)

Lemma pending_with_attendance (s : list OfflineAttendanceRecord) (d : Device) :
  pending (with_attendance s d) = select_synced false s.
Proof. reflexivity. Qed.

Lemma storeAttendanceRecord_resolved (record : AttendanceFields) (e : OfflineStorage.EnqueueEnv)
  (d : Device) :
  db_open d = true ->
  IDB.get id (OfflineStorage.generateId (OfflineStorage.id_clock e) (OfflineStorage.id_random e))
    (attendanceRecords (idb d)) = None ->
  OfflineStorage.storeAttendanceRecord record e d =
    (Resolved (OfflineStorage.generateId (OfflineStorage.id_clock e) (OfflineStorage.id_random e)),
     with_attendance
       (IDB.put id
          {| fields := record;
             id := OfflineStorage.generateId (OfflineStorage.id_clock e) (OfflineStorage.id_random e);
             timestamp := OfflineStorage.stamp_clock e; synced := false |}
          (attendanceRecords (idb d))) d).
Proof.
  intros Hopen Hfresh. unfold OfflineStorage.storeAttendanceRecord, IDB.add.
  rewrite Hopen. simpl. rewrite Hfresh. reflexivity.
Qed.

(** The only rejections of [storeAttendanceRecord]: an unset handle, and a
    failed [add] because the generated id is already a key.  Neither looks
    at the event; the device is left as it was. *)
Lemma storeAttendanceRecord_rejected (record : AttendanceFields) (e : OfflineStorage.EnqueueEnv)
  (d d' : Device) (err : Error) :
  OfflineStorage.storeAttendanceRecord record e d = (Rejected err, d') ->
  d' = d /\
  ((err = DatabaseNotInitialized /\ db_open d = false) \/
   (err = RequestError /\
    IDB.get id (OfflineStorage.generateId (OfflineStorage.id_clock e) (OfflineStorage.id_random e))
      (attendanceRecords (idb d)) <> None)).
Proof.
  unfold OfflineStorage.storeAttendanceRecord, IDB.add.
  destruct (db_open d); simpl.
  - destruct (IDB.get id _ (attendanceRecords (idb d))) eqn:G; simpl.
    + intros [= <- <-]. split; [reflexivity|]. right. split; [reflexivity|discriminate].
    + discriminate.
  - intros [= <- <-]. auto.
Qed.

Lemma storeAttendanceRecord_step (record : AttendanceFields) (e : OfflineStorage.EnqueueEnv)
  (d : Device) :
  let '(p, d') := OfflineStorage.storeAttendanceRecord record e d in
  pending_count d' = (pending_count d + (if is_resolved p then 1 else 0))%nat /\
  (forall r, In r (attendanceRecords (idb d)) -> In r (attendanceRecords (idb d'))).
Proof.
  unfold OfflineStorage.storeAttendanceRecord, IDB.add.
  destruct (db_open d); simpl; [|split; [lia|auto]].
  set (r0 := {| fields := record;
                id := OfflineStorage.generateId (OfflineStorage.id_clock e) (OfflineStorage.id_random e);
                timestamp := OfflineStorage.stamp_clock e; synced := false |}).
  change (OfflineStorage.generateId (OfflineStorage.id_clock e) (OfflineStorage.id_random e))
    with (id r0).
  destruct (IDB.get id (id r0) (attendanceRecords (idb d))) eqn:G; simpl; [split; [lia|auto]|].
  split.
  - unfold pending_count. rewrite pending_with_attendance. unfold pending, select_synced.
    rewrite (put_fresh_filter_length id _ r0 _ G).
    rewrite filter_cons, filter_nil. simpl. lia.
  - intros r Hr. apply put_In_old; [|exact Hr].
    exact (proj1 (get_None id _ _) G r Hr).
Qed.

(** C1 (as the code has it).  Enqueueing appends.  After any sequence of
    [storeAttendanceRecord] calls the number of unsynced records is the
    number there was before plus the number of calls that resolved, and
    every record stored before is still stored: a call never overwrites a
    record, whatever (studentId, date, period) it carries. *)
Theorem enqueue_appends (ops : list (AttendanceFields * OfflineStorage.EnqueueEnv)) (d : Device) :
  pending_count (snd (enqueue_all ops d)) =
    (pending_count d + length (filter (fun p => is_resolved p = true) (fst (enqueue_all ops d))))%nat /\
  (forall r, In r (attendanceRecords (idb d)) ->
             In r (attendanceRecords (idb (snd (enqueue_all ops d))))).
Proof.
  revert d. induction ops as [|[record e] ops IH]; intros d; simpl.
  - split; [lia|auto].
  - pose proof (storeAttendanceRecord_step record e d) as Hstep.
    destruct (OfflineStorage.storeAttendanceRecord record e d) as [p d1].
    destruct Hstep as [Hcount Hkeep].
    specialize (IH d1). destruct (enqueue_all ops d1) as [ps d2]. simpl in *.
    destruct IH as [IHcount IHkeep]. split; [|auto].
    rewrite filter_cons. destruct (is_resolved p); simpl.
    + destruct (decide (true = true)); [simpl; lia|congruence].
    + destruct (decide (false = true)); [congruence|simpl; lia].
Qed.

(** C1 (as stated) fails: the same mark enqueued twice leaves two unsynced
    records for one (studentId, date, period) combination. *)
Lemma duplicate_enqueue_appends :
  ~ (pending_count (snd (enqueue_all duplicate_marks empty_device))
     <= distinct_event_keys duplicate_marks)%nat.
Proof.
  assert (pending_count (snd (enqueue_all duplicate_marks empty_device)) = 2%nat) as ->
    by (vm_compute; reflexivity).
  assert (distinct_event_keys duplicate_marks = 1%nat) as -> by (vm_compute; reflexivity).
  lia.
Qed.

(** C6 (as the code has it).  [storeAttendanceRecord] checks the database
    handle and nothing else: for every event, with whatever fields present
    or absent, the call resolves as soon as the handle is set and the
    generated id is unused, and the event is then stored as it was given,
    under that id, unsynced. *)
Theorem storeAttendanceRecord_accepts_any (record : AttendanceFields)
  (e : OfflineStorage.EnqueueEnv) (d : Device) :
  db_open d = true ->
  IDB.get id (OfflineStorage.generateId (OfflineStorage.id_clock e) (OfflineStorage.id_random e))
    (attendanceRecords (idb d)) = None ->
  exists d',
    OfflineStorage.storeAttendanceRecord record e d =
      (Resolved (OfflineStorage.generateId (OfflineStorage.id_clock e) (OfflineStorage.id_random e)), d') /\
    IDB.get id (OfflineStorage.generateId (OfflineStorage.id_clock e) (OfflineStorage.id_random e))
      (attendanceRecords (idb d')) =
      Some {| fields := record;
              id := OfflineStorage.generateId (OfflineStorage.id_clock e) (OfflineStorage.id_random e);
              timestamp := OfflineStorage.stamp_clock e; synced := false |} /\
    pending_count d' = S (pending_count d).
Proof.
  intros Hopen Hfresh. eexists. split; [apply storeAttendanceRecord_resolved; assumption|].
  set (r0 := {| fields := record;
                id := OfflineStorage.generateId (OfflineStorage.id_clock e) (OfflineStorage.id_random e);
                timestamp := OfflineStorage.stamp_clock e; synced := false |}).
  split.
  - exact (get_put_eq id r0 _).
  - pose proof (storeAttendanceRecord_step record e d) as Hstep.
    rewrite (storeAttendanceRecord_resolved record e d Hopen Hfresh) in Hstep.
    destruct Hstep as [Hcount _]. simpl in Hcount. fold r0 in Hcount. rewrite Hcount. lia.
Qed.

Lemma storeAttendanceRecord_accepts_any_witness :
  exists d',
    OfflineStorage.storeAttendanceRecord mark_no_student env_first empty_device =
      (Resolved (OfflineStorage.generateId 1700000000000 "k3x9q2m1z"), d') /\
    IDB.get id (OfflineStorage.generateId 1700000000000 "k3x9q2m1z") (attendanceRecords (idb d')) =
      Some {| fields := mark_no_student;
              id := OfflineStorage.generateId 1700000000000 "k3x9q2m1z";
              timestamp := 1700000000000; synced := false |} /\
    pending_count d' = S (pending_count empty_device).
Proof.
  apply (storeAttendanceRecord_accepts_any mark_no_student env_first empty_device); reflexivity.
Defined.

(** C6 (as stated) fails: events lacking a required field are not all
    rejected.  The mark without its [studentId] resolves and is stored. *)
Lemma missing_student_is_stored :
  ~ (forall record e d,
       required_present record = false ->
       exists err, OfflineStorage.storeAttendanceRecord record e d = (Rejected err, d)).
Proof.
  intros H.
  destruct (H mark_no_student env_first empty_device eq_refl) as [err E].
  vm_compute in E. discriminate E.
Qed.

(** ** The order of the store and the read of the pending view *)

(** The store order is kept by both writers of [attendanceRecords]. *)
Lemma storeAttendanceRecord_ordered (record : AttendanceFields) (e : OfflineStorage.EnqueueEnv)
  (d : Device) :
  id_ascending (attendanceRecords (idb d)) ->
  id_ascending (attendanceRecords (idb (snd (OfflineStorage.storeAttendanceRecord record e d)))).
Proof.
  intros Hd. unfold OfflineStorage.storeAttendanceRecord, IDB.add.
  destruct (db_open d); simpl; [|exact Hd].
  destruct (IDB.get id _ (attendanceRecords (idb d))); simpl; [exact Hd|].
  apply put_ordered, Hd.
Qed.

Lemma markRecordSynced_ordered (recordId : string) (d : Device) :
  id_ascending (attendanceRecords (idb d)) ->
  id_ascending (attendanceRecords (idb (snd (OfflineStorage.markRecordSynced recordId d)))).
Proof.
  intros Hd. unfold OfflineStorage.markRecordSynced.
  destruct (db_open d); simpl; [|exact Hd].
  destruct (IDB.get id recordId (attendanceRecords (idb d))); simpl; [|exact Hd].
  apply put_ordered, Hd.
Qed.

Lemma enqueue_all_ordered (ops : list (AttendanceFields * OfflineStorage.EnqueueEnv)) (d : Device) :
  id_ascending (attendanceRecords (idb d)) ->
  id_ascending (attendanceRecords (idb (snd (enqueue_all ops d)))).
Proof.
  revert d. induction ops as [|[record e] ops IH]; intros d Hd; simpl; [exact Hd|].
  pose proof (storeAttendanceRecord_ordered record e d Hd) as H1.
  destruct (OfflineStorage.storeAttendanceRecord record e d) as [p d1].
  specialize (IH d1 H1). destruct (enqueue_all ops d1) as [ps d2]. exact IH.
Qed.

(** C9.  The pending view is never delivered.
    [getPendingAttendanceRecords] asks the [synced] index for the key
    [false]; a boolean is no key, so the read throws and the promise
    rejects on every device: with "Database not initialized" when the
    handle is unset and with a [DataError] otherwise, whatever the store
    holds.  On the device with two unsynced records no list, ordered or
    not, comes back. *)
Theorem pending_view_rejects (d : Device) :
  OfflineStorage.getPendingAttendanceRecords d =
    Rejected (if db_open d then DataError else DatabaseNotInitialized) /\
  pending two_record_device = [record_second; record_first] /\
  OfflineStorage.getPendingAttendanceRecords two_record_device = Rejected DataError.
Proof.
  split; [|split; reflexivity].
  unfold OfflineStorage.getPendingAttendanceRecords. destruct (db_open d); reflexivity.
Qed.

(** What follows from it for the callers of the read. *)
Lemma syncWithServer_rejects (net : nat -> FetchResult) (now : Z) (d : Device) :
  OfflineStorage.syncWithServer net now d =
    Rejected (if db_open d then DataError else DatabaseNotInitialized).
Proof.
  unfold OfflineStorage.syncWithServer, OfflineStorage.getPendingAttendanceRecords.
  destruct (db_open d); reflexivity.
Qed.

Lemma getSyncStatus_rejects (online : bool) (d : Device) :
  OfflineStorage.getSyncStatus online d =
    Rejected (if db_open d then DataError else DatabaseNotInitialized).
Proof.
  unfold OfflineStorage.getSyncStatus, OfflineStorage.getPendingAttendanceRecords.
  destruct (db_open d); reflexivity.
Qed.

Lemma syncAttendanceData_silent (net : nat -> FetchResult) (d : Device) :
  ServiceWorker.syncAttendanceData net d =
    ({| ServiceWorker.device := d; ServiceWorker.sent := [] |}, None).
Proof. reflexivity. Qed.

(** ** Marking records *)










(** ** The two submission loops *)








(** ** Acknowledged records *)




(** ** What a submission carries *)







(** ** Failed submissions *)






(** ** The two implementations side by side *)






(** ** The attendance route *)

Lemma map_set_fresh {V : Type} (k : string) (v : V) (m : list (string * V)) :
  ~ In k (map fst m) -> Server.map_set k v m = m ++ [(k, v)].
Proof.
  induction m as [|[k' v'] m IH]; simpl; [reflexivity|].
  intros H. destruct (String.eqb k' k) eqn:E.
  - apply String.eqb_eq in E. tauto.
  - rewrite IH by tauto. reflexivity.
Qed.

(** Only the date of the day enters the object that is validated. *)
Lemma mark_object_today (uid : string) (e1 e2 : Server.MarkEnv) (data : JObject) :
  Server.today e1 = Server.today e2 ->
  Server.mark_object uid e1 data = Server.mark_object uid e2 data.
Proof.
  intros H. unfold Server.mark_object. rewrite H. reflexivity.
Qed.

(** A [localId] property never reaches a row: the schema does not read
    it. *)
Lemma parse_drops_localId (uid : string) (e : Server.MarkEnv) (data : JObject) (v : JValue) :
  Server.insertAttendanceSchema_parse (Server.mark_object uid e (<["localId" := v]> data)) =
  Server.insertAttendanceSchema_parse (Server.mark_object uid e data).
Proof.
  unfold Server.insertAttendanceSchema_parse, Server.mark_object, Server.required_text,
    Server.nullable_text.
  rewrite !(lookup_insert_ne data "localId" "date") by discriminate.
  rewrite !lookup_insert_eq.
  repeat (rewrite !(lookup_insert_ne _ "date") by discriminate).
  rewrite !lookup_insert_eq.
  repeat (rewrite !(lookup_insert_ne _ "teacherId") by discriminate).
  repeat (rewrite !(lookup_insert_ne _ "localId") by discriminate).
  reflexivity.
Qed.

(** The guard of the route: without a session nothing is stored. *)
Lemma post_attendance_mark_requires_session (req : Server.Req) (env : nat -> Server.MarkEnv)
  (st : Server.MemStorage) :
  Server.user req = None ->
  Server.post_attendance_mark req env st = (Server.ReplyMessage 401 "Authentication required", st).
Proof.
  intros H. unfold Server.post_attendance_mark, Server.isAuthenticated. rewrite H.
  reflexivity.
Qed.

Lemma post_single_valid (uid : string) (data : JObject) (req : Server.Req)
  (env : nat -> Server.MarkEnv) (st : Server.MemStorage) (v : Server.InsertAttendance) :
  Server.user req = Some uid ->
  Server.body req = Server.BodyArray [data] ->
  Server.insertAttendanceSchema_parse (Server.mark_object uid (env 0%nat) data) = Some v ->
  Server.post_attendance_mark req env st =
    (Server.ReplyJson 201
       [fst (Server.createAttendance v (Server.uuid (env 0%nat)) (Server.now (env 0%nat)) st)],
     snd (Server.createAttendance v (Server.uuid (env 0%nat)) (Server.now (env 0%nat)) st)).
Proof.
  intros Hu Hb Hp. unfold Server.post_attendance_mark, Server.isAuthenticated.
  rewrite Hu, Hb. simpl. rewrite Hp. reflexivity.
Qed.

(** C3 (as the code has it).  The route is not idempotent: every valid
    submission by an authenticated user creates a row under the UUID drawn
    for it.  The same one-record request submitted twice on the same day,
    the two UUIDs being new to the table and different, appends two rows;
    they agree in every field but [id] and [markedAt], and the table holds
    two more rows for that student, date and period than before. *)
Theorem mark_twice_two_rows (uid : string) (data : JObject) (req : Server.Req)
  (env1 env2 : nat -> Server.MarkEnv) (st : Server.MemStorage) (v : Server.InsertAttendance) :
  Server.user req = Some uid ->
  Server.body req = Server.BodyArray [data] ->
  Server.insertAttendanceSchema_parse (Server.mark_object uid (env1 0%nat) data) = Some v ->
  Server.today (env1 0%nat) = Server.today (env2 0%nat) ->
  ~ In (Server.uuid (env1 0%nat)) (map fst (Server.attendance st)) ->
  ~ In (Server.uuid (env2 0%nat)) (map fst (Server.attendance st)) ->
  Server.uuid (env1 0%nat) <> Server.uuid (env2 0%nat) ->
  Server.attendance (submit_twice req env1 env2 st) =
    Server.attendance st ++
      [(Server.uuid (env1 0%nat),
        fst (Server.createAttendance v (Server.uuid (env1 0%nat)) (Server.now (env1 0%nat)) st));
       (Server.uuid (env2 0%nat),
        fst (Server.createAttendance v (Server.uuid (env2 0%nat)) (Server.now (env2 0%nat)) st))] /\
  length (rows_of_event (Server.ins_studentId v) (Server.ins_date v) (Server.ins_period v)
            (submit_twice req env1 env2 st)) =
    (length (rows_of_event (Server.ins_studentId v) (Server.ins_date v) (Server.ins_period v) st) + 2)%nat.
Proof.
  intros Hu Hb Hp Hday Hf1 Hf2 Hne.
  assert (Server.attendance (submit_twice req env1 env2 st) =
    Server.attendance st ++
      [(Server.uuid (env1 0%nat),
        fst (Server.createAttendance v (Server.uuid (env1 0%nat)) (Server.now (env1 0%nat)) st));
       (Server.uuid (env2 0%nat),
        fst (Server.createAttendance v (Server.uuid (env2 0%nat)) (Server.now (env2 0%nat)) st))])
    as Htable.
  { unfold submit_twice.
    rewrite (post_single_valid uid data req env1 st v Hu Hb Hp). simpl.
    rewrite (mark_object_today uid _ _ data Hday) in Hp.
    rewrite (post_single_valid uid data req env2 _ v Hu Hb Hp). simpl.
    rewrite (map_set_fresh _ _ (Server.attendance st)) by exact Hf1.
    rewrite map_set_fresh.
    - rewrite <- app_assoc. reflexivity.
    - rewrite map_app, in_app_iff. simpl. intros [H|[H|[]]]; [tauto|congruence]. }
  split; [exact Htable|].
  unfold rows_of_event, Server.map_values. rewrite Htable, map_app, filter_app, length_app.
  f_equal. simpl.
  rewrite !filter_cons, filter_nil. simpl.
  repeat case_decide; simpl; tauto.
Qed.

Lemma mark_twice_two_rows_witness :
  Server.attendance (submit_twice mark_request env_submit_1 env_submit_2 one_student_storage) =
    Server.attendance one_student_storage ++
      [("3f2b8c1e-5d4a-4e6f-9a7b-000000000001",
        {| Server.att_id := "3f2b8c1e-5d4a-4e6f-9a7b-000000000001"; Server.studentId := "s1";
           Server.teacherId := "t1"; Server.att_class := "5-A"; Server.subject := None;
           Server.date := "2024-01-15"; Server.period := Some "1"; Server.status := "present";
           Server.method := "manual"; Server.markedAt := 1705312800000 |});
       ("3f2b8c1e-5d4a-4e6f-9a7b-000000000002",
        {| Server.att_id := "3f2b8c1e-5d4a-4e6f-9a7b-000000000002"; Server.studentId := "s1";
           Server.teacherId := "t1"; Server.att_class := "5-A"; Server.subject := None;
           Server.date := "2024-01-15"; Server.period := Some "1"; Server.status := "present";
           Server.method := "manual"; Server.markedAt := 1705312860000 |})] /\
  length (rows_of_event "s1" "2024-01-15" (Some "1")
            (submit_twice mark_request env_submit_1 env_submit_2 one_student_storage)) =
    (length (rows_of_event "s1" "2024-01-15" (Some "1") one_student_storage) + 2)%nat.
Proof.
  refine (mark_twice_two_rows "t1" submitted_mark mark_request env_submit_1 env_submit_2
            one_student_storage
            {| Server.ins_studentId := "s1"; Server.ins_teacherId := "t1"; Server.ins_class := "5-A";
               Server.ins_subject := None; Server.ins_date := "2024-01-15";
               Server.ins_period := Some "1"; Server.ins_status := "present";
               Server.ins_method := "manual" |}
            eq_refl eq_refl _ eq_refl _ _ _).
  - vm_compute. reflexivity.
  - simpl. tauto.
  - simpl. tauto.
  - discriminate.
Defined.

(** C3 (as stated) fails: the same record, with the same [localId],
    submitted twice leaves two rows for its student, date and period. *)
Lemma mark_is_not_idempotent :
  ~ (length (rows_of_event "s1" "2024-01-15" (Some "1")
               (submit_twice mark_request env_submit_1 env_submit_2 one_student_storage)) <= 1)%nat.
Proof.
  assert (length (rows_of_event "s1" "2024-01-15" (Some "1")
                    (submit_twice mark_request env_submit_1 env_submit_2 one_student_storage))
          = 2%nat) as -> by (vm_compute; reflexivity).
  lia.
Qed.

(** ** The student route *)

(** C7, the roster half.  [GET /api/students] answers a request that has
    no session with status 200 and the active students; the session is not
    consulted. *)
Theorem get_students_without_session (toLowerCase : string -> string) (st : Server.MemStorage) :
  Server.isAuthenticated anonymous_roster_request = false /\
  Server.get_students toLowerCase anonymous_roster_request st =
    Server.ReplyJson 200 (Server.getAllStudents st).
Proof.
  split; reflexivity.
Qed.

Lemma get_students_without_session_example (toLowerCase : string -> string) :
  Server.get_students toLowerCase anonymous_roster_request one_student_storage =
    Server.ReplyJson 200 [raj_patel].
Proof. vm_compute. reflexivity. Qed.

(** The reply of [GET /api/students] does not depend on the session. *)
Lemma get_students_ignores_session (toLowerCase : string -> string) (u u' : option string)
  (qc qs : option string) (b : Server.ReqBody) (st : Server.MemStorage) :
  Server.get_students toLowerCase
    {| Server.user := u; Server.query_class := qc; Server.query_search := qs;
       Server.body := b |} st =
  Server.get_students toLowerCase
    {| Server.user := u'; Server.query_class := qc; Server.query_search := qs;
       Server.body := b |} st.
Proof. reflexivity. Qed.

(** ** The network-first handler *)

Lemma prefix_append (p s t : string) :
  String.prefix p s = true -> String.prefix p (s +:+ t) = true.
Proof.
  revert s. induction p as [|a p IH]; intros [|b s]; simpl.
  - intros _. destruct t; reflexivity.
  - reflexivity.
  - discriminate.
  - destruct (ascii_dec a b); [apply IH|discriminate].
Qed.

Lemma prefix_chain (a b c : string) :
  String.prefix a b = true -> String.prefix b c = true -> String.prefix a c = true.
Proof.
  revert b c. induction a as [|x a IH]; intros [|y b] [|z c]; simpl;
    try reflexivity; try discriminate.
  destruct (ascii_dec x y) as [->|]; [|discriminate].
  destruct (ascii_dec y z) as [->|]; [|discriminate].
  apply IH.
Qed.

(** The paths kept for offline use are API paths. *)
Lemma offline_api_path (request : ServiceWorker.Request) :
  existsb (fun api => String.prefix api (ServiceWorker.pathname request))
    ServiceWorker.OFFLINE_APIS = true ->
  String.prefix "/api/" (ServiceWorker.pathname request) = true.
Proof.
  intros H. apply existsb_exists in H as (api & Hin & Hp).
  apply (prefix_chain _ api); [|exact Hp].
  unfold ServiceWorker.OFFLINE_APIS in Hin. simpl in Hin.
  repeat (destruct Hin as [<-|Hin]; [reflexivity|]).
  destruct Hin.
Qed.

(** The URL of an API request is not the URL of a static asset. *)
Lemma api_url_not_static (request : ServiceWorker.Request) :
  String.prefix "/api/" (ServiceWorker.pathname request) = true ->
  ~ In (ServiceWorker.url request) ServiceWorker.STATIC_ASSETS.
Proof.
  intros Hp Hin.
  pose proof (prefix_append _ _ (ServiceWorker.search request) Hp) as Hurl.
  fold (ServiceWorker.url request) in Hurl.
  unfold ServiceWorker.STATIC_ASSETS in Hin. simpl in Hin.
  repeat (destruct Hin as [Hin|Hin]; [rewrite <- Hin in Hurl; discriminate Hurl|]).
  exact Hin.
Qed.

(** A server response that is not 2xx is handed on as it is; the cache is
    neither written nor read. *)
Lemma handleApiRequest_passes_errors (request : ServiceWorker.Request)
  (r : ServiceWorker.SWResponse) (c : ServiceWorker.CacheStorage) :
  ServiceWorker.sw_ok r = false ->
  ServiceWorker.handleApiRequest request (ServiceWorker.NetworkReturns r) c = (r, c).
Proof.
  intros H. unfold ServiceWorker.handleApiRequest. rewrite H. reflexivity.
Qed.

(** C8 (as the code has it).  A read of one of the paths kept for offline
    use (the roster: [/api/students], [/api/classes]) goes to the network
    first.  A 2xx response is served and replaces the cached entry of the
    request; if all the reads that follow find the network down, each of
    them is served that response.  A response with any other status is
    served as it is and the caches are left alone, also when a snapshot is
    cached.  When the fetch itself fails, a cached response for the
    request is served if there is one, and only if there is none the
    response with status 503 that says "Offline". *)
Theorem roster_read_network_first (request : ServiceWorker.Request)
  (c : ServiceWorker.CacheStorage) :
  existsb (fun api => String.prefix api (ServiceWorker.pathname request))
    ServiceWorker.OFFLINE_APIS = true ->
  (forall k, is_Some (ServiceWorker.static_cache c !! k) -> In k ServiceWorker.STATIC_ASSETS) ->
  (forall r, ServiceWorker.sw_ok r = true ->
     ServiceWorker.handleApiRequest request (ServiceWorker.NetworkReturns r) c =
       (r, ServiceWorker.dynamic_put request r c) /\
     ServiceWorker.dynamic_cache (ServiceWorker.dynamic_put request r c)
       !! ServiceWorker.url request = Some r /\
     forall n,
       serve_all request (replicate n ServiceWorker.NetworkFails)
         (ServiceWorker.dynamic_put request r c) =
         (replicate n r, ServiceWorker.dynamic_put request r c)) /\
  (forall r, ServiceWorker.sw_ok r = false ->
     ServiceWorker.handleApiRequest request (ServiceWorker.NetworkReturns r) c = (r, c)) /\
  (forall r, ServiceWorker.caches_match request c = Some r ->
     ServiceWorker.handleApiRequest request ServiceWorker.NetworkFails c = (r, c)) /\
  (ServiceWorker.caches_match request c = None ->
     ServiceWorker.handleApiRequest request ServiceWorker.NetworkFails c =
       ({| ServiceWorker.sw_status := 503;
           ServiceWorker.sw_body :=
             ServiceWorker.JsonObject
               (<["error" := JStr "Offline"]>
                  (<["message" := JStr "This feature is not available offline"]> ∅)) |}, c) /\
     ServiceWorker.sw_ok (fst (ServiceWorker.handleApiRequest request ServiceWorker.NetworkFails c))
       = false).
Proof.
  intros Hp Hstatic.
  assert (ServiceWorker.static_cache c !! ServiceWorker.url request = None) as Hnone.
  { destruct (ServiceWorker.static_cache c !! ServiceWorker.url request) eqn:E; [|reflexivity].
    destruct (api_url_not_static request (offline_api_path request Hp)).
    apply Hstatic. rewrite E. eauto. }
  split; [|split; [|split]].
  - intros r Hok. split; [|split].
    + unfold ServiceWorker.handleApiRequest. rewrite Hok, Hp. reflexivity.
    + simpl. apply lookup_insert_eq.
    + induction n as [|n IH]; simpl; [reflexivity|].
      unfold ServiceWorker.caches_match. simpl.
      rewrite Hnone, lookup_insert_eq.
      change (ServiceWorker.mkCaches (ServiceWorker.static_cache c)
                (<[ServiceWorker.url request := r]> (ServiceWorker.dynamic_cache c)))
        with (ServiceWorker.dynamic_put request r c).
      rewrite IH. reflexivity.
  - intros r Hr. apply handleApiRequest_passes_errors, Hr.
  - intros r Hr. unfold ServiceWorker.handleApiRequest. rewrite Hr. reflexivity.
  - intros Hr. unfold ServiceWorker.handleApiRequest. rewrite Hr. split; reflexivity.
Qed.

Lemma roster_read_network_first_witness :
  (forall r, ServiceWorker.sw_ok r = true ->
     ServiceWorker.handleApiRequest roster_request (ServiceWorker.NetworkReturns r) shell_caches =
       (r, ServiceWorker.dynamic_put roster_request r shell_caches) /\
     ServiceWorker.dynamic_cache (ServiceWorker.dynamic_put roster_request r shell_caches)
       !! ServiceWorker.url roster_request = Some r /\
     forall n,
       serve_all roster_request (replicate n ServiceWorker.NetworkFails)
         (ServiceWorker.dynamic_put roster_request r shell_caches) =
         (replicate n r, ServiceWorker.dynamic_put roster_request r shell_caches)) /\
  (forall r, ServiceWorker.sw_ok r = false ->
     ServiceWorker.handleApiRequest roster_request (ServiceWorker.NetworkReturns r) shell_caches =
       (r, shell_caches)) /\
  (forall r, ServiceWorker.caches_match roster_request shell_caches = Some r ->
     ServiceWorker.handleApiRequest roster_request ServiceWorker.NetworkFails shell_caches =
       (r, shell_caches)) /\
  (ServiceWorker.caches_match roster_request shell_caches = None ->
     ServiceWorker.handleApiRequest roster_request ServiceWorker.NetworkFails shell_caches =
       ({| ServiceWorker.sw_status := 503;
           ServiceWorker.sw_body :=
             ServiceWorker.JsonObject
               (<["error" := JStr "Offline"]>
                  (<["message" := JStr "This feature is not available offline"]> ∅)) |},
        shell_caches) /\
     ServiceWorker.sw_ok
       (fst (ServiceWorker.handleApiRequest roster_request ServiceWorker.NetworkFails shell_caches))
       = false).
Proof.
  apply (roster_read_network_first roster_request shell_caches).
  - reflexivity.
  - intros k [x Hk]. unfold shell_caches in Hk. simpl in Hk.
    destruct (decide ("/" = k)) as [<-|Hne].
    + simpl. auto.
    + rewrite lookup_insert_ne, lookup_empty in Hk by exact Hne. discriminate Hk.
Defined.

(** C8 (as stated) fails: with the roster of an earlier read in the cache,
    a read that the server answers with status 500 is served that answer,
    not the cached roster. *)
Lemma server_error_not_served_from_cache :
  ~ (forall request c snapshot net,
       existsb (fun api => String.prefix api (ServiceWorker.pathname request))
         ServiceWorker.OFFLINE_APIS = true ->
       ServiceWorker.caches_match request c = Some snapshot ->
       (net = ServiceWorker.NetworkFails \/
        exists r, net = ServiceWorker.NetworkReturns r /\ ServiceWorker.sw_ok r = false) ->
       fst (ServiceWorker.handleApiRequest request net c) = snapshot).
Proof.
  intros H.
  specialize (H roster_request roster_caches roster_response
                (ServiceWorker.NetworkReturns server_error) eq_refl eq_refl
                (or_intror (ex_intro _ server_error (conj eq_refl eq_refl)))).
  vm_compute in H. discriminate H.
Qed.

(** The roster is fetched once, then read three times with the network
    down; and read with the network down before any fetch. *)
Lemma roster_fallback_example :
  fst (serve_all roster_request
         [ServiceWorker.NetworkReturns roster_response; ServiceWorker.NetworkFails;
          ServiceWorker.NetworkFails; ServiceWorker.NetworkFails] shell_caches) =
    [roster_response; roster_response; roster_response; roster_response] /\
  fst (serve_all roster_request [ServiceWorker.NetworkFails] shell_caches) =
    [ServiceWorker.offline_response].
Proof. split; vm_compute; reflexivity. Qed.

(** ** The students cache of the library *)

Lemma add_student_In (x : OfflineStudent) (s s' : list OfflineStudent) :
  OfflineStorage.add_student x s = Some s' -> forall y, In y s' <-> y = x \/ In y s.
Proof.
  unfold OfflineStorage.add_student, IDB.add.
  destruct (existsb _ s); [discriminate|].
  destruct (IDB.get student_id (student_id x) s) eqn:G; [discriminate|].
  intros [= <-] y. split.
  - apply put_In.
  - intros [->|Hy]; [apply put_In_new|].
    apply put_In_old; [|exact Hy].
    exact (proj1 (get_None student_id _ _) G y Hy).
Qed.

Lemma add_students_In (clock : nat -> Z) (l : list OfflineStudent) (i : nat)
  (s s' : list OfflineStudent) :
  OfflineStorage.add_students clock i l s = Some s' ->
  forall y, In y s' <->
            In y s \/ exists j x, l !! j = Some x /\ y = OfflineStorage.stamp (clock (i + j)%nat) x.
Proof.
  revert i s. induction l as [|x l IH]; intros i s; simpl.
  - intros [= <-] y. split; [auto|]. intros [H|(j & x & H & _)]; [exact H|discriminate H].
  - destruct (OfflineStorage.add_student (OfflineStorage.stamp (clock i) x) s) as [s1|] eqn:A;
      [|discriminate].
    intros Hrest y. rewrite (IH _ _ Hrest y), (add_student_In _ _ _ A y). split.
    + intros [[->|H]|(j & z & Hj & ->)].
      * right. exists 0%nat, x. rewrite Nat.add_0_r. auto.
      * auto.
      * right. exists (S j), z. replace (i + S j)%nat with (S i + j)%nat by lia. auto.
    + intros [H|(j & z & Hj & ->)]; [auto|].
      destruct j as [|j]; simpl in Hj.
      * injection Hj as <-. rewrite Nat.add_0_r. auto.
      * right. exists j, z. replace (S i + j)%nat with (i + S j)%nat by lia. auto.
Qed.

(** A resolved [cacheStudents] leaves exactly the students it was given,
    each stamped with its clock reading; what was cached before is gone.
    A rejected one leaves the device as it was. *)
Lemma cacheStudents_replaces (students : list OfflineStudent) (clock : nat -> Z) (d d' : Device) :
  OfflineStorage.cacheStudents students clock d = (Resolved tt, d') ->
  forall y, In y (studentsCache (idb d')) <->
            exists j x, students !! j = Some x /\ y = OfflineStorage.stamp (clock j) x.
Proof.
  unfold OfflineStorage.cacheStudents. destruct (db_open d); simpl; [|discriminate].
  destruct (OfflineStorage.add_students clock 0 students []) as [s'|] eqn:A; [|discriminate].
  intros [= <-] y. simpl. rewrite (add_students_In _ _ _ _ _ A y). simpl. tauto.
Qed.

Lemma cacheStudents_rejected (students : list OfflineStudent) (clock : nat -> Z) (d d' : Device)
  (e : Error) :
  OfflineStorage.cacheStudents students clock d = (Rejected e, d') -> d' = d.
Proof.
  unfold OfflineStorage.cacheStudents. destruct (db_open d); simpl.
  - destruct (OfflineStorage.add_students clock 0 students []); [discriminate|].
    intros [= _ <-]. reflexivity.
  - intros [= _ <-]. reflexivity.
Qed.

(** * Further properties *)

(** ** Maps of the server storage *)

Lemma map_get_set_eq {V : Type} (k : string) (v : V) (m : list (string * V)) :
  Server.map_get k (Server.map_set k v m) = Some v.
Proof.
  induction m as [|[k' v'] m IH]; simpl.
  - rewrite String.eqb_refl. reflexivity.
  - destruct (String.eqb k' k) eqn:E; simpl.
    + rewrite String.eqb_refl. reflexivity.
    + rewrite E. exact IH.
Qed.

Lemma map_get_set_ne {V : Type} (k k' : string) (v : V) (m : list (string * V)) :
  k <> k' -> Server.map_get k' (Server.map_set k v m) = Server.map_get k' m.
Proof.
  intros Hne. induction m as [|[k0 v0] m IH]; simpl.
  - apply String.eqb_neq in Hne. rewrite Hne. reflexivity.
  - destruct (String.eqb k0 k) eqn:E; simpl.
    + apply String.eqb_eq in E. subst k0.
      apply String.eqb_neq in Hne. rewrite Hne. reflexivity.
    + destruct (String.eqb k0 k'); [reflexivity|exact IH].
Qed.

Lemma map_set_In {V : Type} (k : string) (v : V) (m : list (string * V)) (x : string * V) :
  In x (Server.map_set k v m) -> x = (k, v) \/ In x m.
Proof.
  induction m as [|[k' v'] m IH]; simpl.
  - intros [<-|[]]. auto.
  - destruct (String.eqb k' k); simpl.
    + intros [<-|H]; auto.
    + intros [<-|H]; auto. destruct (IH H); auto.
Qed.

Lemma map_set_keys {V : Type} (k : string) (v : V) (m : list (string * V)) :
  NoDup (map fst m) -> NoDup (map fst (Server.map_set k v m)).
Proof.
  intros Hm. destruct (in_dec string_dec k (map fst m)) as [Hin|Hout].
  - assert (map fst (Server.map_set k v m) = map fst m) as ->; [|exact Hm].
    clear Hm. induction m as [|[k' v'] m IH]; simpl in *.
    + destruct Hin.
    + destruct (String.eqb k' k) eqn:E; simpl.
      * apply String.eqb_eq in E. congruence.
      * apply String.eqb_neq in E. rewrite IH by tauto. reflexivity.
  - rewrite (map_set_fresh k v m Hout), map_app. simpl.
    apply NoDup_app. split; [exact Hm|]. split.
    + intros x Hx [->|[]]%list_elem_of_In. apply Hout, list_elem_of_In, Hx.
    + apply NoDup_singleton.
Qed.

Lemma map_get_None {V : Type} (k : string) (m : list (string * V)) :
  Server.map_get k m = None <-> ~ In k (map fst m).
Proof.
  induction m as [|[k' v'] m IH]; simpl; [tauto|].
  destruct (String.eqb k' k) eqn:E.
  - apply String.eqb_eq in E. split; [discriminate|tauto].
  - apply String.eqb_neq in E. rewrite IH. tauto.
Qed.

Lemma map_delete_spec {V : Type} (k : string) (m : list (string * V)) :
  NoDup (map fst m) ->
  fst (Server.map_delete k m) = bool_decide (is_Some (Server.map_get k m)) /\
  Server.map_get k (snd (Server.map_delete k m)) = None /\
  (forall k', k' <> k ->
     Server.map_get k' (snd (Server.map_delete k m)) = Server.map_get k' m).
Proof.
  induction m as [|[k0 v0] m IH]; simpl; intros Hm.
  - split; [reflexivity|]. split; reflexivity.
  - apply NoDup_cons in Hm as [Hk0 Hm]. destruct (String.eqb k0 k) eqn:E; simpl.
    + apply String.eqb_eq in E. subst k0. split; [|split].
      * reflexivity.
      * apply map_get_None. intros H. apply Hk0, list_elem_of_In, H.
      * intros k' Hne. apply not_eq_sym, String.eqb_neq in Hne. rewrite Hne. reflexivity.
    + destruct (IH Hm) as (H1 & H2 & H3).
      destruct (Server.map_delete k m) as [b m'']. simpl in *. rewrite E.
      split; [exact H1|]. split; [exact H2|].
      intros k' Hne. destruct (String.eqb k0 k'); [reflexivity|apply H3, Hne].
Qed.

(** ** Batches of marks *)

Lemma required_teacher (uid : string) (e : Server.MarkEnv) (data : JObject) :
  Server.required_text (Server.mark_object uid e data) "teacherId" = Some uid.
Proof.
  unfold Server.required_text, Server.mark_object.
  rewrite lookup_insert_ne by discriminate. rewrite lookup_insert_eq. reflexivity.
Qed.

Lemma parse_teacher (uid : string) (e : Server.MarkEnv) (data : JObject)
  (v : Server.InsertAttendance) :
  Server.insertAttendanceSchema_parse (Server.mark_object uid e data) = Some v ->
  Server.ins_teacherId v = uid.
Proof.
  unfold Server.insertAttendanceSchema_parse. rewrite required_teacher.
  intros H. simplify_option_eq. reflexivity.
Qed.

Lemma mark_loop_app (uid : string) (env : nat -> Server.MarkEnv) (l1 l2 : list JObject) :
  forall i results st,
    Server.mark_loop uid env i (l1 ++ l2) results st =
      match Server.mark_loop uid env i l1 results st with
      | (Some r, st1) => Server.mark_loop uid env (i + length l1) l2 r st1
      | (None, st1) => (None, st1)
      end.
Proof.
  induction l1 as [|data l1 IH]; intros i results st; simpl.
  - rewrite Nat.add_0_r. reflexivity.
  - destruct (Server.insertAttendanceSchema_parse (Server.mark_object uid (env i) data));
      [|reflexivity].
    rewrite IH. replace (S i + length l1)%nat with (i + S (length l1))%nat by lia.
    reflexivity.
Qed.

Lemma mark_loop_valid (uid : string) (env : nat -> Server.MarkEnv) (datas : list JObject) :
  forall i results st,
    (forall j data, datas !! j = Some data ->
       is_Some (Server.insertAttendanceSchema_parse
                  (Server.mark_object uid (env (i + j)%nat) data))) ->
    exists rows,
      Server.mark_loop uid env i datas results st =
        (Some (results ++ rows),
         {| Server.students := Server.students st;
            Server.attendance :=
              fold_left (fun m a => Server.map_set (Server.att_id a) a m) rows
                (Server.attendance st) |}) /\
      map Server.att_id rows = map (fun j => Server.uuid (env j)) (seq i (length datas)) /\
      (forall j a, rows !! j = Some a ->
         exists data v,
           datas !! j = Some data /\
           Server.insertAttendanceSchema_parse
             (Server.mark_object uid (env (i + j)%nat) data) = Some v /\
           a = fst (Server.createAttendance v (Server.uuid (env (i + j)%nat))
                      (Server.now (env (i + j)%nat)) st)).
Proof.
  induction datas as [|data datas IH]; intros i results st Hvalid; simpl.
  - exists []. rewrite app_nil_r. destruct st. simpl. split; [reflexivity|].
    split; [reflexivity|]. intros j a H. discriminate H.
  - destruct (Hvalid 0%nat data eq_refl) as [v Hv]. rewrite Nat.add_0_r in Hv. rewrite Hv.
    simpl.
    destruct (IH (S i) (results ++ [fst (Server.createAttendance v (Server.uuid (env i))
                                           (Server.now (env i)) st)])
                (snd (Server.createAttendance v (Server.uuid (env i)) (Server.now (env i)) st)))
      as (rows & Hloop & Hids & Hrows).
    { intros j d Hj. replace (S i + j)%nat with (i + S j)%nat by lia. apply (Hvalid (S j)), Hj. }
    simpl in Hloop.
    exists (fst (Server.createAttendance v (Server.uuid (env i)) (Server.now (env i)) st) :: rows).
    split; [|split].
    + rewrite Hloop. rewrite <- app_assoc. reflexivity.
    + simpl. rewrite Hids. reflexivity.
    + intros [|j] a Hj; simpl in Hj.
      * injection Hj as <-. exists data, v. rewrite Nat.add_0_r. auto.
      * destruct (Hrows j a Hj) as (d & w & Hd & Hw & Ha).
        exists d, w. replace (i + S j)%nat with (S i + j)%nat by lia. auto.
Qed.

Lemma fold_set_fresh (rows : list Server.Attendance) :
  forall m : list (string * Server.Attendance),
    NoDup (map Server.att_id rows) ->
    (forall a, In a rows -> ~ In (Server.att_id a) (map fst m)) ->
    fold_left (fun m a => Server.map_set (Server.att_id a) a m) rows m =
      m ++ map (fun a => (Server.att_id a, a)) rows.
Proof.
  induction rows as [|a rows IH]; intros m Hnd Hfresh; simpl.
  - rewrite app_nil_r. reflexivity.
  - simpl in Hnd. apply NoDup_cons in Hnd as [Ha Hnd].
    rewrite (map_set_fresh _ _ m) by (apply Hfresh; left; reflexivity).
    rewrite IH.
    + rewrite <- app_assoc. reflexivity.
    + exact Hnd.
    + intros b Hb. rewrite map_app, in_app_iff. simpl. intros [H|[H|[]]].
      * apply (Hfresh b); [right; exact Hb|exact H].
      * apply Ha. rewrite H. apply list_elem_of_In, in_map, Hb.
Qed.

Lemma fresh_rows (env : nat -> Server.MarkEnv) (rows : list Server.Attendance) (n : nat)
  (m : list (string * Server.Attendance)) :
  map Server.att_id rows = map (fun j => Server.uuid (env j)) (seq 0 n) ->
  NoDup (map (fun j => Server.uuid (env j)) (seq 0 n)) ->
  (forall j, (j < n)%nat -> ~ In (Server.uuid (env j)) (map fst m)) ->
  fold_left (fun m a => Server.map_set (Server.att_id a) a m) rows m =
    m ++ map (fun a => (Server.att_id a, a)) rows.
Proof.
  intros Hids Hnd Hfresh. apply fold_set_fresh.
  - rewrite Hids. exact Hnd.
  - intros a Ha. apply (in_map Server.att_id) in Ha. rewrite Hids in Ha.
    apply in_map_iff in Ha as (j & <- & Hj). apply in_seq in Hj. apply Hfresh. lia.
Qed.

(** X1.  A batch in which every record is valid is answered 201 with one
    row per record, in the order of the batch; when the UUIDs drawn for
    them are new to the table and different from one another, the table is
    the old one followed by these rows, each under its UUID. *)
Theorem mark_batch_all_valid (uid : string) (datas : list JObject) (req : Server.Req)
  (env : nat -> Server.MarkEnv) (st : Server.MemStorage) :
  Server.user req = Some uid ->
  Server.body req = Server.BodyArray datas ->
  (forall j data, datas !! j = Some data ->
     is_Some (Server.insertAttendanceSchema_parse (Server.mark_object uid (env j) data))) ->
  NoDup (map (fun j => Server.uuid (env j)) (seq 0 (length datas))) ->
  (forall j, (j < length datas)%nat ->
     ~ In (Server.uuid (env j)) (map fst (Server.attendance st))) ->
  exists rows,
    Server.post_attendance_mark req env st =
      (Server.ReplyJson 201 rows,
       {| Server.students := Server.students st;
          Server.attendance :=
            Server.attendance st ++ map (fun a => (Server.att_id a, a)) rows |}) /\
    length rows = length datas /\
    (forall j a, rows !! j = Some a ->
       exists data v,
         datas !! j = Some data /\
         Server.insertAttendanceSchema_parse (Server.mark_object uid (env j) data) = Some v /\
         a = fst (Server.createAttendance v (Server.uuid (env j)) (Server.now (env j)) st)).
Proof.
  intros Hu Hb Hvalid Hnd Hfresh.
  destruct (mark_loop_valid uid env datas 0 [] st Hvalid) as (rows & Hloop & Hids & Hrows).
  exists rows. split; [|split].
  - unfold Server.post_attendance_mark, Server.isAuthenticated. rewrite Hu, Hb. simpl.
    rewrite Hloop. simpl.
    rewrite (fresh_rows env rows (length datas) _ Hids Hnd Hfresh). reflexivity.
  - apply (f_equal length) in Hids. rewrite !length_map, length_seq in Hids. exact Hids.
  - exact Hrows.
Qed.

Lemma mark_batch_all_valid_witness :
  exists rows,
    Server.post_attendance_mark (batch_request [mark_json "s1"; mark_json "s2"]) env_batch
      one_student_storage =
      (Server.ReplyJson 201 rows,
       {| Server.students := Server.students one_student_storage;
          Server.attendance :=
            Server.attendance one_student_storage ++ map (fun a => (Server.att_id a, a)) rows |}) /\
    length rows = length [mark_json "s1"; mark_json "s2"] /\
    (forall j a, rows !! j = Some a ->
       exists data v,
         [mark_json "s1"; mark_json "s2"] !! j = Some data /\
         Server.insertAttendanceSchema_parse (Server.mark_object "t1" (env_batch j) data) = Some v /\
         a = fst (Server.createAttendance v (Server.uuid (env_batch j)) (Server.now (env_batch j))
                    one_student_storage)).
Proof.
  apply (mark_batch_all_valid "t1" [mark_json "s1"; mark_json "s2"]
           (batch_request [mark_json "s1"; mark_json "s2"]) env_batch one_student_storage).
  - reflexivity.
  - reflexivity.
  - intros [|[|j]] data Hj; simpl in Hj; try discriminate Hj; injection Hj as <-;
      vm_compute; eauto.
  - apply (bool_decide_unpack _). vm_compute. exact I.
  - intros j _ [].
Defined.

(** X2.  A batch is not atomic.  When the records before an invalid one
    are all valid, the reply is 400, and the rows of those records are in
    the table all the same (their UUIDs being new and different); the
    records after the invalid one are not looked at. *)
Theorem mark_batch_stops_at_invalid (uid : string) (good : list JObject) (bad : JObject)
  (rest : list JObject) (req : Server.Req) (env : nat -> Server.MarkEnv) (st : Server.MemStorage) :
  Server.user req = Some uid ->
  Server.body req = Server.BodyArray (good ++ bad :: rest) ->
  (forall j data, good !! j = Some data ->
     is_Some (Server.insertAttendanceSchema_parse (Server.mark_object uid (env j) data))) ->
  Server.insertAttendanceSchema_parse (Server.mark_object uid (env (length good)) bad) = None ->
  NoDup (map (fun j => Server.uuid (env j)) (seq 0 (length good))) ->
  (forall j, (j < length good)%nat ->
     ~ In (Server.uuid (env j)) (map fst (Server.attendance st))) ->
  exists rows,
    Server.post_attendance_mark req env st =
      (Server.ReplyMessage 400 "Failed to mark attendance",
       {| Server.students := Server.students st;
          Server.attendance :=
            Server.attendance st ++ map (fun a => (Server.att_id a, a)) rows |}) /\
    length rows = length good.
Proof.
  intros Hu Hb Hvalid Hbad Hnd Hfresh.
  destruct (mark_loop_valid uid env good 0 [] st Hvalid) as (rows & Hloop & Hids & _).
  exists rows. split.
  - unfold Server.post_attendance_mark, Server.isAuthenticated. rewrite Hu, Hb. simpl.
    rewrite mark_loop_app, Hloop. simpl. rewrite Hbad.
    rewrite (fresh_rows env rows (length good) _ Hids Hnd Hfresh). reflexivity.
  - apply (f_equal length) in Hids. rewrite !length_map, length_seq in Hids. exact Hids.
Qed.

Lemma mark_batch_stops_at_invalid_witness :
  exists rows,
    Server.post_attendance_mark
      (batch_request ([mark_json "s1"] ++ mark_json_no_student :: [mark_json "s2"])) env_batch
      one_student_storage =
      (Server.ReplyMessage 400 "Failed to mark attendance",
       {| Server.students := Server.students one_student_storage;
          Server.attendance :=
            Server.attendance one_student_storage ++ map (fun a => (Server.att_id a, a)) rows |}) /\
    length rows = length [mark_json "s1"].
Proof.
  apply (mark_batch_stops_at_invalid "t1" [mark_json "s1"] mark_json_no_student [mark_json "s2"]
           (batch_request ([mark_json "s1"] ++ mark_json_no_student :: [mark_json "s2"]))
           env_batch one_student_storage).
  - reflexivity.
  - reflexivity.
  - intros [|j] data Hj; simpl in Hj; try discriminate Hj; injection Hj as <-;
      vm_compute; eauto.
  - vm_compute. reflexivity.
  - apply (bool_decide_unpack _). vm_compute. exact I.
  - intros j _ [].
Defined.

Lemma mark_loop_teacher (uid : string) (env : nat -> Server.MarkEnv) (datas : list JObject) :
  forall i results st x,
    In x (Server.attendance (snd (Server.mark_loop uid env i datas results st))) ->
    In x (Server.attendance st) \/ Server.teacherId (snd x) = uid.
Proof.
  induction datas as [|data datas IH]; intros i results st x; simpl; [auto|].
  destruct (Server.insertAttendanceSchema_parse (Server.mark_object uid (env i) data))
    as [v|] eqn:Hv; simpl; [|auto].
  intros Hx. apply IH in Hx as [Hx|Hx]; [|auto]. simpl in Hx.
  apply map_set_In in Hx as [->|Hx]; [|auto].
  right. simpl. exact (parse_teacher uid _ _ _ Hv).
Qed.

(** X3.  Whatever the body says, a row written by the route carries the
    id of the session's user as [teacherId]: after a request of user
    [uid], every row of the table was there before or has [teacherId]
    [uid]. *)
Theorem mark_rows_belong_to_session_user (uid : string) (req : Server.Req)
  (env : nat -> Server.MarkEnv) (st : Server.MemStorage) (k : string) (a : Server.Attendance) :
  Server.user req = Some uid ->
  In (k, a) (Server.attendance (snd (Server.post_attendance_mark req env st))) ->
  In (k, a) (Server.attendance st) \/ Server.teacherId a = uid.
Proof.
  intros Hu. unfold Server.post_attendance_mark, Server.isAuthenticated. rewrite Hu. simpl.
  set (datas := match Server.body req with
                | Server.BodyArray l => l
                | Server.BodyObject o => [o]
                end).
  pose proof (mark_loop_teacher uid env datas 0 [] st (k, a)) as H.
  destruct (Server.mark_loop uid env 0 datas [] st) as [[results|] st']; simpl in *; exact H.
Qed.

Lemma mark_rows_belong_to_session_user_witness :
  In ("3f2b8c1e-5d4a-4e6f-9a7b-00000000010",
      {| Server.att_id := "3f2b8c1e-5d4a-4e6f-9a7b-00000000010"; Server.studentId := "s1";
         Server.teacherId := "t1"; Server.att_class := "5-A"; Server.subject := None;
         Server.date := "2024-01-15"; Server.period := Some "1"; Server.status := "present";
         Server.method := "manual"; Server.markedAt := 1705312800000 |})
     (Server.attendance one_student_storage) \/
  Server.teacherId
    {| Server.att_id := "3f2b8c1e-5d4a-4e6f-9a7b-00000000010"; Server.studentId := "s1";
       Server.teacherId := "t1"; Server.att_class := "5-A"; Server.subject := None;
       Server.date := "2024-01-15"; Server.period := Some "1"; Server.status := "present";
       Server.method := "manual"; Server.markedAt := 1705312800000 |} = "t1".
Proof.
  apply (mark_rows_belong_to_session_user "t1" (batch_request [mark_json_other_teacher])
           env_batch one_student_storage).
  - reflexivity.
  - vm_compute. left. reflexivity.
Defined.

(** ** What the server makes of the two payloads *)

Lemma lookup_set_prop_eq (k : string) (v : option JValue) (o : JObject) :
  set_prop k v o !! k = match v with Some x => Some x | None => o !! k end.
Proof. unfold set_prop. destruct v; [apply lookup_insert_eq|reflexivity]. Qed.

Lemma lookup_set_prop_ne (k k' : string) (v : option JValue) (o : JObject) :
  k <> k' -> set_prop k v o !! k' = o !! k'.
Proof. intros H. unfold set_prop. destruct v; [apply lookup_insert_ne, H|reflexivity]. Qed.

Ltac lookup_props :=
  repeat first
    [ rewrite lookup_set_prop_eq
    | rewrite lookup_set_prop_ne by discriminate
    | rewrite lookup_insert_eq
    | rewrite lookup_insert_ne by discriminate
    | rewrite lookup_empty ].

(** On the properties the schema reads, the stored record and its
    [apiRecord] agree. *)
Lemma payload_fields (r : OfflineAttendanceRecord) (k : string) :
  In k ["studentId"; "class"; "subject"; "period"; "status"; "method"; "date"] ->
  record_json r !! k = OfflineStorage.apiRecord r !! k.
Proof.
  simpl. intros H.
  repeat (destruct H as [<-|H];
          [unfold record_json, fields_json, OfflineStorage.apiRecord; lookup_props; reflexivity|]).
  destruct H.
Qed.

Lemma payloads_parse_alike (uid : string) (e : Server.MarkEnv) (r : OfflineAttendanceRecord) :
  Server.insertAttendanceSchema_parse (Server.mark_object uid e (record_json r)) =
  Server.insertAttendanceSchema_parse (Server.mark_object uid e (OfflineStorage.apiRecord r)).
Proof.
  unfold Server.insertAttendanceSchema_parse, Server.mark_object, Server.required_text,
    Server.nullable_text.
  rewrite (payload_fields r "date") by (simpl; tauto).
  repeat first [ rewrite lookup_insert_eq | rewrite lookup_insert_ne by discriminate ].
  rewrite !(payload_fields r "studentId"), !(payload_fields r "class"),
    !(payload_fields r "subject"), !(payload_fields r "period"), !(payload_fields r "status"),
    !(payload_fields r "method") by (simpl; tauto).
  reflexivity.
Qed.

(** X4.  The service worker submits the stored record, the library its
    seven API fields; the server cannot tell them apart.  For the same
    session, readings and storage, the two one-record requests get the same
    reply and leave the same storage. *)
Theorem payloads_same_at_server (u qc qs : option string) (env : nat -> Server.MarkEnv)
  (st : Server.MemStorage) (r : OfflineAttendanceRecord) :
  Server.post_attendance_mark
    {| Server.user := u; Server.query_class := qc; Server.query_search := qs;
       Server.body := Server.BodyArray (call_body (ServiceWorker.request_of r)) |} env st =
  Server.post_attendance_mark
    {| Server.user := u; Server.query_class := qc; Server.query_search := qs;
       Server.body := Server.BodyArray (call_body (OfflineStorage.request_of r)) |} env st.
Proof.
  unfold Server.post_attendance_mark, Server.isAuthenticated. simpl.
  destruct u as [uid|]; simpl; [|reflexivity].
  rewrite payloads_parse_alike. reflexivity.
Qed.

(** What the schema makes of the library's payload of a record. *)
Lemma apiRecord_parse (uid : string) (e : Server.MarkEnv) (r : OfflineAttendanceRecord) :
  Server.insertAttendanceSchema_parse (Server.mark_object uid e (OfflineStorage.apiRecord r)) =
    match studentId (fields r), class (fields r), status (fields r), method (fields r) with
    | Some sid, Some cls, Some sta, Some met =>
        Some {| Server.ins_studentId := sid; Server.ins_teacherId := uid;
                Server.ins_class := cls; Server.ins_subject := subject (fields r);
                Server.ins_date :=
                  match date (fields r) with
                  | Some d => if String.eqb d "" then Server.today e else d
                  | None => Server.today e
                  end;
                Server.ins_period := period (fields r);
                Server.ins_status := status_string sta;
                Server.ins_method := method_string met |}
    | _, _, _, _ => None
    end.
Proof.
  unfold Server.insertAttendanceSchema_parse, Server.mark_object, Server.required_text,
    Server.nullable_text, OfflineStorage.apiRecord.
  destruct (fields r) as [sid tid cls sub per sta met dat]. simpl.
  lookup_props.
  destruct dat as [d|]; simpl; [destruct (String.eqb d "") eqn:E; simpl|];
    lookup_props;
    destruct sid, cls, sub, per, sta, met; simpl; reflexivity.
Qed.

(** X5.  Which stored records the server takes.  The library's submission
    of a record is answered 201 exactly when the record has its student,
    class, status and method, and 400 otherwise, the storage then being
    left as it was.  A missing date is no obstacle. *)
Theorem server_accepts_stored_record (uid : string) (r : OfflineAttendanceRecord)
  (req : Server.Req) (env : nat -> Server.MarkEnv) (st : Server.MemStorage) :
  Server.user req = Some uid ->
  Server.body req = Server.BodyArray (call_body (OfflineStorage.request_of r)) ->
  Server.reply_status (fst (Server.post_attendance_mark req env st)) =
    (if accepted_by_server (fields r) then 201 else 400)%Z /\
  (accepted_by_server (fields r) = false ->
   snd (Server.post_attendance_mark req env st) = st).
Proof.
  intros Hu Hb. unfold Server.post_attendance_mark, Server.isAuthenticated.
  rewrite Hu, Hb. simpl. rewrite apiRecord_parse. unfold accepted_by_server.
  destruct (studentId (fields r)), (class (fields r)), (status (fields r)), (method (fields r));
    simpl; split; try reflexivity; discriminate.
Qed.

Lemma server_accepts_stored_record_witness :
  Server.reply_status
    (fst (Server.post_attendance_mark
            (batch_request (call_body (OfflineStorage.request_of record_no_student)))
            env_batch one_student_storage)) =
    (if accepted_by_server (fields record_no_student) then 201 else 400)%Z /\
  (accepted_by_server (fields record_no_student) = false ->
   snd (Server.post_attendance_mark
          (batch_request (call_body (OfflineStorage.request_of record_no_student)))
          env_batch one_student_storage) = one_student_storage).
Proof.
  apply (server_accepts_stored_record "t1" record_no_student
           (batch_request (call_body (OfflineStorage.request_of record_no_student)))
           env_batch one_student_storage); reflexivity.
Defined.

(** ** Reading attendance *)

(** X6.  [GET /api/attendance] never filters by class.  The [class]
    parameter has no effect on the reply: with a date the reply is that of
    the date alone, and without date and student id it is the 400 reply
    even when a class is given. *)
Theorem get_attendance_ignores_class (d className sid : option string) (st : Server.MemStorage) :
  Server.get_attendance d className sid st = Server.get_attendance d None sid st /\
  Server.get_attendance None className None st =
    Server.ReplyMessage 400 "Please provide date, class and date, or studentId parameter".
Proof.
  unfold Server.get_attendance. split.
  - destruct d as [x|]; simpl.
    + destruct (negb (String.eqb x "")); simpl; [reflexivity|].
      rewrite andb_false_r. reflexivity.
    + rewrite andb_false_r. reflexivity.
  - simpl. rewrite andb_false_r. reflexivity.
Qed.

(** ** Students *)

Lemma map_set_values_In {V : Type} (f : V -> string) (k : string) (v : V)
  (m : list (string * V)) (x : string) :
  In x (map f (map snd (Server.map_set k v m))) -> x = f v \/ In x (map f (map snd m)).
Proof.
  rewrite map_map, in_map_iff. intros ([k' v'] & <- & Hin).
  apply map_set_In in Hin as [[= -> ->]|Hin]; [auto|].
  right. rewrite map_map. apply in_map_iff. exists (k', v'). auto.
Qed.

Lemma map_set_values_NoDup {V : Type} (f : V -> string) (k : string) (v : V)
  (m : list (string * V)) :
  NoDup (map f (map snd m)) ->
  ~ In (f v) (map f (map snd m)) ->
  NoDup (map f (map snd (Server.map_set k v m))).
Proof.
  induction m as [|[k' v'] m IH]; simpl; intros Hnd Hout.
  - apply NoDup_singleton.
  - apply NoDup_cons in Hnd as [Hv' Hnd]. destruct (String.eqb k' k); simpl.
    + apply NoDup_cons. split; [|exact Hnd].
      intros H. apply Hout. right. apply list_elem_of_In, H.
    + apply NoDup_cons. split; [|apply IH; tauto].
      intros H. apply list_elem_of_In, map_set_values_In in H as [H|H].
      * apply Hout. left. exact H.
      * apply Hv', list_elem_of_In, H.
Qed.

Lemma roll_number_free (rn : string) (st : Server.MemStorage) :
  Server.getStudentByRollNumber rn st = None ->
  ~ In rn (map Server.rollNumber (Server.map_values (Server.students st))).
Proof.
  unfold Server.getStudentByRollNumber. intros Hfind Hin.
  apply in_map_iff in Hin as (x & <- & Hx).
  pose proof (find_none _ _ Hfind x Hx) as H. simpl in H.
  rewrite String.eqb_refl in H. discriminate H.
Qed.

(** X7.  [POST /api/students] keeps roll numbers unique.  If no two
    students of the storage share a roll number, that is still so after
    the request, whatever its body, photo and UUID; and a body whose roll
    number is taken is answered 400 with the storage left as it was. *)
Theorem post_students_keeps_roll_numbers_unique (data : JObject) (file : option string)
  (uuid : string) (now : Z) (st : Server.MemStorage) :
  NoDup (map Server.rollNumber (Server.map_values (Server.students st))) ->
  NoDup (map Server.rollNumber
           (Server.map_values (Server.students (snd (Server.post_students data file uuid now st))))) /\
  (forall rn, Server.required_text data "rollNumber" = Some rn ->
     In rn (map Server.rollNumber (Server.map_values (Server.students st))) ->
     Server.reply_status (fst (Server.post_students data file uuid now st)) = 400%Z /\
     snd (Server.post_students data file uuid now st) = st).
Proof.
  intros Hnd. unfold Server.post_students.
  destruct (Server.insertStudentSchema_parse data) as [v|] eqn:Hv; simpl.
  - destruct (Server.getStudentByRollNumber (Server.new_rollNumber v) st) as [x|] eqn:Hroll;
      simpl.
    + split; [exact Hnd|]. auto.
    + pose proof (roll_number_free _ _ Hroll) as Hfree. split.
      * unfold Server.map_values in *.
        destruct file as [filename|]; simpl;
          apply (map_set_values_NoDup Server.rollNumber); simpl; assumption.
      * intros rn Hrn Hin. exfalso. apply Hfree.
        unfold Server.insertStudentSchema_parse in Hv. rewrite Hrn in Hv.
        simplify_option_eq. exact Hin.
  - split; [exact Hnd|]. auto.
Qed.

Lemma post_students_keeps_roll_numbers_unique_witness :
  NoDup (map Server.rollNumber
           (Server.map_values (Server.students
              (snd (Server.post_students new_student_form (Some "a1b2c3")
                      "9d0e6a52-1b7c-4c1d-8e2f-000000000002" 1705300000500
                      one_student_storage))))) /\
  (forall rn, Server.required_text new_student_form "rollNumber" = Some rn ->
     In rn (map Server.rollNumber (Server.map_values (Server.students one_student_storage))) ->
     Server.reply_status
       (fst (Server.post_students new_student_form (Some "a1b2c3")
               "9d0e6a52-1b7c-4c1d-8e2f-000000000002" 1705300000500 one_student_storage))
       = 400%Z /\
     snd (Server.post_students new_student_form (Some "a1b2c3")
            "9d0e6a52-1b7c-4c1d-8e2f-000000000002" 1705300000500 one_student_storage)
       = one_student_storage).
Proof.
  apply (post_students_keeps_roll_numbers_unique new_student_form (Some "a1b2c3")
           "9d0e6a52-1b7c-4c1d-8e2f-000000000002" 1705300000500 one_student_storage).
  apply (bool_decide_unpack _). vm_compute. exact I.
Defined.

(** ** Attendance rows *)

(** X8.  Create, read, delete.  In a table with one entry per key, a row
    created under [uuid] is the row read back under [uuid]; the other keys
    read as before; deleting [uuid] reports [true], after which [uuid]
    reads as absent and every other key as it did before the row was
    created. *)
Theorem attendance_create_get_delete (v : Server.InsertAttendance) (uuid : string) (now : Z)
  (st : Server.MemStorage) :
  NoDup (map fst (Server.attendance st)) ->
  Server.getAttendance uuid (snd (Server.createAttendance v uuid now st)) =
    Some (fst (Server.createAttendance v uuid now st)) /\
  (forall k, k <> uuid ->
     Server.getAttendance k (snd (Server.createAttendance v uuid now st)) =
       Server.getAttendance k st) /\
  fst (Server.deleteAttendance uuid (snd (Server.createAttendance v uuid now st))) = true /\
  Server.getAttendance uuid
    (snd (Server.deleteAttendance uuid (snd (Server.createAttendance v uuid now st)))) = None /\
  (forall k, k <> uuid ->
     Server.getAttendance k
       (snd (Server.deleteAttendance uuid (snd (Server.createAttendance v uuid now st)))) =
       Server.getAttendance k st).
Proof.
  intros Hnd. unfold Server.getAttendance, Server.deleteAttendance, Server.createAttendance.
  simpl.
  set (a := {| Server.att_id := uuid; Server.studentId := Server.ins_studentId v;
               Server.teacherId := Server.ins_teacherId v; Server.att_class := Server.ins_class v;
               Server.subject := Server.ins_subject v; Server.date := Server.ins_date v;
               Server.period := Server.ins_period v; Server.status := Server.ins_status v;
               Server.method := Server.ins_method v; Server.markedAt := now |}).
  pose proof (map_delete_spec uuid (Server.map_set uuid a (Server.attendance st))
                (map_set_keys uuid a _ Hnd)) as (Hd1 & Hd2 & Hd3).
  destruct (Server.map_delete uuid (Server.map_set uuid a (Server.attendance st))) as [b m].
  simpl in *. split; [apply map_get_set_eq|]. split.
  - intros k Hk. apply map_get_set_ne. congruence.
  - split.
    + rewrite Hd1, map_get_set_eq. reflexivity.
    + split; [exact Hd2|].
      intros k Hk. rewrite (Hd3 k Hk). apply map_get_set_ne. congruence.
Qed.

Lemma attendance_create_get_delete_witness :
  Server.getAttendance "3f2b8c1e-5d4a-4e6f-9a7b-000000000001"
    (snd (Server.createAttendance insert_s1 "3f2b8c1e-5d4a-4e6f-9a7b-000000000001"
            1705312800000 one_student_storage)) =
    Some (fst (Server.createAttendance insert_s1 "3f2b8c1e-5d4a-4e6f-9a7b-000000000001"
                 1705312800000 one_student_storage)) /\
  (forall k, k <> "3f2b8c1e-5d4a-4e6f-9a7b-000000000001" ->
     Server.getAttendance k
       (snd (Server.createAttendance insert_s1 "3f2b8c1e-5d4a-4e6f-9a7b-000000000001"
               1705312800000 one_student_storage)) =
       Server.getAttendance k one_student_storage) /\
  fst (Server.deleteAttendance "3f2b8c1e-5d4a-4e6f-9a7b-000000000001"
         (snd (Server.createAttendance insert_s1 "3f2b8c1e-5d4a-4e6f-9a7b-000000000001"
                 1705312800000 one_student_storage))) = true /\
  Server.getAttendance "3f2b8c1e-5d4a-4e6f-9a7b-000000000001"
    (snd (Server.deleteAttendance "3f2b8c1e-5d4a-4e6f-9a7b-000000000001"
            (snd (Server.createAttendance insert_s1 "3f2b8c1e-5d4a-4e6f-9a7b-000000000001"
                    1705312800000 one_student_storage)))) = None /\
  (forall k, k <> "3f2b8c1e-5d4a-4e6f-9a7b-000000000001" ->
     Server.getAttendance k
       (snd (Server.deleteAttendance "3f2b8c1e-5d4a-4e6f-9a7b-000000000001"
               (snd (Server.createAttendance insert_s1 "3f2b8c1e-5d4a-4e6f-9a7b-000000000001"
                       1705312800000 one_student_storage)))) =
       Server.getAttendance k one_student_storage).
Proof.
  apply (attendance_create_get_delete insert_s1 "3f2b8c1e-5d4a-4e6f-9a7b-000000000001"
           1705312800000 one_student_storage).
  apply NoDup_nil. exact I.
Defined.

(** The table after the same valid one-record request was submitted
    twice. *)
Lemma submit_twice_table (uid : string) (data : JObject) (req : Server.Req)
  (env1 env2 : nat -> Server.MarkEnv) (st : Server.MemStorage) (v : Server.InsertAttendance) :
  Server.user req = Some uid ->
  Server.body req = Server.BodyArray [data] ->
  Server.insertAttendanceSchema_parse (Server.mark_object uid (env1 0%nat) data) = Some v ->
  Server.today (env1 0%nat) = Server.today (env2 0%nat) ->
  ~ In (Server.uuid (env1 0%nat)) (map fst (Server.attendance st)) ->
  ~ In (Server.uuid (env2 0%nat)) (map fst (Server.attendance st)) ->
  Server.uuid (env1 0%nat) <> Server.uuid (env2 0%nat) ->
  Server.students (submit_twice req env1 env2 st) = Server.students st /\
  Server.attendance (submit_twice req env1 env2 st) =
    Server.attendance st ++
      [(Server.uuid (env1 0%nat),
        fst (Server.createAttendance v (Server.uuid (env1 0%nat)) (Server.now (env1 0%nat)) st));
       (Server.uuid (env2 0%nat),
        fst (Server.createAttendance v (Server.uuid (env2 0%nat)) (Server.now (env2 0%nat)) st))].
Proof.
  intros Hu Hb Hp Hday Hf1 Hf2 Hne. unfold submit_twice.
  rewrite (post_single_valid uid data req env1 st v Hu Hb Hp). simpl.
  rewrite (mark_object_today uid _ _ data Hday) in Hp.
  rewrite (post_single_valid uid data req env2 _ v Hu Hb Hp). simpl.
  split; [reflexivity|].
  rewrite (map_set_fresh _ _ (Server.attendance st)) by exact Hf1.
  rewrite map_set_fresh.
  - rewrite <- app_assoc. reflexivity.
  - rewrite map_app, in_app_iff. simpl. intros [H|[H|[]]]; [tauto|congruence].
Qed.

(** X9.  The statistics count rows, not students.  When the same valid
    mark with status [present] is submitted twice (same day, the two UUIDs
    new and different), [presentToday] for the date of the mark goes up by
    two, while [totalStudents] stays what it was. *)
Theorem repeated_mark_counts_twice (uid : string) (data : JObject) (req : Server.Req)
  (env1 env2 : nat -> Server.MarkEnv) (st : Server.MemStorage) (v : Server.InsertAttendance)
  (round_rate : nat -> nat -> Z) :
  Server.user req = Some uid ->
  Server.body req = Server.BodyArray [data] ->
  Server.insertAttendanceSchema_parse (Server.mark_object uid (env1 0%nat) data) = Some v ->
  Server.today (env1 0%nat) = Server.today (env2 0%nat) ->
  ~ In (Server.uuid (env1 0%nat)) (map fst (Server.attendance st)) ->
  ~ In (Server.uuid (env2 0%nat)) (map fst (Server.attendance st)) ->
  Server.uuid (env1 0%nat) <> Server.uuid (env2 0%nat) ->
  Server.ins_status v = "present" ->
  Server.presentToday
    (Server.getAttendanceStats None (Server.ins_date v) round_rate
       (submit_twice req env1 env2 st)) =
    (Server.presentToday (Server.getAttendanceStats None (Server.ins_date v) round_rate st) + 2)%nat /\
  Server.totalStudents
    (Server.getAttendanceStats None (Server.ins_date v) round_rate
       (submit_twice req env1 env2 st)) =
    Server.totalStudents (Server.getAttendanceStats None (Server.ins_date v) round_rate st).
Proof.
  intros Hu Hb Hp Hday Hf1 Hf2 Hne Hpresent.
  destruct (submit_twice_table uid data req env1 env2 st v Hu Hb Hp Hday Hf1 Hf2 Hne)
    as [Hstudents Htable].
  unfold Server.getAttendanceStats, Server.getAttendanceByDate, Server.map_values. simpl.
  rewrite Hstudents, Htable. split; [|reflexivity].
  rewrite map_app, !filter_app, length_app. f_equal. simpl.
  rewrite !filter_cons, !filter_nil. simpl.
  destruct (decide (Server.ins_date v = Server.ins_date v)) as [_|Hc]; [|congruence].
  rewrite !filter_cons, filter_nil. simpl. rewrite Hpresent.
  destruct (decide ("present" = "present")) as [_|Hc]; [reflexivity|congruence].
Qed.

Lemma repeated_mark_counts_twice_witness :
  Server.presentToday
    (Server.getAttendanceStats None (Server.ins_date insert_s1) (fun _ _ => 0%Z)
       (submit_twice mark_request env_submit_1 env_submit_2 one_student_storage)) =
    (Server.presentToday
       (Server.getAttendanceStats None (Server.ins_date insert_s1) (fun _ _ => 0%Z)
          one_student_storage) + 2)%nat /\
  Server.totalStudents
    (Server.getAttendanceStats None (Server.ins_date insert_s1) (fun _ _ => 0%Z)
       (submit_twice mark_request env_submit_1 env_submit_2 one_student_storage)) =
    Server.totalStudents
      (Server.getAttendanceStats None (Server.ins_date insert_s1) (fun _ _ => 0%Z)
         one_student_storage).
Proof.
  refine (repeated_mark_counts_twice "t1" submitted_mark mark_request env_submit_1 env_submit_2
            one_student_storage insert_s1 (fun _ _ => 0%Z) eq_refl eq_refl _ eq_refl _ _ _ eq_refl).
  - vm_compute. reflexivity.
  - simpl. tauto.
  - simpl. tauto.
  - discriminate.
Defined.

(** ** More on object stores *)

Section object_store_writes.
Context {A : Type} (key : A -> string).

(** A second [put] under the same key replaces what the first one wrote. *)
Lemma put_put (x x' : A) (s : list A) :
  key x = key x' -> IDB.put key x' (IDB.put key x s) = IDB.put key x' s.
Proof.
  intros Hk. induction s as [|y s IH]; simpl.
  - rewrite <- Hk, (proj2 (compare_Eq_iff _ _) eq_refl). reflexivity.
  - rewrite <- Hk. destruct (String.compare (key x) (key y)) eqn:C; simpl.
    + rewrite <- Hk, (proj2 (compare_Eq_iff _ _) eq_refl). reflexivity.
    + rewrite <- Hk, (proj2 (compare_Eq_iff _ _) eq_refl). reflexivity.
    + rewrite <- Hk, C. rewrite IH. reflexivity.
Qed.

(** Writing, under a fresh key, a record that a filter leaves out does
    not change what the filter keeps. *)
Lemma put_fresh_filter_out (P : A -> Prop) `{!forall x, Decision (P x)} (x : A) (s : list A) :
  IDB.get key (key x) s = None -> ~ P x -> filter P (IDB.put key x s) = filter P s.
Proof.
  intros Hfresh Hx. induction s as [|y s IH]; simpl in *.
  - rewrite filter_cons, filter_nil. destruct (decide (P x)); tauto.
  - destruct (String.eqb (key y) (key x)) eqn:E; [discriminate|].
    apply String.eqb_neq in E.
    destruct (String.compare (key x) (key y)) eqn:C.
    + apply compare_Eq_iff in C. congruence.
    + rewrite (filter_cons P x). destruct (decide (P x)); tauto.
    + rewrite !(filter_cons P y). rewrite IH by exact Hfresh. reflexivity.
Qed.

End object_store_writes.

(** ** Passes *)

Lemma enqueue_all_open (ops : list (AttendanceFields * OfflineStorage.EnqueueEnv)) (d : Device) :
  db_open (snd (enqueue_all ops d)) = db_open d.
Proof.
  revert d. induction ops as [|[record e] ops IH]; intros d; simpl; [reflexivity|].
  assert (db_open (snd (OfflineStorage.storeAttendanceRecord record e d)) = db_open d) as Hstep.
  { unfold OfflineStorage.storeAttendanceRecord. destruct (db_open d) eqn:Hopen; simpl.
    - destruct (IDB.add id _ (attendanceRecords (idb d))); simpl; exact Hopen.
    - exact Hopen. }
  destruct (OfflineStorage.storeAttendanceRecord record e d) as [p d1]. simpl in Hstep.
  specialize (IH d1). destruct (enqueue_all ops d1) as [ps d2]. simpl in *.
  rewrite IH. exact Hstep.
Qed.

Lemma sync_passes_fixed (n : nat) (net : nat -> nat -> FetchResult) (now : nat -> Z) (d : Device) :
  forall k, sync_passes n net now k d = d.
Proof.
  induction n as [|n IH]; intros k; simpl; [reflexivity|].
  rewrite syncWithServer_rejects. apply IH.
Qed.

(** X10.  No pass delivers a record.  On a device whose handle is set,
    after any sequence of enqueues, [syncWithServer] and [getSyncStatus]
    reject with a [DataError] and the service worker's
    [syncAttendanceData] leaves the device as it is; none of them issues a
    request, and after any number of passes of the library the device is
    as the enqueues left it, every record unsynced as before. *)
Theorem no_pass_delivers (ops : list (AttendanceFields * OfflineStorage.EnqueueEnv)) (n : nat)
  (net : nat -> nat -> FetchResult) (now : nat -> Z) (online : bool) (d : Device) :
  db_open d = true ->
  OfflineStorage.syncWithServer (net 0%nat) (now 0%nat) (snd (enqueue_all ops d)) =
    Rejected DataError /\
  sent_of (OfflineStorage.syncWithServer (net 0%nat) (now 0%nat) (snd (enqueue_all ops d))) = [] /\
  OfflineStorage.getSyncStatus online (snd (enqueue_all ops d)) = Rejected DataError /\
  fst (ServiceWorker.syncAttendanceData (net 0%nat) (snd (enqueue_all ops d))) =
    {| ServiceWorker.device := snd (enqueue_all ops d); ServiceWorker.sent := [] |} /\
  sync_passes n net now 0 (snd (enqueue_all ops d)) = snd (enqueue_all ops d).
Proof.
  intros Hopen.
  rewrite syncWithServer_rejects, getSyncStatus_rejects, enqueue_all_open, Hopen.
  split; [reflexivity|]. split; [reflexivity|]. split; [reflexivity|].
  split; [rewrite syncAttendanceData_silent; reflexivity|apply sync_passes_fixed].
Qed.

Lemma no_pass_delivers_witness :
  OfflineStorage.syncWithServer net_created 1700000000500
    (snd (enqueue_all duplicate_marks empty_device)) = Rejected DataError /\
  sent_of (OfflineStorage.syncWithServer net_created 1700000000500
             (snd (enqueue_all duplicate_marks empty_device))) = [] /\
  OfflineStorage.getSyncStatus true (snd (enqueue_all duplicate_marks empty_device)) =
    Rejected DataError /\
  fst (ServiceWorker.syncAttendanceData net_created
         (snd (enqueue_all duplicate_marks empty_device))) =
    {| ServiceWorker.device := snd (enqueue_all duplicate_marks empty_device);
       ServiceWorker.sent := [] |} /\
  sync_passes 3 (fun _ => net_created) (fun _ => 1700000000500%Z) 0
    (snd (enqueue_all duplicate_marks empty_device)) =
    snd (enqueue_all duplicate_marks empty_device).
Proof.
  apply (no_pass_delivers duplicate_marks 3 (fun _ => net_created)
           (fun _ => 1700000000500%Z) true empty_device).
  reflexivity.
Defined.

(** X14.  Marking is idempotent.  A second [markRecordSynced] for the same
    id has the outcome of the first and leaves the device as the first
    left it, in the library and in the service worker. *)
Theorem markRecordSynced_idempotent (recordId : string) (d : Device) :
  OfflineStorage.markRecordSynced recordId (snd (OfflineStorage.markRecordSynced recordId d)) =
    OfflineStorage.markRecordSynced recordId d /\
  ServiceWorker.markRecordSynced recordId (ServiceWorker.markRecordSynced recordId d) =
    ServiceWorker.markRecordSynced recordId d.
Proof.
  split.
  - unfold OfflineStorage.markRecordSynced.
    destruct (db_open d) eqn:Hopen; simpl; [|rewrite Hopen; reflexivity].
    destruct (IDB.get id recordId (attendanceRecords (idb d))) as [r|] eqn:G; simpl.
    + destruct (get_Some id _ _ _ G) as [Hk _]. rewrite Hopen. simpl.
      assert (IDB.get id recordId (IDB.put id (with_synced true r) (attendanceRecords (idb d)))
              = Some (with_synced true r)) as ->.
      { rewrite <- Hk. exact (get_put_eq id (with_synced true r) _). }
      rewrite (put_put id (with_synced true r)) by reflexivity. reflexivity.
    + rewrite Hopen. simpl. rewrite G. reflexivity.
  - unfold ServiceWorker.markRecordSynced.
    destruct (IDB.get id recordId (attendanceRecords (idb d))) as [r|] eqn:G; simpl.
    + destruct (get_Some id _ _ _ G) as [Hk _].
      assert (IDB.get id recordId (IDB.put id (with_synced true r) (attendanceRecords (idb d)))
              = Some (with_synced true r)) as ->.
      { rewrite <- Hk. exact (get_put_eq id (with_synced true r) _). }
      rewrite (put_put id (with_synced true r)) by reflexivity. reflexivity.
    + rewrite G. reflexivity.
Qed.

(** ** Generated ids *)

Lemma occurs_append (c : ascii) (a b : string) :
  occurs c (a +:+ b) = occurs c a || occurs c b.
Proof.
  induction a as [|x a IH]; simpl; [reflexivity|].
  rewrite IH, orb_assoc. reflexivity.
Qed.

Lemma pretty_N_char_not_underscore (x : N) : Ascii.eqb (pretty_N_char x) "_" = false.
Proof. unfold pretty_N_char. repeat case_match; reflexivity. Qed.

Lemma pretty_N_go_no_underscore (x : N) :
  forall s, occurs "_" s = false -> occurs "_" (pretty_N_go x s) = false.
Proof.
  induction (N.lt_wf_0 x) as [x _ IH]. intros s Hs.
  destruct (decide (x = 0)%N) as [->|Hx]; [rewrite pretty_N_go_0; exact Hs|].
  rewrite pretty_N_go_step by lia. apply IH.
  - apply N.div_lt; lia.
  - simpl. rewrite pretty_N_char_not_underscore, Hs. reflexivity.
Qed.

Lemma pretty_Z_no_underscore (z : Z) : occurs "_" (pretty z) = false.
Proof.
  assert (forall n : N, occurs "_" (pretty n) = false) as HN.
  { intros n. unfold pretty, pretty_N. destruct (decide (n = 0)%N); [reflexivity|].
    apply pretty_N_go_no_underscore. reflexivity. }
  destruct z as [|p|p]; unfold pretty, pretty_Z; [reflexivity| |].
  - apply (HN (Npos p)).
  - rewrite occurs_append. simpl. apply (HN (Npos p)).
Qed.

(** A string is cut at the first occurrence of a character in one way
    only. *)
Lemma cut_unique (c : ascii) (a a' r r' : string) :
  occurs c a = false -> occurs c a' = false ->
  a +:+ String c r = a' +:+ String c r' -> a = a' /\ r = r'.
Proof.
  revert a'. induction a as [|x a IH]; intros [|x' a']; simpl.
  - intros _ _ [= ->]. auto.
  - intros _ H [= <- _]. rewrite Ascii.eqb_refl in H. discriminate H.
  - intros H _ [= -> _]. rewrite Ascii.eqb_refl in H. discriminate H.
  - intros H H' [= -> E]. apply orb_false_elim in H as [_ H], H' as [_ H'].
    destruct (IH a' H H' E) as [-> ->]. auto.
Qed.

Lemma generateId_eq (now now' : Z) (rnd rnd' : string) :
  OfflineStorage.generateId now rnd = OfflineStorage.generateId now' rnd' <->
  now = now' /\ rnd = rnd'.
Proof.
  split; [|intros [-> ->]; reflexivity].
  unfold OfflineStorage.generateId. simpl. intros [= E].
  apply cut_unique in E as [E ->]; [|apply pretty_Z_no_underscore..].
  apply (inj pretty) in E. auto.
Qed.

Lemma storeAttendanceRecord_resolved_inv (record : AttendanceFields)
  (e : OfflineStorage.EnqueueEnv) (d d1 : Device) (k : string) :
  OfflineStorage.storeAttendanceRecord record e d = (Resolved k, d1) ->
  db_open d = true /\
  k = OfflineStorage.generateId (OfflineStorage.id_clock e) (OfflineStorage.id_random e) /\
  IDB.get id k (attendanceRecords (idb d)) = None /\
  d1 = with_attendance
         (IDB.put id {| fields := record; id := k;
                        timestamp := OfflineStorage.stamp_clock e; synced := false |}
            (attendanceRecords (idb d))) d.
Proof.
  unfold OfflineStorage.storeAttendanceRecord, IDB.add.
  destruct (db_open d); simpl; [|discriminate].
  destruct (IDB.get id _ (attendanceRecords (idb d))) eqn:G; simpl; [discriminate|].
  intros [= <- <-]. auto.
Qed.

(** X15.  Ids and collisions.  Two generated ids are equal exactly when
    both the clock reading and the random suffix are.  After an enqueue
    that resolved, a further enqueue whose two readings coincide with its
    readings is rejected, whatever event it carries, and the device stays
    as it is; one whose readings differ, its id not being in the store
    before, resolves. *)
Theorem enqueue_id_collision (record record' : AttendanceFields)
  (e e' : OfflineStorage.EnqueueEnv) (d d1 : Device) (k : string) :
  OfflineStorage.storeAttendanceRecord record e d = (Resolved k, d1) ->
  IDB.get id (OfflineStorage.generateId (OfflineStorage.id_clock e') (OfflineStorage.id_random e'))
    (attendanceRecords (idb d)) = None ->
  (OfflineStorage.generateId (OfflineStorage.id_clock e) (OfflineStorage.id_random e) =
   OfflineStorage.generateId (OfflineStorage.id_clock e') (OfflineStorage.id_random e') <->
   OfflineStorage.id_clock e = OfflineStorage.id_clock e' /\
   OfflineStorage.id_random e = OfflineStorage.id_random e') /\
  (OfflineStorage.id_clock e = OfflineStorage.id_clock e' /\
   OfflineStorage.id_random e = OfflineStorage.id_random e' ->
   OfflineStorage.storeAttendanceRecord record' e' d1 = (Rejected RequestError, d1)) /\
  (~ (OfflineStorage.id_clock e = OfflineStorage.id_clock e' /\
      OfflineStorage.id_random e = OfflineStorage.id_random e') ->
   is_resolved (fst (OfflineStorage.storeAttendanceRecord record' e' d1)) = true).
Proof.
  intros Hstore Hfresh.
  destruct (storeAttendanceRecord_resolved_inv _ _ _ _ _ Hstore) as (Hopen & -> & Hk & ->).
  split; [apply generateId_eq|].
  set (r0 := {| fields := record;
                id := OfflineStorage.generateId (OfflineStorage.id_clock e) (OfflineStorage.id_random e);
                timestamp := OfflineStorage.stamp_clock e; synced := false |}).
  split.
  - intros [Hc Hr]. unfold OfflineStorage.storeAttendanceRecord, IDB.add. simpl.
    rewrite Hopen, <- Hc, <- Hr. simpl.
    change (OfflineStorage.generateId (OfflineStorage.id_clock e) (OfflineStorage.id_random e))
      with (id r0).
    rewrite (get_put_eq id r0). reflexivity.
  - intros Hdiff. unfold OfflineStorage.storeAttendanceRecord, IDB.add. simpl.
    rewrite Hopen. simpl.
    rewrite (get_put_ne id _ r0).
    + rewrite Hfresh. reflexivity.
    + simpl. intros E. apply Hdiff, generateId_eq, E.
Qed.

Lemma enqueue_id_collision_witness :
  (OfflineStorage.generateId (OfflineStorage.id_clock env_first) (OfflineStorage.id_random env_first) =
   OfflineStorage.generateId (OfflineStorage.id_clock env_second) (OfflineStorage.id_random env_second) <->
   OfflineStorage.id_clock env_first = OfflineStorage.id_clock env_second /\
   OfflineStorage.id_random env_first = OfflineStorage.id_random env_second) /\
  (OfflineStorage.id_clock env_first = OfflineStorage.id_clock env_second /\
   OfflineStorage.id_random env_first = OfflineStorage.id_random env_second ->
   OfflineStorage.storeAttendanceRecord mark_no_student env_second one_record_device =
     (Rejected RequestError, one_record_device)) /\
  (~ (OfflineStorage.id_clock env_first = OfflineStorage.id_clock env_second /\
      OfflineStorage.id_random env_first = OfflineStorage.id_random env_second) ->
   is_resolved (fst (OfflineStorage.storeAttendanceRecord mark_no_student env_second
                       one_record_device)) = true).
Proof.
  apply (enqueue_id_collision mark_s1 mark_no_student env_first env_second empty_device
           one_record_device "offline_1700000000000_k3x9q2m1z"); reflexivity.
Defined.

(** X16.  Enqueue, then mark.  Marking the record that an enqueue just
    stored, under the id the enqueue returned, resolves; the record is
    then stored with [synced = true] and otherwise as enqueued, the pending
    view is what it was before the enqueue, and every other key reads as
    before. *)
Theorem enqueue_then_mark (record : AttendanceFields) (e : OfflineStorage.EnqueueEnv)
  (d d1 : Device) (k : string) :
  OfflineStorage.storeAttendanceRecord record e d = (Resolved k, d1) ->
  fst (OfflineStorage.markRecordSynced k d1) = Resolved tt /\
  IDB.get id k (attendanceRecords (idb (snd (OfflineStorage.markRecordSynced k d1)))) =
    Some {| fields := record; id := k; timestamp := OfflineStorage.stamp_clock e;
            synced := true |} /\
  pending (snd (OfflineStorage.markRecordSynced k d1)) = pending d /\
  (forall k', k' <> k ->
     IDB.get id k' (attendanceRecords (idb (snd (OfflineStorage.markRecordSynced k d1)))) =
       IDB.get id k' (attendanceRecords (idb d))).
Proof.
  intros Hstore.
  destruct (storeAttendanceRecord_resolved_inv _ _ _ _ _ Hstore) as (Hopen & _ & Hk & ->).
  set (r0 := {| fields := record; id := k; timestamp := OfflineStorage.stamp_clock e;
                synced := false |}).
  assert (OfflineStorage.markRecordSynced k
            (with_attendance (IDB.put id r0 (attendanceRecords (idb d))) d) =
          (Resolved tt,
           with_attendance (IDB.put id (with_synced true r0) (attendanceRecords (idb d))) d))
    as ->.
  { unfold OfflineStorage.markRecordSynced. simpl. rewrite Hopen. simpl.
    pose proof (get_put_eq id r0 (attendanceRecords (idb d))) as G. simpl in G. rewrite G.
    rewrite (put_put id r0 (with_synced true r0)) by reflexivity. reflexivity. }
  simpl. split; [reflexivity|]. split; [exact (get_put_eq id (with_synced true r0) _)|]. split.
  - unfold pending, select_synced. simpl.
    apply (put_fresh_filter_out id); [exact Hk|]. simpl. discriminate.
  - intros k' Hne. apply get_put_ne. simpl. congruence.
Qed.

Lemma enqueue_then_mark_witness :
  fst (OfflineStorage.markRecordSynced "offline_1700000000000_k3x9q2m1z" one_record_device)
    = Resolved tt /\
  IDB.get id "offline_1700000000000_k3x9q2m1z"
    (attendanceRecords (idb (snd (OfflineStorage.markRecordSynced
                                    "offline_1700000000000_k3x9q2m1z" one_record_device)))) =
    Some {| fields := mark_s1; id := "offline_1700000000000_k3x9q2m1z";
            timestamp := OfflineStorage.stamp_clock env_first; synced := true |} /\
  pending (snd (OfflineStorage.markRecordSynced "offline_1700000000000_k3x9q2m1z"
                  one_record_device)) = pending empty_device /\
  (forall k', k' <> "offline_1700000000000_k3x9q2m1z" ->
     IDB.get id k' (attendanceRecords (idb (snd (OfflineStorage.markRecordSynced
                                                   "offline_1700000000000_k3x9q2m1z"
                                                   one_record_device)))) =
       IDB.get id k' (attendanceRecords (idb empty_device))).
Proof.
  apply (enqueue_then_mark mark_s1 env_first empty_device one_record_device
           "offline_1700000000000_k3x9q2m1z").
  reflexivity.
Defined.

(** ** Caching students *)

Lemma add_student_ordered (x : OfflineStudent) (s s' : list OfflineStudent) :
  OfflineStorage.add_student x s = Some s' ->
  IDB.key_ordered student_id s -> IDB.key_ordered student_id s'.
Proof.
  unfold OfflineStorage.add_student, IDB.add. destruct (existsb _ s); [discriminate|].
  destruct (IDB.get student_id (student_id x) s); [discriminate|].
  intros [= <-]. apply put_ordered.
Qed.

Lemma add_students_ordered (clock : nat -> Z) (l : list OfflineStudent) :
  forall i s s',
    OfflineStorage.add_students clock i l s = Some s' ->
    IDB.key_ordered student_id s -> IDB.key_ordered student_id s'.
Proof.
  induction l as [|x l IH]; intros i s s'; simpl.
  - intros [= <-]. auto.
  - destruct (OfflineStorage.add_student (OfflineStorage.stamp (clock i) x) s) as [s1|] eqn:A;
      [|discriminate].
    intros Hrest Hs. apply (IH _ _ _ Hrest), (add_student_ordered _ _ _ A), Hs.
Qed.

(** X17.  Caching replaces the cache.  After a [cacheStudents] that
    resolved, the cache holds the students it was given, each stamped with
    its clock reading, and nothing else, in key order; a read by class
    returns those of them that are in the class; the attendance records
    are as before. *)
Theorem cacheStudents_then_read (students : list OfflineStudent) (clock : nat -> Z)
  (d d' : Device) :
  OfflineStorage.cacheStudents students clock d = (Resolved tt, d') ->
  (forall y, In y (studentsCache (idb d')) <->
             exists j x, students !! j = Some x /\ y = OfflineStorage.stamp (clock j) x) /\
  IDB.key_ordered student_id (studentsCache (idb d')) /\
  (forall className,
     exists l,
       OfflineStorage.getCachedStudentsByClass className d' = Resolved l /\
       forall y, In y l <->
                 exists j x, students !! j = Some x /\ student_class x = className /\
                             y = OfflineStorage.stamp (clock j) x) /\
  attendanceRecords (idb d') = attendanceRecords (idb d).
Proof.
  intros Hcache. pose proof (cacheStudents_replaces students clock d d' Hcache) as Hall.
  split; [exact Hall|].
  unfold OfflineStorage.cacheStudents in Hcache.
  destruct (db_open d) eqn:Hopen; simpl in Hcache; [|discriminate].
  destruct (OfflineStorage.add_students clock 0 students []) as [s'|] eqn:A; [|discriminate].
  injection Hcache as <-. simpl in *. split; [|split; [|reflexivity]].
  - apply (add_students_ordered _ _ _ _ _ A). constructor.
  - intros className. unfold OfflineStorage.getCachedStudentsByClass. simpl. rewrite Hopen.
    simpl. eexists. split; [reflexivity|]. intros y.
    rewrite <- list_elem_of_In, list_elem_of_filter, list_elem_of_In, Hall. split.
    + intros [Hc (j & x & Hj & ->)]. exists j, x. auto.
    + intros (j & x & Hj & Hc & ->). split; [exact Hc|]. eauto.
Qed.

Lemma cacheStudents_then_read_witness :
  (forall y, In y (studentsCache (idb (snd (OfflineStorage.cacheStudents two_students
                                              (fun _ => 1700000000900%Z) one_record_device)))) <->
             exists j x, two_students !! j = Some x /\
                         y = OfflineStorage.stamp ((fun _ => 1700000000900%Z) j) x) /\
  IDB.key_ordered student_id
    (studentsCache (idb (snd (OfflineStorage.cacheStudents two_students
                                (fun _ => 1700000000900%Z) one_record_device)))) /\
  (forall className,
     exists l,
       OfflineStorage.getCachedStudentsByClass className
         (snd (OfflineStorage.cacheStudents two_students (fun _ => 1700000000900%Z)
                 one_record_device)) = Resolved l /\
       forall y, In y l <->
                 exists j x, two_students !! j = Some x /\ student_class x = className /\
                             y = OfflineStorage.stamp ((fun _ => 1700000000900%Z) j) x) /\
  attendanceRecords (idb (snd (OfflineStorage.cacheStudents two_students
                                 (fun _ => 1700000000900%Z) one_record_device))) =
    attendanceRecords (idb one_record_device).
Proof.
  apply (cacheStudents_then_read two_students (fun _ => 1700000000900%Z) one_record_device).
  reflexivity.
Defined.

Lemma add_students_distinct (clock : nat -> Z) (l : list OfflineStudent) :
  forall i s s',
    OfflineStorage.add_students clock i l s = Some s' ->
    forall j x, l !! j = Some x ->
      (forall y, In y s -> rollNumber y <> rollNumber x /\ student_id y <> student_id x) /\
      (forall j' x', (j' < j)%nat -> l !! j' = Some x' ->
         rollNumber x' <> rollNumber x /\ student_id x' <> student_id x).
Proof.
  induction l as [|h l IH]; intros i s s' Hadd j x Hj; [discriminate Hj|].
  simpl in Hadd.
  destruct (OfflineStorage.add_student (OfflineStorage.stamp (clock i) h) s) as [s1|] eqn:A;
    [|discriminate].
  pose proof (add_student_In _ _ _ A) as Hs1.
  destruct j as [|j]; simpl in Hj.
  - injection Hj as <-. split; [|intros j' x' Hlt; lia].
    intros y Hy. unfold OfflineStorage.add_student, IDB.add in A.
    destruct (existsb _ s) eqn:E; [discriminate|].
    destruct (IDB.get student_id _ s) eqn:G; [discriminate|]. simpl in *. split.
    + intros Heq. assert (existsb (fun y0 => String.eqb (rollNumber y0) (rollNumber h)) s = true)
        as Hc; [|congruence].
      apply existsb_exists. exists y. split; [exact Hy|]. apply String.eqb_eq, Heq.
    + exact (proj1 (get_None student_id _ _) G y Hy).
  - destruct (IH _ _ _ Hadd j x Hj) as [H1 H2]. split.
    + intros y Hy. apply H1, Hs1. auto.
    + intros [|j'] x' Hlt Hj'; simpl in Hj'.
      * injection Hj' as <-.
        destruct (H1 (OfflineStorage.stamp (clock i) h)) as [Ha Hb]; [apply Hs1; auto|].
        simpl in Ha, Hb. auto.
      * apply (H2 j' x'); [lia|exact Hj'].
Qed.

(** X18.  Duplicates abort the caching.  When two of the students given
    to [cacheStudents] share a roll number or an id, the call rejects and
    the device, the previous cache included, is as it was. *)
Theorem cacheStudents_rejects_duplicates (students : list OfflineStudent) (clock : nat -> Z)
  (d : Device) (i j : nat) (a b : OfflineStudent) :
  db_open d = true ->
  students !! i = Some a ->
  students !! j = Some b ->
  (i < j)%nat ->
  rollNumber a = rollNumber b \/ student_id a = student_id b ->
  OfflineStorage.cacheStudents students clock d = (Rejected RequestError, d).
Proof.
  intros Hopen Hi Hj Hlt Hdup. unfold OfflineStorage.cacheStudents. rewrite Hopen. simpl.
  destruct (OfflineStorage.add_students clock 0 students []) as [s'|] eqn:A; [|reflexivity].
  destruct (add_students_distinct clock students 0 [] s' A j b Hj) as [_ H].
  destruct (H i a Hlt Hi). tauto.
Qed.

Lemma cacheStudents_rejects_duplicates_witness :
  OfflineStorage.cacheStudents (two_students ++ [student_raj]) (fun _ => 1700000000900%Z)
    one_record_device = (Rejected RequestError, one_record_device).
Proof.
  apply (cacheStudents_rejects_duplicates (two_students ++ [student_raj])
           (fun _ => 1700000000900%Z) one_record_device 1 2 student_raj student_raj).
  - reflexivity.
  - reflexivity.
  - reflexivity.
  - lia.
  - left. reflexivity.
Defined.

(** ** Pages and assets through the worker *)

Lemma caches_match_dynamic_put (request : ServiceWorker.Request) (r : ServiceWorker.SWResponse)
  (c : ServiceWorker.CacheStorage) :
  ServiceWorker.caches_match request c = None ->
  ServiceWorker.caches_match request (ServiceWorker.dynamic_put request r c) = Some r.
Proof.
  unfold ServiceWorker.caches_match, ServiceWorker.dynamic_put. simpl.
  destruct (ServiceWorker.static_cache c !! ServiceWorker.url request); [discriminate|].
  intros _. apply lookup_insert_eq.
Qed.

Lemma serve_pages_cached (request : ServiceWorker.Request) (r : ServiceWorker.SWResponse)
  (c : ServiceWorker.CacheStorage) :
  String.prefix "/api/" (ServiceWorker.pathname request) = false ->
  ServiceWorker.caches_match request c = Some r ->
  forall events,
    serve_pages request events c =
      (map (fun _ => Some (ServiceWorker.Responds r)) events, c).
Proof.
  intros Hpage Hhit events. induction events as [|[navigate net] events IH]; [reflexivity|].
  simpl. unfold ServiceWorker.onfetch, ServiceWorker.handleStaticRequest. simpl.
  rewrite Hpage, Hhit, IH. reflexivity.
Qed.

(** X19.  A page or asset fetched once is pinned.  The first read of a
    URL that is in no cache goes to the network; when the response is a
    success it is stored, and every later read of the URL through the
    worker is answered with that response, whatever the network would
    return by then, and the caches stay as they are. *)
Theorem fetched_page_is_pinned (request : ServiceWorker.Request) (navigate : bool)
  (r : ServiceWorker.SWResponse) (c : ServiceWorker.CacheStorage)
  (events : list (bool * ServiceWorker.SWFetchResult)) :
  String.prefix "/api/" (ServiceWorker.pathname request) = false ->
  ServiceWorker.caches_match request c = None ->
  ServiceWorker.sw_ok r = true ->
  serve_pages request ((navigate, ServiceWorker.NetworkReturns r) :: events) c =
    (map (fun _ => Some (ServiceWorker.Responds r))
       ((navigate, ServiceWorker.NetworkReturns r) :: events),
     ServiceWorker.dynamic_put request r c).
Proof.
  intros Hpage Hmiss Hok. cbn [serve_pages].
  unfold ServiceWorker.onfetch, ServiceWorker.handleStaticRequest. simpl.
  rewrite Hpage, Hmiss, Hok.
  rewrite (serve_pages_cached request r _ Hpage (caches_match_dynamic_put request r c Hmiss)).
  reflexivity.
Qed.

Lemma fetched_page_is_pinned_witness :
  serve_pages locale_request
    ((true, ServiceWorker.NetworkReturns locale_v1)
       :: [(true, ServiceWorker.NetworkReturns locale_v2);
           (false, ServiceWorker.NetworkFails)]) shell_caches =
    (map (fun _ => Some (ServiceWorker.Responds locale_v1))
       ((true, ServiceWorker.NetworkReturns locale_v1)
          :: [(true, ServiceWorker.NetworkReturns locale_v2);
              (false, ServiceWorker.NetworkFails)]),
     ServiceWorker.dynamic_put locale_request locale_v1 shell_caches).
Proof.
  apply (fetched_page_is_pinned locale_request true locale_v1 shell_caches).
  - reflexivity.
  - reflexivity.
  - reflexivity.
Defined.




(** ** Cache cleanup *)

Lemma current_caches_versioned (cacheName : string) :
  cacheName = WorkerCaches.STATIC_CACHE \/ cacheName = WorkerCaches.DYNAMIC_CACHE ->
  Server.includes cacheName "v1.0.0" = true.
Proof. intros [->| ->]; reflexivity. Qed.

Lemma daily_within_activate (cacheName : string) :
  (String.prefix "attendance-system-" cacheName
   && negb (String.eqb cacheName WorkerCaches.STATIC_CACHE)
   && negb (String.eqb cacheName WorkerCaches.DYNAMIC_CACHE)) = false ->
  (String.prefix "attendance-system-" cacheName
   && negb (Server.includes cacheName "v1.0.0")) = false.
Proof.
  destruct (String.prefix "attendance-system-" cacheName); [|reflexivity]. simpl.
  destruct (String.eqb cacheName WorkerCaches.STATIC_CACHE) eqn:E1; simpl.
  - intros _. apply String.eqb_eq in E1. rewrite current_caches_versioned by auto. reflexivity.
  - destruct (String.eqb cacheName WorkerCaches.DYNAMIC_CACHE) eqn:E2; simpl; [|discriminate].
    intros _. apply String.eqb_eq in E2. rewrite current_caches_versioned by auto. reflexivity.
Qed.

Lemma filter_weaker_after {A : Type} (P Q : A -> Prop) `{!forall x, Decision (P x)}
  `{!forall x, Decision (Q x)} (l : list A) :
  (forall x, Q x -> P x) ->
  filter P (filter Q l) = filter Q l /\ filter Q (filter P l) = filter Q l.
Proof.
  intros Himp. induction l as [|x l [IH1 IH2]]; [split; reflexivity|].
  rewrite !filter_cons. destruct (decide (Q x)) as [Hq|Hq].
  - destruct (decide (P x)) as [Hp|Hp]; [|destruct (Hp (Himp x Hq))].
    rewrite !filter_cons. destruct (decide (P x)); [|tauto]. destruct (decide (Q x)); [|tauto].
    rewrite IH1, IH2. split; reflexivity.
  - split; [exact IH1|]. destruct (decide (P x)); [|exact IH2].
    rewrite filter_cons. destruct (decide (Q x)); [tauto|exact IH2].
Qed.

(** X21.  Activation cleans at least as much as the daily cleanup.  What
    is left after [activate] is left alone by the daily cleanup, and
    running the daily cleanup first does not change what [activate]
    leaves; the two caches of the running version survive both. *)
Theorem activation_subsumes_daily_cleanup (cs : WorkerCaches.Caches)
  (entry : string * gmap string ServiceWorker.SWResponse) :
  In entry cs ->
  fst entry = WorkerCaches.STATIC_CACHE \/ fst entry = WorkerCaches.DYNAMIC_CACHE ->
  WorkerCaches.daily_cleanup (WorkerCaches.activate cs) = WorkerCaches.activate cs /\
  WorkerCaches.activate (WorkerCaches.daily_cleanup cs) = WorkerCaches.activate cs /\
  In entry (WorkerCaches.activate cs) /\
  In entry (WorkerCaches.daily_cleanup cs).
Proof.
  intros Hin Hown. unfold WorkerCaches.daily_cleanup, WorkerCaches.activate,
    WorkerCaches.delete_where.
  match goal with |- filter ?P (filter ?Q _) = _ /\ _ =>
    destruct (filter_weaker_after P Q cs) as [H1 H2];
      [intros x Hx; apply daily_within_activate, Hx|]
  end.
  split; [exact H1|]. split; [exact H2|]. split.
  - apply list_elem_of_In, list_elem_of_filter. split; [|apply list_elem_of_In, Hin].
    destruct Hown as [-> | ->]; reflexivity.
  - apply list_elem_of_In, list_elem_of_filter. split; [|apply list_elem_of_In, Hin].
    rewrite (current_caches_versioned _ Hown). apply andb_false_r.
Qed.

Lemma activation_subsumes_daily_cleanup_witness :
  WorkerCaches.daily_cleanup (WorkerCaches.activate old_caches) = WorkerCaches.activate old_caches /\
  WorkerCaches.activate (WorkerCaches.daily_cleanup old_caches) = WorkerCaches.activate old_caches /\
  In (WorkerCaches.DYNAMIC_CACHE, ∅) (WorkerCaches.activate old_caches) /\
  In (WorkerCaches.DYNAMIC_CACHE, ∅) (WorkerCaches.daily_cleanup old_caches).
Proof.
  apply (activation_subsumes_daily_cleanup old_caches (WorkerCaches.DYNAMIC_CACHE, ∅)).
  - simpl. tauto.
  - right. reflexivity.
Defined.

(** ** The report summary *)

Lemma filter_length_le {A : Type} (P : A -> Prop) `{!forall x, Decision (P x)} (l : list A) :
  (length (filter P l) <= length l)%nat.
Proof.
  induction l as [|x l IH]; [reflexivity|]. rewrite filter_cons.
  destruct (decide (P x)); simpl; lia.
Qed.

(** X22.  The report has one row per student of the list it is given, in
    the order of the list, whatever the attendance records are: several
    records of one student, or records of students not on the list, add
    no row.  So the counts of the summary add up to the number of
    students. *)
Theorem report_counts_each_student_once (round_rate : nat -> nat -> Z)
  (attendanceRecords : list Report.Mark) (students : list Server.Student) :
  map Report.rs_id (Report.reportStudents attendanceRecords students) = map Server.id students /\
  Report.total (Report.summary round_rate attendanceRecords students) = length students /\
  (Report.present (Report.summary round_rate attendanceRecords students)
   + Report.absent (Report.summary round_rate attendanceRecords students))%nat = length students.
Proof.
  unfold Report.summary, Report.reportStudents. simpl. split; [|split].
  - rewrite map_map. reflexivity.
  - apply length_map.
  - match goal with |- (length (filter ?P ?l) + _)%nat = _ =>
      pose proof (filter_length_le P l) as Hle end.
    rewrite length_map in *. lia.
Qed.

(** ** The scanner *)

Definition scanner_invariant (scanned : list RfidScanner.ScannedStudent) : Prop :=
  NoDup (scanned_ids scanned) /\
  Forall (fun s => Server.rfidCardId (RfidScanner.student s) = Some (RfidScanner.rfidId s) /\
                   RfidScanner.rfidId s <> "") scanned.

Lemma scanner_step_invariant (trim : string -> string)
  (scanned : list RfidScanner.ScannedStudent) (e : ScannerEvent) :
  scanner_invariant scanned -> scanner_invariant (scanner_step trim scanned e).
Proof.
  intros [Hnd Hcards]. destruct e as [students card now|studentId]; simpl.
  - unfold RfidScanner.handleRfidScan.
    destruct (String.eqb (trim card) "") eqn:Hblank; [split; assumption|].
    destruct (find _ (default [] students)) as [found|] eqn:Hfound; [|split; assumption].
    destruct (find _ scanned) as [x|] eqn:Hseen; [split; assumption|]. simpl.
    apply find_some in Hfound as [_ Hcard]. apply bool_decide_eq_true in Hcard.
    split.
    + unfold scanned_ids. rewrite map_app. simpl. apply NoDup_app.
      split; [exact Hnd|]. split; [|apply NoDup_singleton].
      intros k Hk [<-|[]]%list_elem_of_In.
      apply list_elem_of_In, in_map_iff in Hk as (x & Hx & Hin).
      pose proof (find_none _ _ Hseen x Hin) as Hne. simpl in Hne.
      apply String.eqb_neq in Hne. congruence.
    + apply Forall_app. split; [exact Hcards|]. constructor; [|constructor]. simpl.
      split; [exact Hcard|]. apply String.eqb_neq, Hblank.
  - split.
    + unfold scanned_ids in *. clear Hcards.
      induction scanned as [|x l IH]; [constructor|]. simpl in Hnd.
      apply NoDup_cons in Hnd as [Hx Hl]. rewrite filter_cons.
      destruct (decide (Server.id (RfidScanner.student x) <> studentId)); [|apply IH, Hl].
      simpl. apply NoDup_cons. split; [|apply IH, Hl].
      intros Hin. apply Hx. apply list_elem_of_In, in_map_iff in Hin as (y & Hy & Hin).
      apply list_elem_of_In, in_map_iff. exists y. split; [exact Hy|].
      apply list_elem_of_In, list_elem_of_filter in Hin as [_ Hin].
      apply list_elem_of_In, Hin.
    + apply Forall_forall. intros x Hx.
      apply list_elem_of_filter in Hx as [_ Hx].
      exact (proj1 (Forall_forall _ _) Hcards x Hx).
Qed.

Lemma scanner_session_invariant (trim : string -> string) (events : list ScannerEvent) :
  scanner_invariant (scanner_session trim events).
Proof.
  unfold scanner_session.
  assert (forall scanned, scanner_invariant scanned ->
                          scanner_invariant (fold_left (scanner_step trim) events scanned)) as H.
  { induction events as [|e events IH]; intros scanned Hinv; [exact Hinv|].
    simpl. apply IH, scanner_step_invariant, Hinv. }
  apply H. split; constructor.
Qed.

(** X23.  The scanner lists no student twice.  Whatever cards are read
    and whatever students are taken off the list, in any order, the list
    of scanned students holds each student at most once, and each entry
    carries the trimmed, non-empty card id under which its student is
    registered. *)
Theorem scanner_lists_each_student_once (trim : string -> string) (events : list ScannerEvent) :
  NoDup (scanned_ids (scanner_session trim events)) /\
  Forall (fun s => Server.rfidCardId (RfidScanner.student s) = Some (RfidScanner.rfidId s) /\
                   RfidScanner.rfidId s <> "")
    (scanner_session trim events).
Proof. exact (scanner_session_invariant trim events). Qed.

Lemma scanner_mark_parse (uid : string) (e : Server.MarkEnv) (props : RfidScanner.RfidScannerProps)
  (today sid : string) :
  today <> "" ->
  Server.insertAttendanceSchema_parse
    (Server.mark_object uid e
       (<["date" := JStr today]>
          (<["method" := JStr "rfid"]>
             (<["period" := JStr (RfidScanner.period props)]>
                (<["subject" := JStr (RfidScanner.subject props)]>
                   (<["class" := JStr (RfidScanner.className props)]>
                      (<["status" := JStr "present"]>
                         (<["studentId" := JStr sid]> ∅)))))))) =
    Some {| Server.ins_studentId := sid; Server.ins_teacherId := uid;
            Server.ins_class := RfidScanner.className props;
            Server.ins_subject := Some (RfidScanner.subject props);
            Server.ins_date := today;
            Server.ins_period := Some (RfidScanner.period props);
            Server.ins_status := "present"; Server.ins_method := "rfid" |}.
Proof.
  intros Htoday. apply String.eqb_neq in Htoday.
  unfold Server.insertAttendanceSchema_parse, Server.mark_object, Server.required_text,
    Server.nullable_text.
  lookup_props. simpl. rewrite Htoday. simpl. lookup_props. reflexivity.
Qed.

(** X24.  The server takes what the scanner submits.  The batch built
    from the list of any scanning session, posted under a session, is
    answered 201 with one row per scanned student, in the order of the
    list and no student twice; each row is a presence by RFID for the
    class, subject and period of the scanner, on the client's date, under
    the teacher of the session. *)
Theorem scanner_submission_accepted (trim : string -> string) (events : list ScannerEvent)
  (props : RfidScanner.RfidScannerProps) (today uid : string) (req : Server.Req)
  (env : nat -> Server.MarkEnv) (st : Server.MemStorage) :
  Server.user req = Some uid ->
  Server.body req =
    Server.BodyArray
      (call_body (RfidScanner.handleSubmitAttendance props today (scanner_session trim events))) ->
  today <> "" ->
  NoDup (map (fun j => Server.uuid (env j))
           (seq 0 (length (scanner_session trim events)))) ->
  (forall j, (j < length (scanner_session trim events))%nat ->
     ~ In (Server.uuid (env j)) (map fst (Server.attendance st))) ->
  exists rows,
    Server.post_attendance_mark req env st =
      (Server.ReplyJson 201 rows,
       {| Server.students := Server.students st;
          Server.attendance :=
            Server.attendance st ++ map (fun a => (Server.att_id a, a)) rows |}) /\
    map Server.studentId rows = scanned_ids (scanner_session trim events) /\
    NoDup (map Server.studentId rows) /\
    Forall (fun a => Server.teacherId a = uid /\
                     Server.att_class a = RfidScanner.className props /\
                     Server.subject a = Some (RfidScanner.subject props) /\
                     Server.period a = Some (RfidScanner.period props) /\
                     Server.date a = today /\
                     Server.status a = "present" /\
                     Server.method a = "rfid") rows.
Proof.
  intros Hu Hb Htoday Hnd Hfresh.
  set (scanned := scanner_session trim events) in *.
  set (datas := call_body (RfidScanner.handleSubmitAttendance props today scanned)) in *.
  assert (length datas = length scanned) as Hlen.
  { unfold datas. simpl. rewrite !length_map. reflexivity. }
  assert (forall j data, datas !! j = Some data ->
            exists sid, scanned_ids scanned !! j = Some sid /\
              Server.insertAttendanceSchema_parse (Server.mark_object uid (env j) data) =
                Some {| Server.ins_studentId := sid; Server.ins_teacherId := uid;
                        Server.ins_class := RfidScanner.className props;
                        Server.ins_subject := Some (RfidScanner.subject props);
                        Server.ins_date := today;
                        Server.ins_period := Some (RfidScanner.period props);
                        Server.ins_status := "present"; Server.ins_method := "rfid" |}) as Hparse.
  { intros j data Hj. unfold datas in Hj. simpl in Hj.
    rewrite list_lookup_fmap in Hj. unfold scanned_ids.
    destruct (map _ scanned !! j) as [sid|] eqn:Hsid; [|discriminate Hj].
    simpl in Hj. injection Hj as <-. exists sid. split; [reflexivity|].
    apply scanner_mark_parse, Htoday. }
  destruct (mark_loop_valid uid env datas 0 [] st) as (rows & Hloop & Hids & Hrows).
  { intros j data Hj. destruct (Hparse j data Hj) as (sid & _ & Hp). simpl. rewrite Hp. eauto. }
  assert (length rows = length scanned) as Hrl.
  { apply (f_equal (@length _)) in Hids. rewrite !length_map, length_seq in Hids. lia. }
  assert (map Server.studentId rows = scanned_ids scanned) as Hsids.
  { apply list_eq. intros j. rewrite list_lookup_fmap.
    destruct (rows !! j) as [a|] eqn:Ha; simpl.
    - destruct (Hrows j a Ha) as (data & v & Hd & Hv & ->).
      destruct (Hparse j data Hd) as (sid & Hsid & Hp). simpl in Hv.
      rewrite Hp in Hv. injection Hv as <-. simpl. symmetry. exact Hsid.
    - symmetry. apply lookup_ge_None. apply lookup_ge_None in Ha.
      unfold scanned_ids. rewrite length_map. lia. }
  exists rows. split; [|split; [|split]].
  - unfold Server.post_attendance_mark, Server.isAuthenticated. rewrite Hu, Hb. simpl.
    fold scanned. fold datas. rewrite Hloop. simpl.
    rewrite (fresh_rows env rows (length datas) _ Hids); [reflexivity| |].
    + rewrite Hlen. exact Hnd.
    + intros j Hj. apply Hfresh. lia.
  - exact Hsids.
  - rewrite Hsids. exact (proj1 (scanner_session_invariant trim events)).
  - apply Forall_forall. intros a Ha. apply list_elem_of_lookup_1 in Ha as [j Ha].
    destruct (Hrows j a Ha) as (data & v & Hd & Hv & ->).
    destruct (Hparse j data Hd) as (sid & Hsid & Hp). simpl in Hv.
    rewrite Hp in Hv. injection Hv as <-. simpl. tauto.
Qed.

Lemma scanner_submission_accepted_witness :
  exists rows,
    Server.post_attendance_mark morning_request env_batch one_student_storage =
      (Server.ReplyJson 201 rows,
       {| Server.students := Server.students one_student_storage;
          Server.attendance :=
            Server.attendance one_student_storage ++ map (fun a => (Server.att_id a, a)) rows |}) /\
    map Server.studentId rows = scanned_ids (scanner_session (fun s => s) morning_scans) /\
    NoDup (map Server.studentId rows) /\
    Forall (fun a => Server.teacherId a = "t1" /\
                     Server.att_class a = RfidScanner.className morning_props /\
                     Server.subject a = Some (RfidScanner.subject morning_props) /\
                     Server.period a = Some (RfidScanner.period morning_props) /\
                     Server.date a = "2024-01-15" /\
                     Server.status a = "present" /\
                     Server.method a = "rfid") rows.
Proof.
  apply (scanner_submission_accepted (fun s => s) morning_scans morning_props "2024-01-15" "t1"
           morning_request env_batch one_student_storage).
  - reflexivity.
  - reflexivity.
  - discriminate.
  - apply (bool_decide_unpack _). vm_compute. exact I.
  - intros j _ [].
Defined.

(** ** Preloading the roster *)

Lemma NoDup_map_filter {A B : Type} (f : A -> B) (P : A -> Prop) `{!forall x, Decision (P x)}
  (l : list A) :
  NoDup (map f l) -> NoDup (map f (filter P l)).
Proof.
  induction l as [|x l IH]; [constructor|]. simpl. intros Hnd.
  apply NoDup_cons in Hnd as [Hx Hl]. rewrite filter_cons.
  destruct (decide (P x)); [|apply IH, Hl].
  simpl. apply NoDup_cons. split; [|apply IH, Hl].
  intros Hin. apply Hx. apply list_elem_of_In, in_map_iff in Hin as (y & Hy & Hin).
  apply list_elem_of_In, in_map_iff. exists y. split; [exact Hy|].
  apply list_elem_of_In, list_elem_of_filter in Hin as [_ Hin].
  apply list_elem_of_In, Hin.
Qed.

Lemma add_students_succeeds (clock : nat -> Z) (l : list OfflineStudent) :
  forall i s,
    NoDup (map student_id l) ->
    NoDup (map rollNumber l) ->
    (forall x y, In x l -> In y s ->
       student_id y <> student_id x /\ rollNumber y <> rollNumber x) ->
    is_Some (OfflineStorage.add_students clock i l s).
Proof.
  induction l as [|x l IH]; intros i s Hids Hrolls Hfree; simpl; [eauto|].
  simpl in Hids, Hrolls.
  apply NoDup_cons in Hids as [Hid Hids]. apply NoDup_cons in Hrolls as [Hroll Hrolls].
  destruct (OfflineStorage.add_student (OfflineStorage.stamp (clock i) x) s) as [s1|] eqn:A.
  - apply IH; [exact Hids|exact Hrolls|].
    intros x' y Hx' Hy. apply (add_student_In _ _ _ A) in Hy as [->|Hy].
    + simpl. split.
      * intros E. apply Hid. rewrite E. apply list_elem_of_In, in_map, Hx'.
      * intros E. apply Hroll. rewrite E. apply list_elem_of_In, in_map, Hx'.
    + apply Hfree; [right; exact Hx'|exact Hy].
  - exfalso. unfold OfflineStorage.add_student, IDB.add in A. simpl in A.
    destruct (existsb _ s) eqn:E.
    + apply existsb_exists in E as (y & Hy & Hroll'). apply String.eqb_eq in Hroll'.
      destruct (Hfree x y (or_introl eq_refl) Hy) as [_ H]. exact (H Hroll').
    + destruct (IDB.get student_id (student_id x) s) as [y|] eqn:G; [|discriminate A].
      apply get_Some in G as [Hid' Hy].
      destruct (Hfree x y (or_introl eq_refl) Hy) as [H _]. exact (H Hid').
Qed.

Lemma imap_offline_lookup (now : nat -> Z) (students : list Server.Student) (j : nat) :
  imap (fun j student => offline_student (now j) student) students !! j =
    fmap (offline_student (now j)) (students !! j).
Proof.
  exact (list_lookup_imap (fun j student => offline_student (now j) student) students j).
Qed.

Lemma map_imap_offline {B : Type} (f : OfflineStudent -> B) (g : Server.Student -> B)
  (now : nat -> Z) (students : list Server.Student) :
  (forall t x, f (offline_student t x) = g x) ->
  map f (imap (fun j student => offline_student (now j) student) students) = map g students.
Proof.
  intros Hfg. revert now. induction students as [|x l IH]; intros now; [reflexivity|].
  simpl. rewrite Hfg. f_equal. apply (IH (now ∘ S)).
Qed.

(** X25.  Preloading follows the server's roster.  When the roster read
    is answered by [GET /api/students] from a table whose students have
    ids and roll numbers of their own, preloading replaces the cache with
    exactly the students of the reply, each with the fields the cache
    keeps and the clock reading of its caching; what was cached before is
    gone, and the attendance records are as before. *)
Theorem preload_caches_the_roster (toLowerCase : string -> string) (req : Server.Req)
  (st : Server.MemStorage) (students : list Server.Student) (now clock : nat -> Z) (d : Device) :
  db_open d = true ->
  NoDup (map Server.id (Server.map_values (Server.students st))) ->
  NoDup (map Server.rollNumber (Server.map_values (Server.students st))) ->
  Server.get_students toLowerCase req st = Server.ReplyJson 200 students ->
  (forall y,
     In y (studentsCache (idb (preloadStudentsForOffline (RosterReturns 200 students)
                                 now clock d))) <->
     exists j student, students !! j = Some student /\ y = offline_student (clock j) student) /\
  attendanceRecords (idb (preloadStudentsForOffline (RosterReturns 200 students) now clock d)) =
    attendanceRecords (idb d).
Proof.
  intros Hopen Hids Hrolls Hreply.
  assert (NoDup (map Server.id students) /\ NoDup (map Server.rollNumber students)) as [Hi Hr].
  { unfold Server.get_students, Server.getAllStudents in Hreply.
    injection Hreply as <-.
    destruct (Server.query_class req) as [className|];
      destruct (Server.query_search req) as [search|];
      repeat match goal with |- context [if ?b then _ else _] => destruct b end;
      split; repeat apply NoDup_map_filter; assumption. }
  unfold preloadStudentsForOffline. simpl.
  set (offlineStudents := imap (fun j student => offline_student (now j) student) students).
  destruct (OfflineStorage.cacheStudents offlineStudents clock d) as [p d'] eqn:Hcache.
  assert (p = Resolved tt) as ->.
  { unfold OfflineStorage.cacheStudents in Hcache. rewrite Hopen in Hcache. simpl in Hcache.
    destruct (add_students_succeeds clock offlineStudents 0 []) as [s' Hs'].
    - unfold offlineStudents. rewrite (map_imap_offline student_id Server.id); auto.
    - unfold offlineStudents. rewrite (map_imap_offline rollNumber Server.rollNumber); auto.
    - intros x y _ [].
    - rewrite Hs' in Hcache. congruence. }
  simpl. split.
  - intros y. rewrite (cacheStudents_replaces _ _ _ _ Hcache y). split.
    + intros (j & x & Hj & ->). unfold offlineStudents in Hj.
      rewrite imap_offline_lookup in Hj.
      destruct (students !! j) as [student|] eqn:Hs; [|discriminate Hj].
      injection Hj as <-. exists j, student. split; [exact Hs|reflexivity].
    + intros (j & student & Hj & ->). exists j, (offline_student (now j) student).
      unfold offlineStudents. rewrite imap_offline_lookup, Hj. split; reflexivity.
  - unfold OfflineStorage.cacheStudents in Hcache. rewrite Hopen in Hcache. simpl in Hcache.
    destruct (OfflineStorage.add_students clock 0 offlineStudents []); [|discriminate].
    injection Hcache as <-. reflexivity.
Qed.

Lemma preload_caches_the_roster_witness :
  (forall y,
     In y (studentsCache (idb (preloadStudentsForOffline (RosterReturns 200 [raj_patel])
                                 (fun _ => 1700000000800%Z) (fun _ => 1700000000900%Z)
                                 one_record_device))) <->
     exists j student, [raj_patel] !! j = Some student /\
                       y = offline_student ((fun _ => 1700000000900%Z) j) student) /\
  attendanceRecords (idb (preloadStudentsForOffline (RosterReturns 200 [raj_patel])
                            (fun _ => 1700000000800%Z) (fun _ => 1700000000900%Z)
                            one_record_device)) =
    attendanceRecords (idb one_record_device).
Proof.
  apply (preload_caches_the_roster (fun s => s) anonymous_roster_request one_student_storage
           [raj_patel]
           (fun _ => 1700000000800%Z) (fun _ => 1700000000900%Z) one_record_device).
  - reflexivity.
  - apply (bool_decide_unpack _). vm_compute. exact I.
  - apply (bool_decide_unpack _). vm_compute. exact I.
  - reflexivity.
Defined.
